(** * generate_test_case.py: a shallow embedding

    The script compiles a Cairo program, runs it, derives the prover's FRI
    parameters from the number of execution steps and calls the prover.
    This file embeds its functions and states the properties of the
    specification over that embedding.

    Conventions.
    - Python [int] is [Z]; a [List[int]] is [list Z].
    - Python [str] is [string]: every character is a code point below 256.
      [bytes] are strings too; decoding them is a parameter.
    - Python [float] is the kernel's binary64 [float]; division is IEEE 754.
      The natural logarithm of the C library is a parameter, [log_int].
    - [int] of a numeral raises [ValueError] when the numeral has more than
      4300 digits, the interpreter's default limit, which the script never
      changes; below it the conversion is exact.
    - Paths are POSIX paths in [pathlib]'s parsed form.
    - A call either returns a value or raises: [result A].
    - The file system, the three external tools and the console are reached
      through an explicit [OS] interface over an abstract world; every call
      is recorded, with its outcome, in a trace of events.
    - [print] encodes its text for the console before it writes any of it:
      a text the console cannot encode raises [UnicodeEncodeError] and
      nothing is written; a text that was written is recorded as an event. *)

From Stdlib Require Import ZArith List String Ascii Bool Lia Floats DecimalString.
From Stdlib Require DecimalPos.
Import ListNotations.

Local Open Scope string_scope.
Local Open Scope list_scope.
Local Open Scope Z_scope.

(** ** Exceptions and results *)

Inductive exn : Type :=
| ValueError (msg : string)
| ZeroDivisionError
| OverflowError
| TypeError
| UnicodeDecodeError
| UnicodeEncodeError
| RuntimeError (msg : string)
| CalledProcessError (returncode : Z) (cmd : list string)
| SameFileError
| OSError (msg : string).

Inductive result (A : Type) : Type :=
| Ok (a : A)
| Raise (e : exn).

Arguments Ok {A} a.
Arguments Raise {A} e.

Definition rbind {A B : Type} (r : result A) (k : A -> result B) : result B :=
  match r with
  | Ok a => k a
  | Raise e => Raise e
  end.

Notation "'let?' x ':=' r 'in' k" := (rbind r (fun x => k))
  (at level 10, x name, r at level 100, k at level 200).

(** ** The FRI step list *)

Module Fri.

(** Python's [divmod] on integers: floored quotient, remainder with the sign
    of the divisor.  [Z.div] and [Z.modulo] follow the same convention. *)
Definition divmod (a b : Z) : Z * Z := (a / b, a mod b).

(** [[x] * n]: [n] copies of [x], none when [n] is zero or negative. *)
Definition list_mul {A : Type} (x : A) (n : Z) : list A := repeat x (Z.to_nat n).

(** [sum] of a list of integers. *)
Definition sum (l : list Z) : Z := fold_right Z.add 0 l.

(** Lines 129-134 of [compute_fri_step_list]: the decomposition of the
    total into steps.
<<
    (q, r) = divmod(sigma_fri_step_list, 4)
    fri_step_list = [4] * q
    if r > 0:
        fri_step_list.append(r)
    return fri_step_list
>> *)
Definition fri_step_list_of_sigma (sigma_fri_step_list : Z) : list Z :=
  let '(q, r) := divmod sigma_fri_step_list 4 in
  let fri_step_list := list_mul 4 q in
  if r >? 0 then fri_step_list ++ [r] else fri_step_list.

(** [math.ceil] on a float: the least integer not below it.  NaN raises
    [ValueError], an infinity raises [OverflowError]. *)
Definition math_ceil (x : float) : result Z :=
  match Prim2SF x with
  | S754_zero _ => Ok 0
  | S754_infinity _ => Raise OverflowError
  | S754_nan => Raise (ValueError "cannot convert float NaN to integer")
  | S754_finite s m e =>
      let n := if s then Z.neg m else Z.pos m in
      Ok (if 0 <=? e then n * 2 ^ e else - ((- n) / 2 ^ (- e)))
  end.

(** A float that is neither NaN nor an infinity. *)
Definition is_finite (x : float) : bool :=
  match Prim2SF x with
  | S754_zero _ | S754_finite _ _ _ => true
  | S754_infinity _ | S754_nan => false
  end.

Section MathLog.

(** The natural logarithm of a positive integer as the interpreter
    computes it: the C library's [log] applied to the integer converted to
    a double.  It is the one library function the embedding does not
    define; properties that need its value at some point say so. *)
Variable log_int : Z -> float.

(** [math.log(x, base)] on integers: the quotient, in binary64, of the two
    natural logarithms.  A non-positive argument is a domain error. *)
Definition math_log (x base : Z) : result float :=
  if x <=? 0 then Raise (ValueError "math domain error")
  else if base <=? 0 then Raise (ValueError "math domain error")
  else
    let num := log_int x in
    let den := log_int base in
    if PrimFloat.eqb den 0%float then Raise ZeroDivisionError
    else Ok (PrimFloat.div num den).

(** The expression [math.ceil(math.log(n, 2))] of lines 125 and 126. *)
Definition ceil_log2 (n : Z) : result Z :=
  let? l := math_log n 2 in math_ceil l.

(** Lines 125-127: the total the steps have to add up to. *)
Definition sigma_fri_step_list (nb_steps last_layer_degree_bound : Z) : result Z :=
  let? program_n_steps_log := ceil_log2 nb_steps in
  let? last_layer_degree_bound_log := ceil_log2 last_layer_degree_bound in
  Ok (program_n_steps_log + 4 - last_layer_degree_bound_log).

Definition compute_fri_step_list (nb_steps last_layer_degree_bound : Z)
  : result (list Z) :=
  let? sigma := sigma_fri_step_list nb_steps last_layer_degree_bound in
  Ok (fri_step_list_of_sigma sigma).

End MathLog.

(** The value the docstring of [compute_fri_step_list] and the specification
    give the total: logarithms in exact arithmetic, rounded up. *)
Definition sigma_exact (stepCount lastLayerDegreeBound : Z) : Z :=
  Z.log2_up stepCount + 4 - Z.log2_up lastLayerDegreeBound.

(** Natural logarithms, rounded to the nearest double, of the integers the
    examples below use. *)
Definition log_table (n : Z) : float :=
  if n =? 1 then 0%float
  else if n =? 2 then 0x1.62e42fefa39efp-1%float
  else if n =? 4 then 0x1.62e42fefa39efp+0%float
  else if n =? 64 then 0x1.0a2b23f3bab73p+2%float
  else if n =? 512 then 0x1.8f40b5ed9812dp+2%float
  else if n =? 1024 then 0x1.bb9d3beb8c86bp+2%float
  else if n =? 536870912 then 0x1.419ecb712c481p+4%float
  else nan.

End Fri.

(** ** Text: lines, the step-count pattern, decimal numerals *)

Module Text.

(** The characters [str.splitlines] breaks a line at, among the code points
    below 256: LF, VT, FF, CR, FS, GS, RS and NEL. *)
Definition is_line_boundary (c : ascii) : bool :=
  let n := N_of_ascii c in
  ((n =? 10) || (n =? 11) || (n =? 12) || (n =? 13)
   || (n =? 28) || (n =? 29) || (n =? 30) || (n =? 133))%N.

(** [str.splitlines()], the line under construction in [cur].  CR LF counts
    as one boundary; the text after the last boundary is a line only when it
    is not empty. *)
Fixpoint splitlines_from (cur s : string) : list string :=
  match s with
  | EmptyString =>
      match cur with
      | EmptyString => []
      | _ => [cur]
      end
  | String c rest =>
      if is_line_boundary c then
        cur :: match rest with
               | String c' rest' =>
                   if (N_of_ascii c =? 13)%N && (N_of_ascii c' =? 10)%N
                   then splitlines_from "" rest'
                   else splitlines_from "" rest
               | EmptyString => splitlines_from "" rest
               end
      else splitlines_from (cur ++ String c "")%string rest
  end.

Definition splitlines (s : string) : list string := splitlines_from "" s.

(** The class [\d] among the code points below 256: the ten ASCII digits. *)
Definition is_digit (c : ascii) : bool :=
  let n := N_of_ascii c in ((48 <=? n) && (n <=? 57))%N.

(** [s] without the leading [p], when [s] starts with [p]. *)
Fixpoint strip_prefix (p s : string) : option string :=
  match p with
  | EmptyString => Some s
  | String a p' =>
      match s with
      | String b s' => if Ascii.eqb a b then strip_prefix p' s' else None
      | EmptyString => None
      end
  end.

(** The longest run of digits [s] starts with. *)
Fixpoint leading_digits (s : string) : string :=
  match s with
  | String c s' => if is_digit c then String c (leading_digits s') else ""
  | EmptyString => ""
  end.

Definition steps_label : string := "Number of steps: ".

(** [re.match(r"Number of steps: (\d+).*", line)], reduced to its group 1.
    The match is anchored at the start of the line; [\d+] is greedy and the
    [.*] after it accepts whatever follows, so the group is the longest run
    of digits after the label, and the match fails when that run is empty. *)
Definition re_match_steps (line : string) : option string :=
  match strip_prefix steps_label line with
  | Some rest =>
      match leading_digits rest with
      | EmptyString => None
      | ds => Some ds
      end
  | None => None
  end.

(** Decimal numeral of an integer, as [str] and [json.dumps] print it. *)
Definition string_of_Z (z : Z) : string := NilZero.string_of_int (Z.to_int z).

(** The number a string of decimal digits denotes, most significant digit
    first. *)
Definition int_of_digits (ds : string) : Z :=
  fold_left (fun acc c => 10 * acc + (Z.of_N (N_of_ascii c) - 48))
            (list_ascii_of_string ds) 0.

(** [sys.get_int_max_str_digits()]: the longest numeral [int] converts.
    The script leaves it at the interpreter's default. *)
Definition int_max_str_digits : Z := 4300.

(** The message of the [ValueError] that [int] raises on a numeral of
    [digits] digits, more than the limit. *)
Definition int_limit_message (digits : Z) : string :=
  ("Exceeds the limit (" ++ string_of_Z int_max_str_digits
   ++ " digits) for integer string conversion: value has "
   ++ string_of_Z digits
   ++ " digits; use sys.set_int_max_str_digits() to increase the limit")%string.

(** [int(ds)] on a non-empty string of decimal digits.  Every digit counts
    towards the limit, leading zeros too. *)
Definition int_of_str (ds : string) : result Z :=
  let digits := Z.of_nat (String.length ds) in
  if digits >? int_max_str_digits
  then Raise (ValueError (int_limit_message digits))
  else Ok (int_of_digits ds).

(** The loop of [get_nb_steps] over the lines still to scan. *)
Fixpoint first_steps_line (lines : list string) : option string :=
  match lines with
  | [] => None
  | line :: lines' =>
      match re_match_steps line with
      | Some ds => Some ds
      | None => first_steps_line lines'
      end
  end.

Definition not_found_message : string :=
  "Could not find number of steps in the run output. Is --print_info set?".

(** Lines 44-50:
<<
    for line in run_stdout.splitlines():
        if m := re.match(r"Number of steps: (\d+).*", line):
            return int(m.group(1))
    raise ValueError("Could not find number of steps ...")
>> *)
Definition get_nb_steps (run_stdout : string) : result Z :=
  match first_steps_line (splitlines run_stdout) with
  | Some ds => int_of_str ds
  | None => Raise (ValueError not_found_message)
  end.

(** What the specification calls a line matching the pattern
    "Number of steps: <digits>": the label, at least one digit, then
    anything. *)
Definition all_digits (ds : string) : Prop :=
  Forall (fun c => is_digit c = true) (list_ascii_of_string ds).

Definition matches_steps_pattern (line : string) : Prop :=
  exists ds rest, ds <> "" /\ all_digits ds /\ line = (steps_label ++ ds ++ rest)%string.

(** What follows a maximal run of digits does not start with a digit. *)
Definition no_leading_digit (rest : string) : Prop :=
  match rest with
  | String c _ => is_digit c = false
  | EmptyString => True
  end.

(** The digits of such a line: all of them, up to the first other
    character. *)
Definition steps_digits_of (line ds : string) : Prop :=
  ds <> "" /\ all_digits ds /\
  exists rest, line = (steps_label ++ ds ++ rest)%string /\ no_leading_digit rest.

(** A string that holds no line boundary: one line. *)
Fixpoint one_line (s : string) : Prop :=
  match s with
  | EmptyString => True
  | String c s' => is_line_boundary c = false /\ one_line s'
  end.

(** Lines joined by line feeds, as a tool prints them. *)
Definition join_lines (lines : list string) : string :=
  String.concat (String "010" "") lines.

(** Lines ended by carriage return and line feed. *)
Definition join_lines_crlf (lines : list string) : string :=
  String.concat (String "013" (String "010" "")) lines.

(** The first line among [lines] that matches the pattern, and its
    digits: no line before it matches. *)
Definition first_match (lines : list string) (line ds : string) : Prop :=
  exists before after,
    lines = before ++ line :: after
    /\ (forall l, In l before -> ~ matches_steps_pattern l)
    /\ steps_digits_of line ds.

(** The integer a decimal numeral denotes, read by the Standard Library's
    parser of numerals: what the specification calls the integer parsed
    from the digits. *)
Definition numeral_value (ds : string) : option Z :=
  option_map Z.of_uint (NilEmpty.uint_of_string ds).

(** A carriage return directly followed by a line feed ends a line as one
    terminator, not as two. *)
Definition splits_terminator (c : ascii) (rest : string) : Prop :=
  N_of_ascii c = 13%N /\ exists rest', rest = String "010" rest'.

(** The lines of a text, as [str.splitlines] documents them: the text is
    cut at every line terminator, the terminators are dropped, and a text
    that ends in a terminator has no empty line after it. *)
Inductive lines_of : string -> list string -> Prop :=
| lines_none : lines_of "" []
| lines_last (line : string) :
    line <> "" -> one_line line -> lines_of line [line]
| lines_crlf (line rest : string) (lines : list string) :
    one_line line -> lines_of rest lines ->
    lines_of (line ++ String "013" (String "010" rest)) (line :: lines)
| lines_break (line : string) (c : ascii) (rest : string) (lines : list string) :
    one_line line -> is_line_boundary c = true ->
    ~ splits_terminator c rest -> lines_of rest lines ->
    lines_of (line ++ String c rest) (line :: lines).

End Text.

(** ** Paths, as [pathlib.PurePosixPath] holds them *)

Module Paths.

(** A parsed path: the root ([""], ["/"] or ["//"]) and the components
    after it. *)
Record Path : Type := mkPath { root : string; names : list string }.

Definition is_slash (c : ascii) : bool := (N_of_ascii c =? 47)%N.
Definition is_dot (c : ascii) : bool := (N_of_ascii c =? 46)%N.

(** [s.split("/")], the component under construction in [cur]. *)
Fixpoint split_slash_from (cur s : string) : list string :=
  match s with
  | EmptyString => [cur]
  | String c rest =>
      if is_slash c then cur :: split_slash_from "" rest
      else split_slash_from (cur ++ String c "")%string rest
  end.

(** A component the parser drops: the empty one and ["."]. *)
Definition is_skipped (component : string) : bool :=
  String.eqb component "" || String.eqb component ".".

Definition root_of (s : string) : string :=
  match s with
  | String c1 (String c2 (String c3 _)) =>
      if is_slash c1 then
        if is_slash c2 then if is_slash c3 then "/" else "//" else "/"
      else ""
  | String c1 (String c2 EmptyString) =>
      if is_slash c1 then if is_slash c2 then "//" else "/" else ""
  | String c1 EmptyString => if is_slash c1 then "/" else ""
  | EmptyString => ""
  end.

(** [Path(s)]. *)
Definition Path_of_string (s : string) : Path :=
  mkPath (root_of s)
         (filter (fun c => negb (is_skipped c)) (split_slash_from "" s)).

(** [str(p)]. *)
Definition path_str (p : Path) : string :=
  match names p with
  | [] => if String.eqb (root p) "" then "." else root p
  | ns => (root p ++ String.concat "/" ns)%string
  end.

(** [p / s]: a rooted [s] replaces [p], a relative one is appended. *)
Definition joinpath (p : Path) (s : string) : Path :=
  let q := Path_of_string s in
  if String.eqb (root q) "" then mkPath (root p) (names p ++ names q) else q.

(** [p.name]: the last component, empty when there is none. *)
Definition name (p : Path) : string := last (names p) "".

(** [s] cut at its last dot: what stands before and after it. *)
Fixpoint rsplit_dot (s : string) : option (string * string) :=
  match s with
  | EmptyString => None
  | String c s' =>
      match rsplit_dot s' with
      | Some (a, b) => Some (String c a, b)
      | None => if is_dot c then Some ("", s') else None
      end
  end.

(** [p.stem]: the name without its last suffix; a dot that starts or ends
    the name opens no suffix. *)
Definition stem_of_name (n : string) : string :=
  match rsplit_dot n with
  | Some (a, b) => if String.eqb a "" || String.eqb b "" then n else a
  | None => n
  end.

Definition stem (p : Path) : string := stem_of_name (name p).

(** A string without a slash. *)
Fixpoint no_slash (s : string) : Prop :=
  match s with
  | EmptyString => True
  | String c s' => is_slash c = false /\ no_slash s'
  end.

(** [p] lies directly in the directory [dir]. *)
Definition in_directory (dir p : Path) : Prop :=
  p = mkPath (root dir) (names dir ++ [name p]).

(** The naming convention of the specification:
    [<programBaseName>_<artifactKind>.<ext>]. *)
Definition named_by_convention (programBaseName : string) (p : Path) : Prop :=
  exists artifactKind ext,
    artifactKind <> "" /\ ext <> ""
    /\ name p = (programBaseName ++ "_" ++ artifactKind ++ "." ++ ext)%string.

End Paths.

(** ** JSON documents, as [json.dump(obj, f, indent=2)] writes them *)

Module Json.

#[warning="-register-all"]
Inductive json : Type :=
| JBool (b : bool)
| JInt (z : Z)
| JStr (s : string)
| JList (items : list json)
| JDict (items : list (string * json)).

Definition hex_digit (n : N) : ascii :=
  ascii_of_N (if (n <? 10)%N then 48 + n else 87 + n)%N.

(** One character inside a JSON string, with [ensure_ascii] on. *)
Definition escape_char (c : ascii) : string :=
  let n := N_of_ascii c in
  if (n =? 34)%N then String "092" (String "034" "")
  else if (n =? 92)%N then String "092" (String "092" "")
  else if (n =? 10)%N then String "092" "n"
  else if (n =? 13)%N then String "092" "r"
  else if (n =? 9)%N then String "092" "t"
  else if (n =? 8)%N then String "092" "b"
  else if (n =? 12)%N then String "092" "f"
  else if ((32 <=? n) && (n <=? 126))%N then String c ""
  else (String "092" "u00" ++ String (hex_digit (n / 16)) (String (hex_digit (n mod 16)) ""))%string.

Definition quote (s : string) : string :=
  String "034"
    (String.concat "" (map escape_char (list_ascii_of_string s)) ++ String "034" "")%string.

Fixpoint spaces (n : nat) : string :=
  match n with
  | O => ""
  | S n' => String " " (spaces n')
  end.

(** The line break and indentation before an item at nesting [level]. *)
Definition newline_indent (level : nat) : string :=
  String "010" (spaces (2 * level)).

Fixpoint dumps_at (level : nat) (j : json) : string :=
  match j with
  | JBool true => "true"
  | JBool false => "false"
  | JInt z => Text.string_of_Z z
  | JStr s => quote s
  | JList [] => "[]"
  | JList items =>
      ("[" ++ newline_indent (S level)
       ++ String.concat ("," ++ newline_indent (S level))
                        (map (dumps_at (S level)) items)
       ++ newline_indent level ++ "]")%string
  | JDict [] => "{}"
  | JDict items =>
      ("{" ++ newline_indent (S level)
       ++ String.concat ("," ++ newline_indent (S level))
            (map (fun kv => match kv with
                            | (k, v) => (quote k ++ ": " ++ dumps_at (S level) v)%string
                            end) items)
       ++ newline_indent level ++ "}")%string
  end.

Definition dumps (j : json) : string := dumps_at 0 j.

End Json.

(** ** The operating system, as the script reaches it *)

Module Sys.

Import Paths.

(** One element of a command line.  [OptPath flag p] is the f-string
    [f"{flag}={p}"]. *)
Inductive arg : Type :=
| Lit (s : string)
| PathArg (p : Path)
| OptPath (flag : string) (p : Path).

Definition render_arg (a : arg) : string :=
  match a with
  | Lit s => s
  | PathArg p => path_str p
  | OptPath flag p => (flag ++ "=" ++ path_str p)%string
  end.

(** [subprocess.CompletedProcess] with the output captured, as bytes. *)
Record CompletedProcess : Type := mkCompleted {
  returncode : Z;
  stdout : string;
  stderr : string
}.

(** How [shutil.copy2] ends. *)
Inductive copy_outcome : Type :=
| Copied
| SameFile
| CopyFailed (msg : string).

(** The calls the script makes, over the states [World] of the machine.
    A call that fails at the system level gives the message of the
    [OSError] it raises.  [os_encodes] tells whether the encoding of the
    console has every character of a text. *)
Record OS (World : Type) : Type := mkOS {
  os_is_file : World -> Path -> bool;
  os_mkdir : World -> Path -> option string * World;
  os_copy2 : World -> Path -> Path -> copy_outcome * World;
  os_run : World -> list arg -> (string + CompletedProcess) * World;
  os_write : World -> Path -> string -> option string * World;
  os_encodes : string -> bool
}.

Arguments os_is_file {World} o w p.
Arguments os_mkdir {World} o w p.
Arguments os_copy2 {World} o w src dst.
Arguments os_run {World} o w argv.
Arguments os_write {World} o w p content.
Arguments os_encodes {World} o text.

(** What the script prints. *)
Inductive message : Type :=
| MsgRunFailed (stderr_text : string)
| MsgCouldNotProve (stderr_bytes : string)
| MsgProofGenerated (proof_file : Path).

(** A call made, with its outcome; [EvPrint] is a message the console has
    written. *)
Inductive event : Type :=
| EvMkdir (p : Path) (err : option string)
| EvCopy (src dst : Path) (outcome : copy_outcome)
| EvRun (argv : list arg) (outcome : string + CompletedProcess)
| EvWrite (p : Path) (content : string) (err : option string)
| EvPrint (msg : message).

(** Modelled from the spec: the command-line contract of the three external
    tools (their code is not part of the repository).  The compiler writes
    the path after [--output]; the execution tool writes the public input,
    private input, trace and memory files it is given; the prover writes
    [--out_file].  Every other path on a command line is read. *)
Definition is_output_flag (flag : string) : bool :=
  existsb (String.eqb flag)
    ["--air_public_input"; "--air_private_input"; "--trace_file";
     "--memory_file"; "--out_file"].

Fixpoint command_outputs (argv : list arg) : list Path :=
  match argv with
  | [] => []
  | Lit s :: rest =>
      match rest with
      | PathArg p :: rest' =>
          if String.eqb s "--output" then p :: command_outputs rest'
          else command_outputs rest'
      | _ => command_outputs rest
      end
  | PathArg _ :: rest => command_outputs rest
  | OptPath flag p :: rest =>
      if is_output_flag flag then p :: command_outputs rest
      else command_outputs rest
  end.

(** The files a call can create: the file written, the copy in the
    destination directory, the outputs a tool is asked for. *)
Definition event_files (ev : event) : list Path :=
  match ev with
  | EvMkdir _ _ => []
  | EvCopy src dst SameFile => []
  | EvCopy src dst _ => [joinpath dst (name src)]
  | EvRun argv _ => command_outputs argv
  | EvWrite p _ _ => [p]
  | EvPrint _ => []
  end.

Definition created_files (trace : list event) : list Path :=
  flat_map event_files trace.

(** The name of the tool a command line starts with. *)
Definition tool_of (argv : list arg) : string :=
  match argv with
  | a :: _ => render_arg a
  | [] => ""
  end.

End Sys.

(** ** The script *)

Module Script.

Import Fri Text Paths Json Sys.

Record ExecutionArtifacts : Type := mkArtifacts {
  public_input : Path;
  private_input : Path;
  memory : Path;
  trace : Path;
  nb_steps : Z
}.

(** [argparse.Namespace] of [parse_args]: [program] is required, the two
    options are [None] when absent. *)
Record Namespace : Type := mkNamespace {
  program : string;
  program_input : option string;
  output_dir : option string
}.

(** The engine-tuning document. *)
Definition config : json :=
  JDict
    [("cached_lde_config",
      JDict [("store_full_lde", JBool false); ("use_fft_for_eval", JBool false)]);
     ("constraint_polynomial_task_size", JInt 256);
     ("n_out_of_memory_merkle_layers", JInt 1);
     ("table_prover_n_tasks_per_segment", JInt 32)].

(** The cryptographic-parameter document. *)
Definition parameters (fri_step_list : list Z) (last_layer_degree_bound : Z) : json :=
  JDict
    [("field", JStr "PrimeField0");
     ("stark",
      JDict
        [("fri",
          JDict
            [("fri_step_list", JList (map JInt fri_step_list));
             ("last_layer_degree_bound", JInt last_layer_degree_bound);
             ("n_queries", JInt 18);
             ("proof_of_work_bits", JInt 24)]);
         ("log_n_cosets", JInt 4)]);
     ("use_extension_field", JBool false)].

Definition compile_command (program_path output_path : Path) : list arg :=
  [Lit "cairo-compile"; PathArg program_path; Lit "--output";
   PathArg output_path; Lit "--proof_mode"].

Definition run_command (compiled_program_path public_input_file
                          private_input_file trace_file memory_file : Path)
                       (program_input : option Path) : list arg :=
  [Lit "cairo-run";
   OptPath "--program" compiled_program_path;
   Lit "--layout=starknet_with_keccak";
   OptPath "--air_public_input" public_input_file;
   OptPath "--air_private_input" private_input_file;
   OptPath "--trace_file" trace_file;
   OptPath "--memory_file" memory_file;
   Lit "--print_output";
   Lit "--proof_mode";
   Lit "--print_info"]
  ++ match program_input with
     | Some p => [OptPath "--program_input" p]
     | None => []
     end.

Definition prove_command (artifacts : ExecutionArtifacts)
                         (prover_config prover_parameters output_proof_path : Path)
  : list arg :=
  [Lit "cpu_air_prover";
   OptPath "--out_file" output_proof_path;
   OptPath "--private_input_file" (private_input artifacts);
   OptPath "--public_input_file" (public_input artifacts);
   OptPath "--prover_config_file" prover_config;
   OptPath "--parameter_file" prover_parameters].

Section Pipeline.

Variable log_int : Z -> float.
Variable World : Type.
Variable os : OS World.

(** [bytes.decode("utf-8")]; [None] when the bytes are not valid UTF-8. *)
Variable decode_utf8 : string -> option string.

(** The machine and the calls made so far, oldest first. *)
Definition state : Type := World * list event.

(** A computation of the script: it ends in a value or an exception, and
    in a new state either way. *)
Definition M (A : Type) : Type := state -> result A * state.

Definition ret {A : Type} (a : A) : M A := fun s => (Ok a, s).

Definition raise {A : Type} (e : exn) : M A := fun s => (Raise e, s).

Definition bind {A B : Type} (m : M A) (k : A -> M B) : M B :=
  fun s =>
    match m s with
    | (Ok a, s') => k a s'
    | (Raise e, s') => (Raise e, s')
    end.

Definition lift {A : Type} (r : result A) : M A := fun s => (r, s).

Local Notation "x <- m ;; k" := (bind m (fun x => k))
  (at level 61, m at next level, right associativity).
Local Notation "m ;;; k" := (bind m (fun _ => k))
  (at level 61, right associativity).

(** [try: m  except shutil.SameFileError: pass]. *)
Definition except_SameFileError (m : M unit) : M unit :=
  fun s =>
    match m s with
    | (Raise SameFileError, s') => (Ok tt, s')
    | r => r
    end.

Definition is_file (p : Path) : M bool :=
  fun s => (Ok (os_is_file os (fst s) p), s).

(** [p.mkdir(parents=True, exist_ok=True)]. *)
Definition mkdir (p : Path) : M unit :=
  fun s =>
    let '(err, w) := os_mkdir os (fst s) p in
    (match err with
     | None => Ok tt
     | Some msg => Raise (OSError msg)
     end, (w, snd s ++ [EvMkdir p err])).

Definition copy2 (src dst : Path) : M unit :=
  fun s =>
    let '(outcome, w) := os_copy2 os (fst s) src dst in
    (match outcome with
     | Copied => Ok tt
     | SameFile => Raise SameFileError
     | CopyFailed msg => Raise (OSError msg)
     end, (w, snd s ++ [EvCopy src dst outcome])).

(** [subprocess.run(argv, check=False, capture_output=True)]. *)
Definition subprocess_run (argv : list arg) : M CompletedProcess :=
  fun s =>
    let '(outcome, w) := os_run os (fst s) argv in
    (match outcome with
     | inr completed => Ok completed
     | inl msg => Raise (OSError msg)
     end, (w, snd s ++ [EvRun argv outcome])).

(** [CompletedProcess.check_returncode()]. *)
Definition check_returncode (argv : list arg) (completed : CompletedProcess) : M unit :=
  if returncode completed =? 0 then ret tt
  else raise (CalledProcessError (returncode completed) (map render_arg argv)).

(** [with p.open("w") as f: json.dump(obj, f, indent=2)]. *)
Definition write_json (p : Path) (obj : json) : M unit :=
  fun s =>
    let content := dumps obj in
    let '(err, w) := os_write os (fst s) p content in
    (match err with
     | None => Ok tt
     | Some msg => Raise (OSError msg)
     end, (w, snd s ++ [EvWrite p content err])).

(** Whether the console can encode the text of a message.  The text of
    [MsgCouldNotProve] is the [repr] of bytes in an f-string: it is ASCII,
    which the console always encodes. *)
Definition encodes (msg : message) : bool :=
  match msg with
  | MsgRunFailed text => os_encodes os ("Run failed: " ++ text)
  | MsgCouldNotProve _ => true
  | MsgProofGenerated proof_file =>
      os_encodes os ("Proof successfully generated: " ++ path_str proof_file)
  end.

(** [print(text)]: the text is encoded first; when that fails nothing is
    written. *)
Definition print (msg : message) : M unit :=
  fun s =>
    if encodes msg then (Ok tt, (fst s, snd s ++ [EvPrint msg]))
    else (Raise UnicodeEncodeError, s).

Definition decode (bytes : string) : M string :=
  match decode_utf8 bytes with
  | Some text => ret text
  | None => raise UnicodeDecodeError
  end.

Definition compile_cairo_program (program_path output_path : Path) : M unit :=
  let argv := compile_command program_path output_path in
  completed <- subprocess_run argv ;;
  check_returncode argv completed.

Definition run_cairo_program (compiled_program_path output_dir : Path)
                             (program_name : string)
                             (program_input : option Path)
  : M ExecutionArtifacts :=
  let public_input_file := joinpath output_dir (program_name ++ "_public_input.json") in
  let private_input_file := joinpath output_dir (program_name ++ "_private_input.json") in
  let memory_file := joinpath output_dir (program_name ++ "_memory.bin") in
  let trace_file := joinpath output_dir (program_name ++ "_trace.bin") in
  let command :=
    run_command compiled_program_path public_input_file private_input_file
                trace_file memory_file program_input in
  result <- subprocess_run command ;;
  (if returncode result =? 0 then ret tt
   else
     text <- decode (stderr result) ;;
     print (MsgRunFailed text) ;;;
     check_returncode command result) ;;;
  text <- decode (stdout result) ;;
  nb_steps <- lift (get_nb_steps text) ;;
  ret (mkArtifacts public_input_file private_input_file memory_file
                   trace_file nb_steps).

Definition generate_prover_config (artifacts : ExecutionArtifacts)
                                  (output_dir : Path) : M (Path * Path) :=
  let config_file := joinpath output_dir "cpu_air_prover_config.json" in
  let parameter_file := joinpath output_dir "cpu_air_params.json" in
  let last_layer_degree_bound := 64 in
  fri_step_list <-
    lift (compute_fri_step_list log_int (nb_steps artifacts) last_layer_degree_bound) ;;
  write_json config_file config ;;;
  write_json parameter_file (parameters fri_step_list last_layer_degree_bound) ;;;
  ret (config_file, parameter_file).

Definition prove_cairo_program (artifacts : ExecutionArtifacts)
                               (prover_config prover_parameters
                                  output_proof_path : Path) : M unit :=
  let argv := prove_command artifacts prover_config prover_parameters
                            output_proof_path in
  result <- subprocess_run argv ;;
  if returncode result =? 0 then ret tt
  else
    print (MsgCouldNotProve (stderr result)) ;;;
    check_returncode argv result.

(** Lines 237-260 of [main]: compile, run, configure, prove. *)
Definition main_after_copy (program_path : Path) (program_name : string)
                           (output_dir : Path) : M unit :=
  let compiled_program_path := joinpath output_dir (program_name ++ "_compiled.json") in
  compile_cairo_program program_path compiled_program_path ;;;
  artifacts <- run_cairo_program compiled_program_path output_dir program_name None ;;
  files <- generate_prover_config artifacts output_dir ;;
  let proof_file := joinpath output_dir (program_name ++ "_proof.json") in
  prove_cairo_program artifacts (fst files) (snd files) proof_file ;;;
  print (MsgProofGenerated proof_file).

(** Lines 231-235: the copy of the program into the output directory. *)
Definition copy_program (program_path output_dir : Path) : M unit :=
  except_SameFileError (copy2 program_path output_dir).

Definition main (args : Namespace) : M unit :=
  let program_path := Path_of_string (program args) in
  program_is_file <- is_file program_path ;;
  if negb program_is_file then
    raise (RuntimeError ("Program " ++ path_str program_path ++ " is not a file"))
  else
    let program_input_path :=
      match program_input args with
      | Some s => if String.eqb s "" then None else Some (Path_of_string s)
      | None => None
      end in
    input_missing <-
      match program_input_path with
      | Some p => is_input <- is_file p ;; ret (negb is_input)
      | None => ret false
      end ;;
    if (input_missing : bool) then
      raise (RuntimeError
               ("Program input file "
                ++ match program_input_path with
                   | Some p => path_str p
                   | None => ""
                   end ++ " is not a file"))
    else
      let program_name := stem program_path in
      match output_dir args with
      | None => raise TypeError
      | Some dir =>
          let output_dir := Path_of_string dir in
          mkdir output_dir ;;;
          copy_program program_path output_dir ;;;
          main_after_copy program_path program_name output_dir
      end.

End Pipeline.

Arguments compile_cairo_program {World} os program_path output_path.
Arguments run_cairo_program {World} os decode_utf8 compiled_program_path
  output_dir program_name program_input.
Arguments generate_prover_config log_int {World} os artifacts output_dir.
Arguments prove_cairo_program {World} os artifacts prover_config
  prover_parameters output_proof_path.
Arguments main_after_copy log_int {World} os decode_utf8 program_path
  program_name output_dir.
Arguments copy_program {World} os program_path output_dir.
Arguments main log_int {World} os decode_utf8 args.

(** *** A scripted machine, for the concrete runs below

    Every path is a file, directories can be made, files can be written,
    the console encodes every text, the copy ends as [copy] says and a tool
    answers as [tool] says. *)
Definition scripted_os (copy : copy_outcome) (tool : list arg -> CompletedProcess)
  : OS unit :=
  mkOS unit
       (fun _ _ => true)
       (fun w _ => (None, w))
       (fun w _ _ => (copy, w))
       (fun w argv => (inr (tool argv), w))
       (fun w _ _ => (None, w))
       (fun _ => true).

(** Every tool succeeds; the execution tool reports [report]. *)
Definition tools_ok (report : string) (argv : list arg) : CompletedProcess :=
  if String.eqb (tool_of argv) "cairo-run" then mkCompleted 0 report ""
  else mkCompleted 0 "" "".

(** The execution tool exits with status 1; the others succeed. *)
Definition tools_run_fails (argv : list arg) : CompletedProcess :=
  if String.eqb (tool_of argv) "cairo-run" then mkCompleted 1 "" "Error: trap"
  else mkCompleted 0 "" "".

(** Bytes that are plain ASCII decode to themselves. *)
Definition decode_ascii (bytes : string) : option string := Some bytes.

Definition fib_args : Namespace := mkNamespace "fib.cairo" None (Some "out").

Definition report_512 : string :=
  String.concat (String "010" "")
    ["Program output:"; "  55"; ""; "Number of steps: 512 (originally 300)";
     "Used memory cells: 1024"].

(** A report with two step-count lines. *)
Definition report_777 : string :=
  String.concat (String "010" "")
    ["Program output:"; "  1"; "Number of steps: 777 (extra text)";
     "Number of steps: 5"].

(** A report the execution tool prints without [--print_info]. *)
Definition report_plain : string :=
  String.concat (String "010" "") ["Program output:"; "  1"; "steps: 777"].

(** A report of no step at all. *)
Definition report_zero : string := "Number of steps: 0".

(** A numeral of 4301 digits, the step-count line that carries it and a
    report with that line. *)
Definition long_numeral : string :=
  string_of_list_ascii (repeat "1"%char 4301).

Definition long_steps_line : string := (steps_label ++ long_numeral)%string.

Definition report_long : string :=
  join_lines ["Program output:"; "  1"; long_steps_line].

(** The numeral of 512 behind 4298 zeros: 4301 digits. *)
Definition padded_numeral : string :=
  (string_of_list_ascii (repeat "0"%char 4298) ++ "512")%string.

Definition padded_steps_line : string := (steps_label ++ padded_numeral)%string.

Definition report_padded : string :=
  join_lines [padded_steps_line; "Used memory cells: 1024"].

(** The files written by the script itself, with their contents, oldest
    first. *)
Definition written (t : list event) : list (Path * string) :=
  flat_map (fun ev => match ev with
                      | EvWrite p content _ => [(p, content)]
                      | _ => []
                      end) t.

(** The contents alone: the documents. *)
Definition documents (t : list event) : list string := map snd (written t).

(** The run of [fib.cairo] into [out] on a machine where all goes well. *)
Definition fib_run : result unit * (unit * list event) :=
  main log_table (scripted_os Copied (tools_ok report_512)) decode_ascii
       fib_args (tt, []).

(** The same run when the execution tool fails. *)
Definition fib_failed_run : result unit * (unit * list event) :=
  main log_table (scripted_os Copied tools_run_fails) decode_ascii
       fib_args (tt, []).

(** The same run when the program already lies in the output directory. *)
Definition fib_same_file_run : result unit * (unit * list event) :=
  main log_table (scripted_os SameFile (tools_ok report_512)) decode_ascii
       fib_args (tt, []).

(** The command line of the execution tool in those runs, and what the
    failing tool gives back. *)
Definition fib_run_command : list arg :=
  run_command (Path_of_string "out/fib_compiled.json")
              (Path_of_string "out/fib_public_input.json")
              (Path_of_string "out/fib_private_input.json")
              (Path_of_string "out/fib_trace.bin")
              (Path_of_string "out/fib_memory.bin") None.

Definition fib_failure : CompletedProcess := mkCompleted 1 "" "Error: trap".

(** An execution whose report counts no step. *)
Definition zero_steps_run : result ExecutionArtifacts * (unit * list event) :=
  run_cairo_program (scripted_os Copied (tools_ok report_zero)) decode_ascii
                    (Path_of_string "out/fib_compiled.json")
                    (Path_of_string "out") "fib" None (tt, []).

(** The artifacts that execution returns. *)
Definition zero_steps_artifacts : ExecutionArtifacts :=
  mkArtifacts (Path_of_string "out/fib_public_input.json")
              (Path_of_string "out/fib_private_input.json")
              (Path_of_string "out/fib_memory.bin")
              (Path_of_string "out/fib_trace.bin") 0.

(** Two artifacts of 512 steps that share nothing else. *)
Definition artifacts_a : ExecutionArtifacts :=
  mkArtifacts (Path_of_string "a/x_public_input.json")
              (Path_of_string "a/x_private_input.json")
              (Path_of_string "a/x_memory.bin")
              (Path_of_string "a/x_trace.bin") 512.

Definition artifacts_b : ExecutionArtifacts :=
  mkArtifacts (Path_of_string "b/y_public_input.json")
              (Path_of_string "b/y_private_input.json")
              (Path_of_string "b/y_memory.bin")
              (Path_of_string "b/y_trace.bin") 512.

(** The configuration stage on each of them, into different directories. *)
Definition config_run_a : result (Path * Path) * (unit * list event) :=
  generate_prover_config log_table (scripted_os Copied (tools_ok ""))
                         artifacts_a (Path_of_string "a") (tt, []).

Definition config_run_b : result (Path * Path) * (unit * list event) :=
  generate_prover_config log_table (scripted_os SameFile tools_run_fails)
                         artifacts_b (Path_of_string "b") (tt, []).

(** A machine whose every answer is given: which paths are files, whether
    the directory can be made, how the copy ends, what a tool gives back
    and which files cannot be written.  Its console encodes every text. *)
Definition machine (files : Path -> bool) (mkdir_error : option string)
           (copy : copy_outcome) (tool : list arg -> string + CompletedProcess)
           (write_error : Path -> option string) : OS unit :=
  mkOS unit
       (fun _ p => files p)
       (fun w _ => (mkdir_error, w))
       (fun w _ _ => (copy, w))
       (fun w argv => (tool argv, w))
       (fun w p _ => (write_error p, w))
       (fun _ => true).

(** The compiler exits with status 1. *)
Definition tools_compile_fails (argv : list arg) : CompletedProcess :=
  if String.eqb (tool_of argv) "cairo-compile"
  then mkCompleted 1 "" "fib.cairo:1:1: Unexpected token"
  else mkCompleted 0 "" "".

(** The compiler and the execution tool succeed, the prover exits with
    status 1. *)
Definition tools_prove_fails (argv : list arg) : CompletedProcess :=
  if String.eqb (tool_of argv) "cairo-run" then mkCompleted 0 report_512 ""
  else if String.eqb (tool_of argv) "cpu_air_prover"
       then mkCompleted 1 "" "Out of memory"
       else mkCompleted 0 "" "".

(** Arguments with a program input, and arguments without an output
    directory. *)
Definition fib_args_with_input : Namespace :=
  mkNamespace "fib.cairo" (Some "input.json") (Some "out").

Definition fib_args_no_output : Namespace := mkNamespace "fib.cairo" None None.

(** Runs of [main] on [fib.cairo] that go wrong at one stage each. *)
Definition fib_compile_failed_run : result unit * (unit * list event) :=
  main log_table (scripted_os Copied tools_compile_fails) decode_ascii
       fib_args (tt, []).

Definition fib_prove_failed_run : result unit * (unit * list event) :=
  main log_table (scripted_os Copied tools_prove_fails) decode_ascii
       fib_args (tt, []).

Definition fib_mkdir_failed_run : result unit * (unit * list event) :=
  main log_table
       (machine (fun _ => true) (Some "Permission denied") Copied
                (fun argv => inr (tools_ok report_512 argv)) (fun _ => None))
       decode_ascii fib_args (tt, []).

(** The run with a program input that is a file. *)
Definition fib_run_with_input : result unit * (unit * list event) :=
  main log_table (scripted_os Copied (tools_ok report_512)) decode_ascii
       fib_args_with_input (tt, []).

(** The configuration stage on a machine where the engine-tuning document
    cannot be written. *)
Definition config_run_unwritable : result (Path * Path) * (unit * list event) :=
  generate_prover_config log_table
    (machine (fun _ => true) None Copied
             (fun argv => inr (tools_ok "" argv))
             (fun p => if String.eqb (name p) "cpu_air_prover_config.json"
                       then Some "Read-only file system" else None))
    artifacts_a (Path_of_string "a") (tt, []).

(** *** A console that encodes ASCII only *)

Definition is_ascii (text : string) : bool :=
  forallb (fun c => (N_of_ascii c <? 128)%N) (list_ascii_of_string text).

(** The scripted machine with such a console. *)
Definition ascii_console_os (copy : copy_outcome)
           (tool : list arg -> CompletedProcess) : OS unit :=
  mkOS unit
       (fun _ _ => true)
       (fun w _ => (None, w))
       (fun w _ _ => (copy, w))
       (fun w argv => (inr (tool argv), w))
       (fun w _ _ => (None, w))
       is_ascii.

(** UTF-8 on the bytes of code points below 256: a byte below 128 stands
    for itself, the bytes 194 and 195 start a sequence of two; any other
    byte is refused. *)
Fixpoint decode_utf8_two_bytes (bytes : string) : option string :=
  match bytes with
  | EmptyString => Some ""
  | String b rest =>
      let n := N_of_ascii b in
      if (n <? 128)%N
      then option_map (String b) (decode_utf8_two_bytes rest)
      else
        match rest with
        | String b' rest' =>
            let n' := N_of_ascii b' in
            if ((194 <=? n) && (n <=? 195) && (128 <=? n') && (n' <=? 191))%N
            then option_map (String (ascii_of_N ((n - 192) * 64 + (n' - 128))))
                            (decode_utf8_two_bytes rest')
            else None
        | EmptyString => None
        end
  end.

(** The execution tool exits with status 1; its error output holds the two
    bytes of a letter with an accent. *)
Definition tools_run_fails_accent (argv : list arg) : CompletedProcess :=
  if String.eqb (tool_of argv) "cairo-run"
  then mkCompleted 1 "" ("Erreur: d" ++ String "195" (String "169" "passement"))
  else mkCompleted 0 "" "".

(** The run of [fib.cairo] when that tool fails and the console cannot
    encode its error output. *)
Definition fib_unprintable_run : result unit * (unit * list event) :=
  main log_table (ascii_console_os Copied tools_run_fails_accent)
       decode_utf8_two_bytes fib_args (tt, []).

(** A program whose name the console cannot encode, and its run on a
    machine where all else goes well. *)
Definition accent_args : Namespace :=
  mkNamespace ("caf" ++ String "233" ".cairo") None (Some "out").

Definition accent_run : result unit * (unit * list event) :=
  main log_table (ascii_console_os Copied (tools_ok report_512)) decode_ascii
       accent_args (tt, []).

End Script.

(** * Properties *)

Import Fri Text Paths Json Sys Script.

(** ** Results *)

Lemma rbind_Ok_inv {A B : Type} (r : result A) (k : A -> result B) (b : B) :
  rbind r k = Ok b -> exists a, r = Ok a /\ k a = Ok b.
Proof.
  destruct r as [a | e]; simpl; intros H.
  - exists a. split; [reflexivity | exact H].
  - discriminate H.
Qed.

(** ** The decomposition of the total *)

Section Decomposition.

Lemma sum_app (l1 l2 : list Z) : sum (l1 ++ l2) = sum l1 + sum l2.
Proof.
  induction l1 as [| x l1 IH]; simpl.
  - reflexivity.
  - unfold sum in IH |- *. simpl. rewrite IH. lia.
Qed.

Lemma sum_repeat (x : Z) (n : nat) : sum (repeat x n) = Z.of_nat n * x.
Proof.
  induction n as [| n IH].
  - reflexivity.
  - change (sum (repeat x (S n))) with (x + sum (repeat x n)).
    rewrite IH. lia.
Qed.

(** The source's three lines, read as one expression. *)
Lemma fri_step_list_of_sigma_eq (sigma : Z) :
  fri_step_list_of_sigma sigma
  = list_mul 4 (sigma / 4) ++ (if sigma mod 4 >? 0 then [sigma mod 4] else []).
Proof.
  unfold fri_step_list_of_sigma, divmod.
  destruct (sigma mod 4 >? 0).
  - reflexivity.
  - now rewrite app_nil_r.
Qed.

(** A non-negative total is what the steps add up to. *)
Lemma fri_step_list_of_sigma_sum (sigma : Z) :
  0 <= sigma -> sum (fri_step_list_of_sigma sigma) = sigma.
Proof.
  intros Hs.
  rewrite fri_step_list_of_sigma_eq, sum_app.
  unfold list_mul. rewrite sum_repeat.
  assert (Hq : 0 <= sigma / 4) by (apply Z.div_pos; lia).
  rewrite Z2Nat.id by exact Hq.
  pose proof (Z.mod_pos_bound sigma 4 ltac:(lia)) as Hr.
  pose proof (Z.div_mod sigma 4 ltac:(lia)) as Hdm.
  destruct (sigma mod 4 >? 0) eqn:Hpos.
  - unfold sum. simpl. lia.
  - rewrite Z.gtb_ltb in Hpos. apply Z.ltb_ge in Hpos.
    unfold sum. simpl. lia.
Qed.

(** Whatever the total, a step is between 1 and 4. *)
Lemma fri_step_list_of_sigma_range (sigma : Z) :
  Forall (fun x => 1 <= x <= 4) (fri_step_list_of_sigma sigma).
Proof.
  rewrite fri_step_list_of_sigma_eq.
  apply Forall_app. split.
  - unfold list_mul. apply Forall_forall. intros x Hx.
    apply repeat_spec in Hx. lia.
  - pose proof (Z.mod_pos_bound sigma 4 ltac:(lia)) as Hr.
    destruct (sigma mod 4 >? 0) eqn:Hpos.
    + constructor; [| constructor].
      rewrite Z.gtb_ltb in Hpos. apply Z.ltb_lt in Hpos. lia.
    + constructor.
Qed.

(** Steps of 4, then at most one smaller step. *)
Lemma fri_step_list_of_sigma_shape (sigma : Z) :
  exists (k : nat) (tail : list Z),
    fri_step_list_of_sigma sigma = repeat 4 k ++ tail
    /\ (tail = [] \/ exists r, tail = [r] /\ 1 <= r < 4).
Proof.
  rewrite fri_step_list_of_sigma_eq.
  exists (Z.to_nat (sigma / 4)).
  pose proof (Z.mod_pos_bound sigma 4 ltac:(lia)) as Hr.
  destruct (sigma mod 4 >? 0) eqn:Hpos.
  - exists [sigma mod 4]. split; [reflexivity |].
    right. exists (sigma mod 4). split; [reflexivity |].
    rewrite Z.gtb_ltb in Hpos. apply Z.ltb_lt in Hpos. lia.
  - exists []. split; [reflexivity | now left].
Qed.

(** A negative total leaves the remainder alone. *)
Lemma fri_step_list_of_sigma_negative (sigma : Z) :
  sigma < 0 ->
  fri_step_list_of_sigma sigma
  = if sigma mod 4 =? 0 then [] else [sigma mod 4].
Proof.
  intros Hneg.
  rewrite fri_step_list_of_sigma_eq.
  assert (Hq : sigma / 4 < 0) by (apply Z.div_lt_upper_bound; lia).
  unfold list_mul.
  replace (Z.to_nat (sigma / 4)) with 0%nat by lia.
  pose proof (Z.mod_pos_bound sigma 4 ltac:(lia)) as Hr.
  destruct (sigma mod 4 =? 0) eqn:Hz.
  - apply Z.eqb_eq in Hz. rewrite Hz. reflexivity.
  - apply Z.eqb_neq in Hz.
    assert (Hpos : (sigma mod 4 >? 0) = true).
    { rewrite Z.gtb_ltb. apply Z.ltb_lt. lia. }
    rewrite Hpos. reflexivity.
Qed.

(** At total zero there is no step. *)
Lemma fri_step_list_of_sigma_zero : fri_step_list_of_sigma 0 = [].
Proof. reflexivity. Qed.

End Decomposition.

(** ** [compute_fri_step_list] *)

Section ComputeFriStepList.

Variable log_int : Z -> float.

(** The function returns as soon as both logarithms round up to an
    integer, and then it decomposes their combination. *)
Lemma compute_fri_step_list_returns (nb_steps bound c1 c2 : Z) :
  ceil_log2 log_int nb_steps = Ok c1 ->
  ceil_log2 log_int bound = Ok c2 ->
  sigma_fri_step_list log_int nb_steps bound = Ok (c1 + 4 - c2)
  /\ compute_fri_step_list log_int nb_steps bound
     = Ok (fri_step_list_of_sigma (c1 + 4 - c2)).
Proof.
  intros H1 H2.
  unfold compute_fri_step_list, sigma_fri_step_list.
  rewrite H1, H2. simpl. split; reflexivity.
Qed.

Lemma compute_fri_step_list_Ok_inv (nb_steps bound : Z) (l : list Z) :
  compute_fri_step_list log_int nb_steps bound = Ok l ->
  exists c1 c2,
    ceil_log2 log_int nb_steps = Ok c1
    /\ ceil_log2 log_int bound = Ok c2
    /\ l = fri_step_list_of_sigma (c1 + 4 - c2).
Proof.
  unfold compute_fri_step_list, sigma_fri_step_list. intros H.
  apply rbind_Ok_inv in H. destruct H as (sigma & Hsigma & Hl).
  apply rbind_Ok_inv in Hsigma. destruct Hsigma as (c1 & H1 & Hsigma).
  apply rbind_Ok_inv in Hsigma. destruct Hsigma as (c2 & H2 & Hsigma).
  exists c1, c2. injection Hsigma as <-. injection Hl as <-.
  repeat split; assumption.
Qed.

(** On a positive integer the expression evaluates, provided the two
    logarithms have a finite quotient. *)
Lemma ceil_log2_returns (n : Z) :
  0 < n ->
  PrimFloat.eqb (log_int 2) 0%float = false ->
  is_finite (PrimFloat.div (log_int n) (log_int 2)) = true ->
  exists c, ceil_log2 log_int n = Ok c.
Proof.
  intros Hn Hden Hfin. unfold ceil_log2, math_log.
  destruct (n <=? 0) eqn:Hle; [apply Z.leb_le in Hle; lia |].
  simpl (2 <=? 0). cbv iota. rewrite Hden. simpl rbind.
  unfold math_ceil. unfold is_finite in Hfin.
  destruct (Prim2SF (PrimFloat.div (log_int n) (log_int 2)));
    try discriminate Hfin; eexists; reflexivity.
Qed.

(** Only a positive argument has a logarithm. *)
Lemma ceil_log2_Ok_positive (n c : Z) : ceil_log2 log_int n = Ok c -> 0 < n.
Proof.
  unfold ceil_log2, math_log. intros H.
  destruct (n <=? 0) eqn:Hn.
  - discriminate H.
  - apply Z.leb_gt in Hn. exact Hn.
Qed.

(** Where both logarithms are rounded up as in exact arithmetic, and the
    total is positive, the steps are those of the specification. *)
Lemma compute_fri_step_list_exact (nb_steps bound : Z) :
  ceil_log2 log_int nb_steps = Ok (Z.log2_up nb_steps) ->
  ceil_log2 log_int bound = Ok (Z.log2_up bound) ->
  0 < sigma_exact nb_steps bound ->
  exists l,
    compute_fri_step_list log_int nb_steps bound = Ok l
    /\ sum l = sigma_exact nb_steps bound
    /\ exists (k : nat) (tail : list Z),
         l = repeat 4 k ++ tail
         /\ (tail = [] \/ exists r, tail = [r] /\ 1 <= r < 4).
Proof.
  intros H1 H2 Hpos.
  destruct (compute_fri_step_list_returns _ _ _ _ H1 H2) as [_ Hl].
  eexists. split; [exact Hl |]. split.
  - unfold sigma_exact in *. apply fri_step_list_of_sigma_sum. lia.
  - apply fri_step_list_of_sigma_shape.
Qed.

End ComputeFriStepList.

(** [Z.log2_up] is the logarithm to base 2 rounded up. *)
Lemma log2_up_is_ceiling (n : Z) :
  1 < n -> 2 ^ (Z.log2_up n - 1) < n <= 2 ^ Z.log2_up n.
Proof.
  intros Hn. pose proof (Z.log2_up_spec n Hn) as H.
  now rewrite <- Z.sub_1_r in H.
Qed.

(** [math.ceil] on some doubles. *)
Example math_ceil_samples :
  math_ceil 6.5%float = Ok 7
  /\ math_ceil (-6.5)%float = Ok (-6)
  /\ math_ceil 9%float = Ok 9
  /\ math_ceil (-0)%float = Ok 0
  /\ math_ceil 0x1.d000000000001p+4%float = Ok 30
  /\ math_ceil infinity = Raise OverflowError.
Proof. repeat split; vm_compute; reflexivity. Qed.

(** The quotient of the two logarithms at [2^29] is the double after 29. *)
Example math_log_pow2_29 :
  math_log log_table 536870912 2 = Ok 0x1.d000000000001p+4%float.
Proof. vm_compute. reflexivity. Qed.

(** The examples of the specification, with the logarithms of the table. *)
Example compute_fri_step_list_1024 :
  compute_fri_step_list log_table 1024 64 = Ok [4; 4].
Proof. vm_compute. reflexivity. Qed.

Example compute_fri_step_list_512 :
  compute_fri_step_list log_table 512 64 = Ok [4; 3].
Proof. vm_compute. reflexivity. Qed.

Example compute_fri_step_list_4 :
  compute_fri_step_list log_table 4 64 = Ok [].
Proof. vm_compute. reflexivity. Qed.

(** A non-positive argument is a domain error, whatever the logarithm. *)
Example compute_fri_step_list_0 :
  compute_fri_step_list log_table 0 64 = Raise (ValueError "math domain error").
Proof. reflexivity. Qed.

(** C10 - For positive integers [nb_steps] and [last_layer_degree_bound]
    (the arguments on which [math.ceil(math.log(n, 2))] evaluates), the list
    [compute_fri_step_list] returns has all its elements between 1 and 4.
    When the computed total is negative the list is the single floored
    remainder [total mod 4], or empty when that remainder is 0. *)
Theorem compute_fri_step_list_elements
        (log_int : Z -> float) (nb_steps bound c1 c2 : Z) :
  ceil_log2 log_int nb_steps = Ok c1 ->
  ceil_log2 log_int bound = Ok c2 ->
  0 < nb_steps /\ 0 < bound
  /\ exists l,
       compute_fri_step_list log_int nb_steps bound = Ok l
       /\ Forall (fun x => 1 <= x <= 4) l
       /\ (c1 + 4 - c2 < 0 ->
           l = if (c1 + 4 - c2) mod 4 =? 0 then [] else [(c1 + 4 - c2) mod 4]).
Proof.
  intros H1 H2.
  split; [eapply ceil_log2_Ok_positive; exact H1 |].
  split; [eapply ceil_log2_Ok_positive; exact H2 |].
  destruct (compute_fri_step_list_returns log_int _ _ _ _ H1 H2) as [_ Hl].
  exists (fri_step_list_of_sigma (c1 + 4 - c2)).
  split; [exact Hl |]. split.
  - apply fri_step_list_of_sigma_range.
  - apply fri_step_list_of_sigma_negative.
Qed.

Lemma compute_fri_step_list_elements_witness :
  ceil_log2 log_table 1 = Ok 0
  /\ ceil_log2 log_table 64 = Ok 6
  /\ 0 < 1 /\ 0 < 64
  /\ exists l,
       compute_fri_step_list log_table 1 64 = Ok l
       /\ Forall (fun x => 1 <= x <= 4) l
       /\ (0 + 4 - 6 < 0 ->
           l = if (0 + 4 - 6) mod 4 =? 0 then [] else [(0 + 4 - 6) mod 4]).
Proof.
  assert (H1 : ceil_log2 log_table 1 = Ok 0) by (vm_compute; reflexivity).
  assert (H2 : ceil_log2 log_table 64 = Ok 6) by (vm_compute; reflexivity).
  split; [exact H1 |]. split; [exact H2 |].
  exact (compute_fri_step_list_elements log_table 1 64 0 6 H1 H2).
Defined.

(** C2 - What the code does at a total that is zero or negative and not a
    multiple of 4: it returns the one-element list of the floored remainder
    [total mod 4], which is between 1 and 3, not the empty list. *)
Theorem compute_fri_step_list_nonpositive_total
        (log_int : Z -> float) (nb_steps bound sigma : Z) :
  sigma_fri_step_list log_int nb_steps bound = Ok sigma ->
  sigma <= 0 ->
  sigma mod 4 <> 0 ->
  compute_fri_step_list log_int nb_steps bound = Ok [sigma mod 4]
  /\ 1 <= sigma mod 4 <= 3.
Proof.
  intros Hsigma Hle Hrem.
  assert (Hneg : sigma < 0).
  { destruct (Z.eq_dec sigma 0) as [-> | Hnz]; [now elim Hrem | lia]. }
  unfold compute_fri_step_list. rewrite Hsigma. simpl.
  rewrite (fri_step_list_of_sigma_negative sigma Hneg).
  pose proof (Z.mod_pos_bound sigma 4 ltac:(lia)) as Hr.
  destruct (sigma mod 4 =? 0) eqn:Hz.
  - apply Z.eqb_eq in Hz. contradiction.
  - split; [reflexivity | lia].
Qed.

Lemma compute_fri_step_list_nonpositive_total_witness :
  sigma_fri_step_list log_table 1 64 = Ok (-2)
  /\ -2 <= 0
  /\ (-2) mod 4 <> 0
  /\ compute_fri_step_list log_table 1 64 = Ok [(-2) mod 4]
  /\ 1 <= (-2) mod 4 <= 3.
Proof.
  assert (Hs : sigma_fri_step_list log_table 1 64 = Ok (-2))
    by (vm_compute; reflexivity).
  assert (Hle : -2 <= 0) by lia.
  assert (Hrem : (-2) mod 4 <> 0) by (vm_compute; discriminate).
  split; [exact Hs |]. split; [exact Hle |]. split; [exact Hrem |].
  exact (compute_fri_step_list_nonpositive_total log_table 1 64 (-2) Hs Hle Hrem).
Defined.

(** A single execution step against the bound 64: the total is -2 and the
    schedule is [[2]]. *)
Example compute_fri_step_list_1 :
  compute_fri_step_list log_table 1 64 = Ok [2].
Proof. vm_compute. reflexivity. Qed.

(** C1 - What the code does at [nb_steps = 2^29] with the bound 64, given
    the doubles nearest to the three natural logarithms: the quotient
    [log(2^29) / log(2)] is the double just above 29, its ceiling is 30, and
    the steps add up to 28, one more than the total 27 of exact
    arithmetic. *)
Theorem compute_fri_step_list_pow2_29 (log_int : Z -> float) :
  log_int 536870912 = 0x1.419ecb712c481p+4%float ->
  log_int 64 = 0x1.0a2b23f3bab73p+2%float ->
  log_int 2 = 0x1.62e42fefa39efp-1%float ->
  sigma_exact 536870912 64 = 27
  /\ ceil_log2 log_int 536870912 = Ok 30
  /\ compute_fri_step_list log_int 536870912 64 = Ok [4; 4; 4; 4; 4; 4; 4]
  /\ sum [4; 4; 4; 4; 4; 4; 4] = 28.
Proof.
  intros H29 H64 H2.
  split; [vm_compute; reflexivity |].
  assert (Hc : ceil_log2 log_int 536870912 = Ok 30).
  { unfold ceil_log2, math_log. rewrite H29, H2. vm_compute. reflexivity. }
  assert (Hb : ceil_log2 log_int 64 = Ok 6).
  { unfold ceil_log2, math_log. rewrite H64, H2. vm_compute. reflexivity. }
  split; [exact Hc |]. split.
  - destruct (compute_fri_step_list_returns log_int _ _ _ _ Hc Hb) as [_ Hl].
    rewrite Hl. vm_compute. reflexivity.
  - reflexivity.
Qed.

Lemma compute_fri_step_list_pow2_29_witness :
  log_table 536870912 = 0x1.419ecb712c481p+4%float
  /\ log_table 64 = 0x1.0a2b23f3bab73p+2%float
  /\ log_table 2 = 0x1.62e42fefa39efp-1%float
  /\ sigma_exact 536870912 64 = 27
  /\ ceil_log2 log_table 536870912 = Ok 30
  /\ compute_fri_step_list log_table 536870912 64 = Ok [4; 4; 4; 4; 4; 4; 4]
  /\ sum [4; 4; 4; 4; 4; 4; 4] = 28.
Proof.
  split; [reflexivity |]. split; [reflexivity |]. split; [reflexivity |].
  exact (compute_fri_step_list_pow2_29 log_table eq_refl eq_refl eq_refl).
Defined.

(** ** Lines *)

Section Lines.

Lemma string_append_nil_r (s : string) : (s ++ "")%string = s.
Proof. induction s as [| c s IH]; simpl; [reflexivity | now rewrite IH]. Qed.

Lemma string_append_assoc (a b c : string) :
  ((a ++ b) ++ c)%string = (a ++ (b ++ c))%string.
Proof. induction a as [| x a IH]; simpl; [reflexivity | now rewrite IH]. Qed.

(** Up to the first line feed there is one line. *)
Lemma splitlines_from_line (cur l rest : string) :
  one_line l ->
  splitlines_from cur (l ++ String "010" rest)
  = (cur ++ l)%string :: splitlines_from "" rest.
Proof.
  revert cur. induction l as [| c l IH]; intros cur Hl.
  - rewrite string_append_nil_r. simpl. destruct rest; reflexivity.
  - destruct Hl as [Hc Hl]. simpl. rewrite Hc, (IH _ Hl), string_append_assoc.
    reflexivity.
Qed.

(** Text without a boundary is one line, or none when it is empty. *)
Lemma splitlines_from_last (cur l : string) :
  one_line l ->
  splitlines_from cur l
  = match (cur ++ l)%string with
    | EmptyString => []
    | s => [s]
    end.
Proof.
  revert cur. induction l as [| c l IH]; intros cur Hl.
  - rewrite string_append_nil_r. simpl. destruct cur; reflexivity.
  - destruct Hl as [Hc Hl]. simpl. rewrite Hc, (IH _ Hl), string_append_assoc.
    reflexivity.
Qed.

(** [splitlines] gives back the lines a report was joined from, when the
    last of them is not empty. *)
Lemma splitlines_join_lines (lines : list string) :
  Forall one_line lines ->
  last lines "x" <> "" ->
  splitlines (join_lines lines) = lines.
Proof.
  unfold splitlines, join_lines.
  induction lines as [| l lines IH]; intros Hall Hlast.
  - reflexivity.
  - inversion Hall as [| ? ? Hl Hlines]; subst.
    destruct lines as [| l' lines].
    + simpl. rewrite (splitlines_from_last "" l Hl). simpl.
      simpl in Hlast. destruct l; [now elim Hlast | reflexivity].
    + change (String.concat (String "010" "") (l :: l' :: lines))
        with (l ++ String "010" (String.concat (String "010" "") (l' :: lines)))%string.
      rewrite (splitlines_from_line "" l _ Hl). simpl append.
      f_equal. apply IH; [exact Hlines | exact Hlast].
Qed.

(** Up to a carriage return and line feed there is one line. *)
Lemma splitlines_from_line_crlf (cur l rest : string) :
  one_line l ->
  splitlines_from cur (l ++ String "013" (String "010" rest))
  = (cur ++ l)%string :: splitlines_from "" rest.
Proof.
  revert cur. induction l as [| c l IH]; intros cur Hl.
  - rewrite string_append_nil_r. reflexivity.
  - destruct Hl as [Hc Hl]. simpl. rewrite Hc, (IH _ Hl), string_append_assoc.
    reflexivity.
Qed.

(** Up to a terminator of one character there is one line. *)
Lemma splitlines_from_break (cur l : string) (c : ascii) (rest : string) :
  one_line l -> is_line_boundary c = true -> ~ splits_terminator c rest ->
  splitlines_from cur (l ++ String c rest)
  = (cur ++ l)%string :: splitlines_from "" rest.
Proof.
  revert cur. induction l as [| x l IH]; intros cur Hl Hc Hsplit.
  - rewrite string_append_nil_r. cbn [append splitlines_from]. rewrite Hc.
    destruct rest as [| c' rest']; [reflexivity |].
    destruct ((N_of_ascii c =? 13)%N && (N_of_ascii c' =? 10)%N) eqn:Hcrlf;
      [| reflexivity].
    exfalso. apply Hsplit.
    apply andb_true_iff in Hcrlf. destruct Hcrlf as [Hcr Hlf].
    apply N.eqb_eq in Hcr. apply N.eqb_eq in Hlf.
    split; [exact Hcr |]. exists rest'.
    rewrite <- (ascii_N_embedding c'), Hlf. reflexivity.
  - destruct Hl as [Hx Hl]. simpl.
    rewrite Hx, (IH _ Hl Hc Hsplit), string_append_assoc.
    reflexivity.
Qed.

Lemma one_line_app (a b : string) :
  one_line (a ++ b) <-> one_line a /\ one_line b.
Proof.
  induction a as [| c a IH]; simpl.
  - tauto.
  - rewrite IH. tauto.
Qed.

(** [splitlines] computes the lines of a text. *)
Lemma lines_of_splitlines (s : string) (lines : list string) :
  lines_of s lines -> splitlines s = lines.
Proof.
  unfold splitlines.
  induction 1 as [| line Hne Hline
                  | line rest lines Hline _ IH
                  | line c rest lines Hline Hc Hsplit _ IH].
  - reflexivity.
  - rewrite (splitlines_from_last "" line Hline). simpl.
    destruct line; [now elim Hne | reflexivity].
  - rewrite (splitlines_from_line_crlf "" line rest Hline), IH. reflexivity.
  - rewrite (splitlines_from_break "" line c rest Hline Hc Hsplit), IH.
    reflexivity.
Qed.

Lemma splitlines_from_lines_of (n : nat) :
  forall (s cur : string),
    (String.length s <= n)%nat -> one_line cur ->
    lines_of (cur ++ s) (splitlines_from cur s).
Proof.
  induction n as [| n IH]; intros s cur Hlen Hcur.
  - destruct s as [| c rest]; [| simpl in Hlen; lia].
    rewrite string_append_nil_r. simpl.
    destruct cur as [| x cur]; [constructor |].
    apply lines_last; [discriminate | exact Hcur].
  - destruct s as [| c rest].
    + rewrite string_append_nil_r. simpl.
      destruct cur as [| x cur]; [constructor |].
      apply lines_last; [discriminate | exact Hcur].
    + simpl in Hlen. cbn [splitlines_from].
      destruct (is_line_boundary c) eqn:Hc.
      * destruct rest as [| c' rest'].
        -- apply lines_break; [exact Hcur | exact Hc | | constructor].
           intros (_ & rest' & Hrest). discriminate Hrest.
        -- destruct ((N_of_ascii c =? 13)%N && (N_of_ascii c' =? 10)%N)
             eqn:Hcrlf.
           ++ apply andb_true_iff in Hcrlf. destruct Hcrlf as [Hcr Hlf].
              apply N.eqb_eq in Hcr. apply N.eqb_eq in Hlf.
              assert (Ec : c = "013"%char)
                by (rewrite <- (ascii_N_embedding c), Hcr; reflexivity).
              assert (Ec' : c' = "010"%char)
                by (rewrite <- (ascii_N_embedding c'), Hlf; reflexivity).
              subst c c'. apply lines_crlf; [exact Hcur |].
              apply (IH rest' ""); [simpl in Hlen; lia | exact I].
           ++ apply lines_break; [exact Hcur | exact Hc | |].
              ** intros (Hcr & rest'' & Hrest).
                 injection Hrest as -> _.
                 rewrite Hcr in Hcrlf. discriminate Hcrlf.
              ** apply (IH (String c' rest') ""); [lia | exact I].
      * replace (cur ++ String c rest)%string
          with ((cur ++ String c "") ++ rest)%string
          by (rewrite string_append_assoc; reflexivity).
        apply IH; [lia |].
        apply one_line_app. split; [exact Hcur |].
        simpl. split; [exact Hc | exact I].
Qed.

(** Every text has lines, and [splitlines] gives them. *)
Lemma splitlines_lines_of (s : string) : lines_of s (splitlines s).
Proof.
  apply (splitlines_from_lines_of (String.length s) s ""); [lia | exact I].
Qed.

End Lines.

(** ** The step-count line *)

Section StepsPattern.

Lemma strip_prefix_Some (p s r : string) :
  strip_prefix p s = Some r <-> s = (p ++ r)%string.
Proof.
  revert s. induction p as [| a p IH]; intros s; simpl.
  - split; intros H; [injection H as <- | subst]; reflexivity.
  - destruct s as [| b s].
    + split; intros H; discriminate H.
    + destruct (Ascii.eqb a b) eqn:Hab.
      * apply Ascii.eqb_eq in Hab. subst b. rewrite IH.
        split; intros H; [now subst | now injection H].
      * apply Ascii.eqb_neq in Hab.
        split; intros H; [discriminate H | injection H as H _; congruence].
Qed.

Lemma all_digits_nil : all_digits "".
Proof. constructor. Qed.

Lemma all_digits_cons (c : ascii) (s : string) :
  all_digits (String c s) <-> is_digit c = true /\ all_digits s.
Proof.
  unfold all_digits. simpl. split; intros H.
  - inversion H; subst. split; assumption.
  - destruct H as [Hc Hs]. constructor; assumption.
Qed.

Lemma leading_digits_all (s : string) : all_digits (leading_digits s).
Proof.
  induction s as [| c s IH]; simpl.
  - apply all_digits_nil.
  - destruct (is_digit c) eqn:Hc.
    + apply all_digits_cons. split; assumption.
    + apply all_digits_nil.
Qed.

Lemma leading_digits_split (s : string) :
  exists rest, s = (leading_digits s ++ rest)%string /\ no_leading_digit rest.
Proof.
  induction s as [| c s IH]; simpl.
  - exists "". split; [reflexivity | exact I].
  - destruct (is_digit c) eqn:Hc.
    + destruct IH as (rest & Hs & Hrest).
      exists rest. split; [simpl; congruence | exact Hrest].
    + exists (String c s). split; [reflexivity | exact Hc].
Qed.

Lemma leading_digits_app (ds rest : string) :
  all_digits ds -> no_leading_digit rest ->
  leading_digits (ds ++ rest) = ds.
Proof.
  intros Hds Hrest. induction ds as [| c ds IH]; simpl.
  - destruct rest as [| c rest]; simpl; [reflexivity |].
    simpl in Hrest. now rewrite Hrest.
  - apply all_digits_cons in Hds. destruct Hds as [Hc Hds].
    rewrite Hc, (IH Hds). reflexivity.
Qed.

(** A run of digits followed by anything starts the maximal run. *)
Lemma leading_digits_nonempty (ds rest : string) :
  ds <> "" -> all_digits ds -> leading_digits (ds ++ rest) <> "".
Proof.
  intros Hne Hds. destruct ds as [| c ds]; [now elim Hne |].
  apply all_digits_cons in Hds. destruct Hds as [Hc _].
  simpl. rewrite Hc. discriminate.
Qed.

(** The group of the match is the maximal run of digits after the
    label. *)
Lemma re_match_steps_Some (line ds : string) :
  re_match_steps line = Some ds <-> steps_digits_of line ds.
Proof.
  unfold re_match_steps, steps_digits_of. split.
  - destruct (strip_prefix steps_label line) as [after |] eqn:Hp;
      [| discriminate].
    apply strip_prefix_Some in Hp.
    destruct (leading_digits_split after) as (rest & Hafter & Hrest).
    pose proof (leading_digits_all after) as Hall.
    destruct (leading_digits after) as [| c run] eqn:Hrun; [discriminate |].
    intros H. injection H as <-.
    split; [discriminate |]. split; [exact Hall |].
    exists rest. split; [| exact Hrest].
    rewrite Hp, Hafter. reflexivity.
  - intros (Hne & Hall & rest & Hline & Hrest).
    assert (Hp : strip_prefix steps_label line = Some (ds ++ rest)%string)
      by (apply strip_prefix_Some; exact Hline).
    rewrite Hp, (leading_digits_app ds rest Hall Hrest).
    destruct ds; [now elim Hne | reflexivity].
Qed.

Lemma re_match_steps_None (line : string) :
  re_match_steps line = None <-> ~ matches_steps_pattern line.
Proof.
  split.
  - intros Hnone (ds & rest & Hne & Hall & Hline).
    unfold re_match_steps in Hnone.
    assert (Hp : strip_prefix steps_label line = Some (ds ++ rest)%string)
      by (apply strip_prefix_Some; exact Hline).
    rewrite Hp in Hnone.
    pose proof (leading_digits_nonempty ds rest Hne Hall) as Hrun.
    destruct (leading_digits (ds ++ rest)); [now elim Hrun | discriminate].
  - intros Hno. destruct (re_match_steps line) as [ds |] eqn:Hm;
      [| reflexivity].
    exfalso. apply Hno.
    apply re_match_steps_Some in Hm.
    destruct Hm as (Hne & Hall & rest & Hline & _).
    exists ds, rest. repeat split; assumption.
Qed.

(** A line matches the pattern exactly when the match has a group. *)
Lemma matches_steps_pattern_iff (line : string) :
  matches_steps_pattern line <-> exists ds, re_match_steps line = Some ds.
Proof.
  split.
  - intros Hm. destruct (re_match_steps line) as [ds |] eqn:H.
    + now exists ds.
    + apply re_match_steps_None in H. contradiction.
  - intros [ds H] . destruct (re_match_steps_None line) as [Hn _].
    apply re_match_steps_Some in H.
    destruct H as (Hne & Hall & rest & Hline & _).
    exists ds, rest. repeat split; assumption.
Qed.

(** The loop stops at the first line that matches. *)
Lemma first_steps_line_Some (lines : list string) (ds : string) :
  first_steps_line lines = Some ds <->
  exists before line after,
    lines = before ++ line :: after
    /\ Forall (fun l => re_match_steps l = None) before
    /\ re_match_steps line = Some ds.
Proof.
  induction lines as [| l lines IH]; simpl.
  - split; [discriminate |].
    intros (before & line & after & H & _). now destruct before.
  - destruct (re_match_steps l) as [d |] eqn:Hl.
    + split.
      * intros H. injection H as <-.
        exists [], l, lines. repeat split; [constructor | exact Hl].
      * intros (before & line & after & H & Hb & Hm).
        destruct before as [| b before]; simpl in H; injection H as -> ->.
        -- congruence.
        -- inversion Hb; subst. congruence.
    + rewrite IH. split.
      * intros (before & line & after & -> & Hb & Hm).
        exists (l :: before), line, after.
        repeat split; [constructor; assumption | exact Hm].
      * intros (before & line & after & H & Hb & Hm).
        destruct before as [| b before]; simpl in H; injection H as -> ->.
        -- congruence.
        -- inversion Hb; subst.
           exists before, line, after. repeat split; assumption.
Qed.

Lemma first_steps_line_None (lines : list string) :
  first_steps_line lines = None <->
  Forall (fun l => re_match_steps l = None) lines.
Proof.
  induction lines as [| l lines IH]; simpl.
  - split; [constructor | reflexivity].
  - destruct (re_match_steps l) as [d |] eqn:Hl.
    + split; [discriminate |]. intros H. inversion H; subst. congruence.
    + rewrite IH. split.
      * intros H. constructor; assumption.
      * intros H. now inversion H.
Qed.

(** [int] reads a numeral digit by digit. *)
Lemma int_of_digits_snoc (ds : string) (c : ascii) :
  int_of_digits (ds ++ String c "")
  = 10 * int_of_digits ds + (Z.of_N (N_of_ascii c) - 48).
Proof.
  unfold int_of_digits.
  assert (Happ : list_ascii_of_string (ds ++ String c "")
                 = list_ascii_of_string ds ++ [c]).
  { induction ds as [| d ds IH]; simpl; [reflexivity | now rewrite IH]. }
  rewrite Happ, fold_left_app. reflexivity.
Qed.

Lemma fold_digits_nonneg (l : list ascii) (acc : Z) :
  Forall (fun c => is_digit c = true) l -> 0 <= acc ->
  0 <= fold_left (fun a c => 10 * a + (Z.of_N (N_of_ascii c) - 48)) l acc.
Proof.
  revert acc. induction l as [| c l IH]; intros acc Hl Hacc; cbn [fold_left].
  - exact Hacc.
  - inversion Hl as [| ? ? Hc Hl']; subst. apply IH; [exact Hl' |].
    unfold is_digit in Hc. cbv zeta in Hc.
    apply andb_true_iff in Hc. destruct Hc as [Hlo _].
    apply N.leb_le in Hlo.
    lia.
Qed.

(** A numeral without a sign denotes no negative number. *)
Lemma int_of_digits_nonneg (ds : string) :
  all_digits ds -> 0 <= int_of_digits ds.
Proof.
  intros Hds. unfold int_of_digits. apply fold_digits_nonneg; [exact Hds | lia].
Qed.

Lemma fold_digits_of_uint_acc (d : Decimal.uint) (acc : positive) :
  fold_left (fun acc c => 10 * acc + (Z.of_N (N_of_ascii c) - 48))
            (list_ascii_of_string (NilEmpty.string_of_uint d)) (Z.pos acc)
  = Z.pos (Pos.of_uint_acc d acc).
Proof.
  revert acc.
  induction d as [| d IH | d IH | d IH | d IH | d IH | d IH | d IH | d IH
                  | d IH | d IH]; intros acc;
    cbn [NilEmpty.string_of_uint list_ascii_of_string fold_left Pos.of_uint_acc];
    [reflexivity | ..];
    rewrite <- IH; f_equal;
    match goal with
    | |- context [N_of_ascii ?c] =>
        let n := eval vm_compute in (Z.of_N (N_of_ascii c)) in
        change (Z.of_N (N_of_ascii c)) with n
    end; lia.
Qed.

Lemma fold_digits_of_uint (d : Decimal.uint) :
  fold_left (fun acc c => 10 * acc + (Z.of_N (N_of_ascii c) - 48))
            (list_ascii_of_string (NilEmpty.string_of_uint d)) 0
  = Z.of_N (Pos.of_uint d).
Proof.
  induction d as [| d IH | d IH | d IH | d IH | d IH | d IH | d IH | d IH
                  | d IH | d IH];
    cbn [NilEmpty.string_of_uint list_ascii_of_string fold_left Pos.of_uint];
    [reflexivity | exact IH | ..];
    match goal with
    | |- context [N_of_ascii ?c] =>
        let n := eval vm_compute in (10 * 0 + (Z.of_N (N_of_ascii c) - 48)) in
        change (10 * 0 + (Z.of_N (N_of_ascii c) - 48)) with n
    end;
    cbn [Z.of_N]; apply fold_digits_of_uint_acc.
Qed.

Lemma string_of_uint_all_digits (d : Decimal.uint) :
  all_digits (NilEmpty.string_of_uint d).
Proof.
  induction d; cbn [NilEmpty.string_of_uint];
    [apply all_digits_nil | ..];
    apply all_digits_cons; (split; [reflexivity | assumption]).
Qed.

(** The numeral of a natural number is a non-empty run of digits that [int]
    reads back. *)
Lemma int_of_digits_string_of_Z (n : Z) :
  0 <= n ->
  string_of_Z n <> ""
  /\ all_digits (string_of_Z n)
  /\ int_of_digits (string_of_Z n) = n.
Proof.
  intros Hn. unfold string_of_Z, int_of_digits.
  destruct n as [| p | p]; [| | lia].
  - repeat split; [discriminate | repeat constructor].
  - cbn [Z.to_int NilZero.string_of_int NilZero.string_of_uint].
    pose proof (DecimalPos.Unsigned.to_uint_nonnil p) as Hnil.
    assert (Hs : NilZero.string_of_uint (Pos.to_uint p)
                 = NilEmpty.string_of_uint (Pos.to_uint p)).
    { unfold NilZero.string_of_uint.
      destruct (Pos.to_uint p); [now elim Hnil | reflexivity ..]. }
    rewrite Hs. split; [| split].
    + destruct (Pos.to_uint p); [now elim Hnil | discriminate ..].
    + apply string_of_uint_all_digits.
    + rewrite fold_digits_of_uint, DecimalPos.Unsigned.of_to. reflexivity.
Qed.

Lemma uint_of_string_all_digits (ds : string) :
  all_digits ds -> exists d, NilEmpty.uint_of_string ds = Some d.
Proof.
  induction ds as [| c ds IH]; intros Hds.
  - now exists Decimal.Nil.
  - apply all_digits_cons in Hds. destruct Hds as [Hc Hds].
    destruct (IH Hds) as [d Hd]. cbn [NilEmpty.uint_of_string]. rewrite Hd.
    destruct c as [[|] [|] [|] [|] [|] [|] [|] [|]];
      vm_compute in Hc; try discriminate Hc; eexists; reflexivity.
Qed.

(** [int_of_digits] gives a run of digits the value the Standard Library
    reads in it. *)
Lemma numeral_value_int_of_digits (ds : string) :
  all_digits ds -> numeral_value ds = Some (int_of_digits ds).
Proof.
  intros Hds. destruct (uint_of_string_all_digits ds Hds) as [d Hd].
  unfold numeral_value. rewrite Hd. cbn [option_map]. f_equal.
  apply NilEmpty.sus in Hd. subst ds.
  unfold int_of_digits. rewrite fold_digits_of_uint. reflexivity.
Qed.

(** [int] converts a numeral of at most 4300 digits and nothing longer. *)
Lemma int_of_str_Ok (ds : string) (n : Z) :
  int_of_str ds = Ok n <->
  Z.of_nat (String.length ds) <= 4300 /\ n = int_of_digits ds.
Proof.
  unfold int_of_str, int_max_str_digits. cbv zeta.
  destruct (Z.of_nat (String.length ds) >? 4300) eqn:Hlen.
  - apply Z.gtb_lt in Hlen. split; [discriminate | lia].
  - rewrite Z.gtb_ltb in Hlen. apply Z.ltb_ge in Hlen. split.
    + intros H. injection H as <-. split; [exact Hlen | reflexivity].
    + intros [_ ->]. reflexivity.
Qed.

Lemma int_of_str_Raise (ds : string) (e : exn) :
  int_of_str ds = Raise e <->
  4300 < Z.of_nat (String.length ds)
  /\ e = ValueError (int_limit_message (Z.of_nat (String.length ds))).
Proof.
  unfold int_of_str, int_max_str_digits. cbv zeta.
  destruct (Z.of_nat (String.length ds) >? 4300) eqn:Hlen.
  - apply Z.gtb_lt in Hlen. split.
    + intros H. injection H as <-. split; [exact Hlen | reflexivity].
    + intros [_ ->]. reflexivity.
  - rewrite Z.gtb_ltb in Hlen. apply Z.ltb_ge in Hlen.
    split; [discriminate | lia].
Qed.

(** The two messages are different texts. *)
Lemma int_limit_message_not_found (digits : Z) :
  int_limit_message digits <> not_found_message.
Proof. unfold int_limit_message. cbn [append]. discriminate. Qed.

Lemma get_nb_steps_Ok (run_stdout : string) (n : Z) :
  get_nb_steps run_stdout = Ok n <->
  exists ds, first_steps_line (splitlines run_stdout) = Some ds
             /\ Z.of_nat (String.length ds) <= 4300
             /\ n = int_of_digits ds.
Proof.
  unfold get_nb_steps.
  destruct (first_steps_line (splitlines run_stdout)) as [ds |].
  - rewrite int_of_str_Ok. split.
    + intros [Hlen ->]. now exists ds.
    + intros (ds' & H & Hlen & ->). injection H as ->. now split.
  - split; [discriminate |]. intros (ds' & H & _). discriminate H.
Qed.

(** [get_nb_steps] raises in two ways: no line matches, or the numeral of
    the first line that matches is too long for [int]. *)
Lemma get_nb_steps_Raise_cases (run_stdout : string) (e : exn) :
  get_nb_steps run_stdout = Raise e <->
  (first_steps_line (splitlines run_stdout) = None
   /\ e = ValueError not_found_message)
  \/ exists ds, first_steps_line (splitlines run_stdout) = Some ds
                /\ 4300 < Z.of_nat (String.length ds)
                /\ e = ValueError (int_limit_message (Z.of_nat (String.length ds))).
Proof.
  unfold get_nb_steps.
  destruct (first_steps_line (splitlines run_stdout)) as [ds |].
  - rewrite int_of_str_Raise. split.
    + intros [Hlen ->]. right. now exists ds.
    + intros [[H _] | (ds' & H & Hlen & ->)]; [discriminate H |].
      injection H as ->. now split.
  - split.
    + intros H. injection H as <-. now left.
    + intros [[_ ->] | (ds' & H & _)]; [reflexivity | discriminate H].
Qed.

(** The step count is never negative. *)
Lemma get_nb_steps_nonneg (run_stdout : string) (n : Z) :
  get_nb_steps run_stdout = Ok n -> 0 <= n.
Proof.
  intros H. apply get_nb_steps_Ok in H. destruct H as (ds & Hfirst & _ & ->).
  apply first_steps_line_Some in Hfirst.
  destruct Hfirst as (before & line & after & _ & _ & Hm).
  apply re_match_steps_Some in Hm. destruct Hm as (_ & Hall & _).
  apply int_of_digits_nonneg. exact Hall.
Qed.

End StepsPattern.

(** ** [get_nb_steps] *)

Section GetNbSteps.

Lemma no_match_before (before : list string) :
  (forall l, In l before -> ~ matches_steps_pattern l) <->
  Forall (fun l => re_match_steps l = None) before.
Proof.
  rewrite Forall_forall. split; intros H l Hl.
  - apply re_match_steps_None. now apply H.
  - apply re_match_steps_None. now apply H.
Qed.

(** The loop stops at the first line that matches, with its digits. *)
Lemma first_steps_line_first_match (lines : list string) (ds : string) :
  first_steps_line lines = Some ds <-> exists line, first_match lines line ds.
Proof.
  rewrite first_steps_line_Some. unfold first_match. split.
  - intros (before & line & after & Hlines & Hbefore & Hm).
    exists line, before, after.
    split; [exact Hlines |]. split; [now apply no_match_before |].
    now apply re_match_steps_Some.
  - intros (line & before & after & Hlines & Hbefore & Hm).
    exists before, line, after.
    split; [exact Hlines |]. split; [now apply no_match_before |].
    now apply re_match_steps_Some.
Qed.

(** The integer of the first matching line is what is returned, when [int]
    converts its numeral. *)
Lemma get_nb_steps_at_first_match
      (report : string) (lines : list string) (line ds : string) :
  lines_of report lines ->
  first_match lines line ds ->
  Z.of_nat (String.length ds) <= 4300 ->
  get_nb_steps report = Ok (int_of_digits ds).
Proof.
  intros Hlines Hfirst Hlen. apply lines_of_splitlines in Hlines.
  apply get_nb_steps_Ok. exists ds.
  split; [| split; [exact Hlen | reflexivity]].
  rewrite Hlines. apply first_steps_line_first_match. now exists line.
Qed.

Lemma get_nb_steps_beyond_limit
      (report : string) (lines : list string) (line ds : string) :
  lines_of report lines ->
  first_match lines line ds ->
  4300 < Z.of_nat (String.length ds) ->
  get_nb_steps report
  = Raise (ValueError (int_limit_message (Z.of_nat (String.length ds)))).
Proof.
  intros Hlines Hfirst Hlen. apply lines_of_splitlines in Hlines.
  apply get_nb_steps_Raise_cases. right. exists ds.
  split; [| split; [exact Hlen | reflexivity]].
  rewrite Hlines. apply first_steps_line_first_match. now exists line.
Qed.

Lemma some_line_matches (lines : list string) :
  (exists l, In l lines /\ matches_steps_pattern l) <->
  exists ds, first_steps_line lines = Some ds.
Proof.
  split.
  - intros (l & Hin & Hm).
    destruct (first_steps_line lines) as [ds |] eqn:Hfirst.
    + now exists ds.
    + exfalso. apply first_steps_line_None in Hfirst.
      rewrite Forall_forall in Hfirst.
      apply (proj1 (re_match_steps_None l)); [now apply Hfirst | exact Hm].
  - intros (ds & Hfirst). apply first_steps_line_Some in Hfirst.
    destruct Hfirst as (before & line & after & -> & _ & Hm).
    exists line. split.
    + apply in_or_app. right. now left.
    + apply matches_steps_pattern_iff. now exists ds.
Qed.

(** Two first matches are the same match. *)
Lemma first_match_unique (lines : list string) (line ds line' ds' : string) :
  first_match lines line ds -> first_match lines line' ds' -> ds = ds'.
Proof.
  intros H H'.
  assert (Hs : first_steps_line lines = Some ds)
    by (apply first_steps_line_first_match; now exists line).
  assert (Hs' : first_steps_line lines = Some ds')
    by (apply first_steps_line_first_match; now exists line').
  congruence.
Qed.

Lemma digit_is_no_boundary (c : ascii) :
  is_digit c = true -> is_line_boundary c = false.
Proof.
  destruct c as [[|] [|] [|] [|] [|] [|] [|] [|]];
    intros H; vm_compute in H; try discriminate H; reflexivity.
Qed.

(** A run of digits holds no line boundary. *)
Lemma all_digits_one_line (ds : string) : all_digits ds -> one_line ds.
Proof.
  induction ds as [| c ds IH]; intros Hds; [exact I |].
  apply all_digits_cons in Hds. destruct Hds as [Hc Hds].
  split; [now apply digit_is_no_boundary | now apply IH].
Qed.

Lemma all_digits_app (a b : string) :
  all_digits a -> all_digits b -> all_digits (a ++ b).
Proof.
  intros Ha Hb. induction a as [| c a IH]; [exact Hb |].
  apply all_digits_cons in Ha. destruct Ha as [Hc Ha].
  cbn [append]. apply all_digits_cons. split; [exact Hc | now apply IH].
Qed.

Lemma all_digits_repeat (c : ascii) (n : nat) :
  is_digit c = true -> all_digits (string_of_list_ascii (repeat c n)).
Proof.
  intros Hc. induction n as [| n IH]; cbn [repeat string_of_list_ascii].
  - apply all_digits_nil.
  - apply all_digits_cons. split; assumption.
Qed.

Lemma length_repeat_string (c : ascii) (n : nat) :
  String.length (string_of_list_ascii (repeat c n)) = n.
Proof.
  induction n as [| n IH]; cbn [repeat string_of_list_ascii String.length];
    [reflexivity | now rewrite IH].
Qed.

Lemma length_string_append (a b : string) :
  String.length (a ++ b) = (String.length a + String.length b)%nat.
Proof.
  induction a as [| c a IH]; cbn [append String.length plus];
    [reflexivity | now rewrite IH].
Qed.

Lemma last_app_cons {A : Type} (l : list A) (x : A) (l' : list A) (d : A) :
  last (l ++ x :: l') d = last (x :: l') d.
Proof.
  induction l as [| y l IH]; [reflexivity |].
  cbn [app]. rewrite <- IH. cbn [last].
  destruct (l ++ x :: l') eqn:E; [now destruct l | reflexivity].
Qed.

(** The lines a report was joined from are its lines. *)
Lemma lines_of_join_lines (lines : list string) :
  Forall one_line lines -> last lines "x" <> "" ->
  lines_of (join_lines lines) lines.
Proof.
  intros Hall Hlast. pose proof (splitlines_lines_of (join_lines lines)) as H.
  now rewrite (splitlines_join_lines lines Hall Hlast) in H.
Qed.

(** A report joined from lines, the first step-count line of which ends in
    a numeral too long for [int]. *)
Lemma get_nb_steps_joined_beyond_limit
      (before after : list string) (ds : string) :
  Forall one_line before -> Forall one_line after ->
  last ((steps_label ++ ds)%string :: after) "x" <> "" ->
  (forall l, In l before -> ~ matches_steps_pattern l) ->
  ds <> "" -> all_digits ds ->
  4300 < Z.of_nat (String.length ds) ->
  let lines := before ++ (steps_label ++ ds)%string :: after in
  lines_of (join_lines lines) lines
  /\ matches_steps_pattern (steps_label ++ ds)
  /\ get_nb_steps (join_lines lines)
     = Raise (ValueError (int_limit_message (Z.of_nat (String.length ds)))).
Proof.
  intros Hb Ha Hlast Hbefore Hne Hds Hlen lines.
  assert (Hlines : lines_of (join_lines lines) lines).
  { apply lines_of_join_lines.
    - apply Forall_app. split; [exact Hb |]. constructor; [| exact Ha].
      apply one_line_app. split; [cbn; tauto | now apply all_digits_one_line].
    - unfold lines. rewrite last_app_cons. exact Hlast. }
  split; [exact Hlines |]. split.
  - exists ds, "". split; [exact Hne |]. split; [exact Hds |].
    now rewrite string_append_nil_r.
  - apply (get_nb_steps_beyond_limit _ lines (steps_label ++ ds) ds Hlines);
      [| exact Hlen].
    exists before, after. split; [reflexivity |]. split; [exact Hbefore |].
    split; [exact Hne |]. split; [exact Hds |].
    exists "". split; [now rewrite string_append_nil_r | exact I].
Qed.

Lemma long_numeral_digits :
  long_numeral <> "" /\ all_digits long_numeral
  /\ Z.of_nat (String.length long_numeral) = 4301.
Proof.
  unfold long_numeral. split; [discriminate |]. split.
  - now apply all_digits_repeat.
  - now rewrite length_repeat_string.
Qed.

Lemma padded_numeral_digits :
  padded_numeral <> "" /\ all_digits padded_numeral
  /\ Z.of_nat (String.length padded_numeral) = 4301
  /\ numeral_value padded_numeral = Some 512.
Proof.
  unfold padded_numeral.
  assert (Hall : all_digits (string_of_list_ascii (repeat "0"%char 4298) ++ "512")).
  { apply all_digits_app; [now apply all_digits_repeat | repeat constructor]. }
  split; [discriminate |]. split; [exact Hall |]. split.
  - now rewrite length_string_append, length_repeat_string.
  - rewrite (numeral_value_int_of_digits _ Hall). apply f_equal.
    unfold int_of_digits.
    assert (Hzeros : forall n acc rest,
               fold_left (fun a c => 10 * a + (Z.of_N (N_of_ascii c) - 48))
                         (list_ascii_of_string
                            (string_of_list_ascii (repeat "0"%char n) ++ rest))
                         acc
               = fold_left (fun a c => 10 * a + (Z.of_N (N_of_ascii c) - 48))
                           (list_ascii_of_string rest) (Z.pow 10 (Z.of_nat n) * acc)).
    { induction n as [| n IH]; intros acc rest.
      - cbn [repeat string_of_list_ascii append Z.of_nat].
        rewrite Z.pow_0_r, Z.mul_1_l. reflexivity.
      - cbn [repeat string_of_list_ascii append list_ascii_of_string fold_left].
        rewrite IH. f_equal.
        change (Z.of_N (N_of_ascii "0")) with 48.
        rewrite Nat2Z.inj_succ, Z.pow_succ_r by lia. lia. }
    rewrite Hzeros. rewrite Z.mul_0_r. reflexivity.
Qed.

Lemma steps_digits_777 :
  steps_digits_of "Number of steps: 777 (extra text)" "777".
Proof.
  apply re_match_steps_Some. reflexivity.
Qed.

End GetNbSteps.

(** C3 - As stated the claim fails: the third line of [report_long] matches
    "Number of steps: <digits>" with a numeral of 4301 digits, and
    [get_nb_steps] raises the [ValueError] of [int] instead of returning an
    integer. *)
Lemma get_nb_steps_long_numeral :
  lines_of report_long ["Program output:"; "  1"; long_steps_line]
  /\ matches_steps_pattern long_steps_line
  /\ get_nb_steps report_long
     = Raise (ValueError
                ("Exceeds the limit (4300 digits) for integer string "
                 ++ "conversion: value has 4301 digits; use "
                 ++ "sys.set_int_max_str_digits() to increase the limit"))
  /\ forall n, get_nb_steps report_long <> Ok n.
Proof.
  destruct long_numeral_digits as (Hne & Hall & Hlen).
  assert (Hb : Forall one_line ["Program output:"; "  1"])
    by (repeat constructor).
  assert (Ha : Forall one_line (@nil string)) by constructor.
  assert (Hlast : last [(steps_label ++ long_numeral)%string] "x" <> "")
    by (cbn [last]; discriminate).
  assert (Hbefore : forall l, In l ["Program output:"; "  1"] ->
                              ~ matches_steps_pattern l).
  { intros l Hl. apply re_match_steps_None.
    cbn [In] in Hl. destruct Hl as [<- | [<- | []]]; reflexivity. }
  assert (Hlong : 4300 < Z.of_nat (String.length long_numeral))
    by (rewrite Hlen; reflexivity).
  destruct (get_nb_steps_joined_beyond_limit
              ["Program output:"; "  1"] [] long_numeral
              Hb Ha Hlast Hbefore Hne Hall Hlong)
    as (Hlines & Hmatch & Hraise).
  rewrite Hlen in Hraise.
  split; [exact Hlines |]. split; [exact Hmatch |].
  split; [exact Hraise |].
  intros n Hn. unfold report_long, long_steps_line in Hn.
  cbn [app] in Hraise. rewrite Hraise in Hn. discriminate Hn.
Qed.

(** C3 (amended) - A report with a line that matches
    "Number of steps: <digits>" has a first such line; when the numeral of
    that line has at most 4300 digits, [get_nb_steps] returns the integer
    the numeral denotes, and when it has more, [get_nb_steps] raises the
    [ValueError] of [int].  In particular, when the first matching line is
    "Number of steps: 777 (extra text)" the result is 777. *)
Theorem get_nb_steps_first_match (report : string) (lines : list string) :
  lines_of report lines ->
  (exists l, In l lines /\ matches_steps_pattern l) ->
  (exists line ds n,
      first_match lines line ds
      /\ numeral_value ds = Some n
      /\ (Z.of_nat (String.length ds) <= 4300 -> get_nb_steps report = Ok n)
      /\ (4300 < Z.of_nat (String.length ds) ->
          get_nb_steps report
          = Raise (ValueError
                     (int_limit_message (Z.of_nat (String.length ds))))))
  /\ (forall before after,
         lines = before ++ "Number of steps: 777 (extra text)" :: after ->
         (forall l, In l before -> ~ matches_steps_pattern l) ->
         get_nb_steps report = Ok 777).
Proof.
  intros Hlines Hsome. split.
  - apply some_line_matches in Hsome. destruct Hsome as (ds & Hfirst).
    apply first_steps_line_first_match in Hfirst.
    destruct Hfirst as (line & Hfirst).
    assert (Hall : all_digits ds).
    { destruct Hfirst as (before & after & _ & _ & Hds). apply Hds. }
    exists line, ds, (int_of_digits ds).
    split; [exact Hfirst |].
    split; [now apply numeral_value_int_of_digits |]. split.
    + intros Hlen. eapply get_nb_steps_at_first_match; eassumption.
    + intros Hlen. eapply get_nb_steps_beyond_limit; eassumption.
  - intros before after Hlist Hbefore.
    change 777 with (int_of_digits "777").
    apply (get_nb_steps_at_first_match
             report lines "Number of steps: 777 (extra text)" "777" Hlines).
    + exists before, after.
      split; [exact Hlist |]. split; [exact Hbefore | exact steps_digits_777].
    + cbn. lia.
Qed.

Lemma report_777_lines :
  lines_of report_777
           ["Program output:"; "  1"; "Number of steps: 777 (extra text)";
            "Number of steps: 5"].
Proof. exact (splitlines_lines_of report_777). Qed.

Lemma report_777_has_match :
  exists l, In l ["Program output:"; "  1"; "Number of steps: 777 (extra text)";
                  "Number of steps: 5"]
            /\ matches_steps_pattern l.
Proof.
  exists "Number of steps: 777 (extra text)". split.
  - right. right. left. reflexivity.
  - exists "777", " (extra text)".
    split; [discriminate |]. split; [| reflexivity].
    repeat constructor.
Qed.

Lemma get_nb_steps_first_match_witness :
  let lines := ["Program output:"; "  1"; "Number of steps: 777 (extra text)";
                "Number of steps: 5"] in
  lines_of report_777 lines
  /\ (exists l, In l lines /\ matches_steps_pattern l)
  /\ (exists line ds n,
         first_match lines line ds
         /\ numeral_value ds = Some n
         /\ (Z.of_nat (String.length ds) <= 4300 ->
             get_nb_steps report_777 = Ok n)
         /\ (4300 < Z.of_nat (String.length ds) ->
             get_nb_steps report_777
             = Raise (ValueError
                        (int_limit_message (Z.of_nat (String.length ds))))))
  /\ (forall before after,
         lines = before ++ "Number of steps: 777 (extra text)" :: after ->
         (forall l, In l before -> ~ matches_steps_pattern l) ->
         get_nb_steps report_777 = Ok 777).
Proof.
  cbv zeta.
  split; [exact report_777_lines |].
  split; [exact report_777_has_match |].
  exact (get_nb_steps_first_match report_777 _ report_777_lines
                                  report_777_has_match).
Defined.

(** The first of the two step-count lines of the report decides. *)
Example get_nb_steps_report_777 : get_nb_steps report_777 = Ok 777.
Proof. reflexivity. Qed.

Example get_nb_steps_report_plain :
  get_nb_steps report_plain = Raise (ValueError not_found_message).
Proof. reflexivity. Qed.

(** Leading zeros are read as digits of the number and do not change it. *)
Example get_nb_steps_leading_zeros :
  get_nb_steps "Number of steps: 00512" = Ok 512
  /\ numeral_value "00512" = Some 512.
Proof. split; reflexivity. Qed.

(** C4 - As stated the claim fails: the first line of [report_padded]
    matches "Number of steps: <digits>", its numeral denotes 512 in 4301
    digits, and [get_nb_steps] raises a [ValueError] all the same. *)
Lemma get_nb_steps_raises_despite_match :
  lines_of report_padded [padded_steps_line; "Used memory cells: 1024"]
  /\ matches_steps_pattern padded_steps_line
  /\ numeral_value padded_numeral = Some 512
  /\ (exists msg, get_nb_steps report_padded = Raise (ValueError msg))
  /\ ~ (exists n, get_nb_steps report_padded = Ok n).
Proof.
  destruct padded_numeral_digits as (Hne & Hall & Hlen & Hval).
  assert (Hb : Forall one_line (@nil string)) by constructor.
  assert (Ha : Forall one_line ["Used memory cells: 1024"])
    by (repeat constructor).
  assert (Hlast : last [(steps_label ++ padded_numeral)%string;
                        "Used memory cells: 1024"] "x" <> "")
    by (cbn [last]; discriminate).
  assert (Hbefore : forall l, In l (@nil string) -> ~ matches_steps_pattern l)
    by (intros l []).
  assert (Hlong : 4300 < Z.of_nat (String.length padded_numeral))
    by (rewrite Hlen; reflexivity).
  destruct (get_nb_steps_joined_beyond_limit
              [] ["Used memory cells: 1024"] padded_numeral
              Hb Ha Hlast Hbefore Hne Hall Hlong)
    as (Hlines & Hmatch & Hraise).
  cbn [app] in Hlines, Hraise.
  split; [exact Hlines |]. split; [exact Hmatch |]. split; [exact Hval |].
  split.
  - eexists. exact Hraise.
  - intros (n & Hn). unfold report_padded, padded_steps_line in Hn.
    rewrite Hraise in Hn. discriminate Hn.
Qed.

(** C4 (amended) - [get_nb_steps] raises the [ValueError] of the missing
    step count exactly on the reports none of whose lines matches
    "Number of steps: <digits>"; it returns an integer exactly on the
    reports whose first matching line has a numeral of at most 4300 digits;
    on a first matching line with a longer numeral it raises the
    [ValueError] of [int]; it raises nothing else. *)
Theorem get_nb_steps_raises_iff_no_match (report : string) (lines : list string) :
  lines_of report lines ->
  (get_nb_steps report = Raise (ValueError not_found_message) <->
   forall l, In l lines -> ~ matches_steps_pattern l)
  /\ ((exists n, get_nb_steps report = Ok n) <->
      exists line ds,
        first_match lines line ds /\ Z.of_nat (String.length ds) <= 4300)
  /\ (forall e, get_nb_steps report = Raise e ->
        e = ValueError not_found_message
        \/ exists line ds,
             first_match lines line ds
             /\ 4300 < Z.of_nat (String.length ds)
             /\ e = ValueError
                      (int_limit_message (Z.of_nat (String.length ds)))).
Proof.
  intros Hlines. pose proof (lines_of_splitlines _ _ Hlines) as Hsplit.
  split; [| split].
  - rewrite get_nb_steps_Raise_cases, Hsplit, no_match_before,
      <- first_steps_line_None.
    split.
    + intros [[Hnone _] | (ds & _ & _ & Hmsg)]; [exact Hnone |].
      exfalso.
      apply (int_limit_message_not_found (Z.of_nat (String.length ds))).
      congruence.
    + intros Hnone. left. now split.
  - split.
    + intros (n & Hn). apply get_nb_steps_Ok in Hn.
      destruct Hn as (ds & Hfirst & Hlen & _).
      rewrite Hsplit in Hfirst.
      apply first_steps_line_first_match in Hfirst.
      destruct Hfirst as (line & Hfirst). now exists line, ds.
    + intros (line & ds & Hfirst & Hlen). exists (int_of_digits ds).
      eapply get_nb_steps_at_first_match; eassumption.
  - intros e He. apply get_nb_steps_Raise_cases in He.
    destruct He as [[_ ->] | (ds & Hfirst & Hlen & ->)]; [now left |].
    right. rewrite Hsplit in Hfirst.
    apply first_steps_line_first_match in Hfirst.
    destruct Hfirst as (line & Hfirst). now exists line, ds.
Qed.

Lemma report_plain_lines :
  lines_of report_plain ["Program output:"; "  1"; "steps: 777"].
Proof. exact (splitlines_lines_of report_plain). Qed.

Lemma get_nb_steps_raises_iff_no_match_witness :
  let lines := ["Program output:"; "  1"; "steps: 777"] in
  lines_of report_plain lines
  /\ (get_nb_steps report_plain = Raise (ValueError not_found_message) <->
      forall l, In l lines -> ~ matches_steps_pattern l)
  /\ ((exists n, get_nb_steps report_plain = Ok n) <->
      exists line ds,
        first_match lines line ds /\ Z.of_nat (String.length ds) <= 4300)
  /\ (forall e, get_nb_steps report_plain = Raise e ->
        e = ValueError not_found_message
        \/ exists line ds,
             first_match lines line ds
             /\ 4300 < Z.of_nat (String.length ds)
             /\ e = ValueError
                      (int_limit_message (Z.of_nat (String.length ds)))).
Proof.
  cbv zeta. split; [exact report_plain_lines |].
  exact (get_nb_steps_raises_iff_no_match report_plain _ report_plain_lines).
Defined.

(** ** Running the script *)

(** Unfold the script down to the calls of the [OS] interface. *)
Ltac unfold_script H :=
  cbv beta iota zeta
      delta [main main_after_copy copy_program except_SameFileError
             compile_cairo_program run_cairo_program generate_prover_config
             prove_cairo_program subprocess_run check_returncode write_json
             print encodes decode lift mkdir copy2 is_file bind ret raise
             fst snd] in H.

(** Split on the outcome of the next call the script makes. *)
Ltac next_call H :=
  match type of H with
  | context [get_nb_steps ?t] =>
      let E := fresh "Esteps" in destruct (get_nb_steps t) as [?n | ?e] eqn:E
  | context [compute_fri_step_list ?f ?n ?b] =>
      let E := fresh "Efri" in
      destruct (compute_fri_step_list f n b) as [?steps | ?e] eqn:E
  | context [returncode ?c =? 0] =>
      let E := fresh "Ecode" in destruct (returncode c =? 0) eqn:E
  | context [match ?d ?b with Some _ => _ | None => _ end] =>
      let E := fresh "Edecode" in destruct (d b) as [?text |] eqn:E
  | context [os_is_file ?o ?w ?p] =>
      let E := fresh "Efile" in destruct (os_is_file o w p) eqn:E
  | context [os_mkdir ?o ?w ?p] =>
      let E := fresh "Emkdir" in
      destruct (os_mkdir o w p) as [[?msg |] ?w] eqn:E
  | context [os_copy2 ?o ?w ?src ?dst] =>
      let E := fresh "Ecopy" in
      destruct (os_copy2 o w src dst) as [[| | ?msg] ?w] eqn:E
  | context [os_run ?o ?w ?argv] =>
      let E := fresh "Erun" in
      destruct (os_run o w argv) as [[?msg | ?completed] ?w] eqn:E
  | context [os_write ?o ?w ?p ?c] =>
      let E := fresh "Ewrite" in
      destruct (os_write o w p c) as [[?msg |] ?w] eqn:E
  | context [os_encodes ?o ?text] =>
      let E := fresh "Eprint" in destruct (os_encodes o text) eqn:E
  end;
  cbv beta iota zeta delta [fst snd negb nb_steps] in H.

Ltac run_script H := unfold_script H; repeat next_call H.

Section RunCairoProgram.

Variable log_int : Z -> float.
Variable World : Type.
Variable os : OS World.
Variable decode_utf8 : string -> option string.

Lemma run_cairo_program_Ok
      (compiled out : Path) (program_name : string) (input : option Path)
      (s s' : state World) (a : ExecutionArtifacts) :
  run_cairo_program os decode_utf8 compiled out program_name input s
  = (Ok a, s') ->
  exists completed text,
    decode_utf8 (stdout completed) = Some text
    /\ returncode completed = 0
    /\ get_nb_steps text = Ok (nb_steps a)
    /\ public_input a = joinpath out (program_name ++ "_public_input.json")
    /\ private_input a = joinpath out (program_name ++ "_private_input.json")
    /\ memory a = joinpath out (program_name ++ "_memory.bin")
    /\ trace a = joinpath out (program_name ++ "_trace.bin")
    /\ snd s'
       = snd s ++ [EvRun (run_command compiled (public_input a) (private_input a)
                                      (trace a) (memory a) input)
                         (inr completed)].
Proof.
  intros H. destruct s as [w t]. run_script H; try discriminate H.
  injection H as <- <-.
  exists completed, text. apply Z.eqb_eq in Ecode.
  repeat split; try assumption; reflexivity.
Qed.

End RunCairoProgram.

(** ** Paths *)

Section PathFacts.

Lemma append_inv_head (a b c : string) :
  (a ++ b)%string = (a ++ c)%string -> b = c.
Proof.
  induction a as [| x a IH]; simpl; intros H; [exact H |].
  injection H as H. now apply IH.
Qed.

Lemma no_slash_app (a b : string) :
  no_slash (a ++ b) <-> no_slash a /\ no_slash b.
Proof.
  induction a as [| c a IH]; simpl.
  - tauto.
  - rewrite IH. tauto.
Qed.

(** Without a slash there is one component. *)
Lemma split_slash_from_no_slash (cur s : string) :
  no_slash s -> split_slash_from cur s = [(cur ++ s)%string].
Proof.
  revert cur. induction s as [| c s IH]; intros cur Hs; simpl.
  - now rewrite string_append_nil_r.
  - destruct Hs as [Hc Hs]. rewrite Hc, (IH _ Hs), string_append_assoc. reflexivity.
Qed.

(** No component holds a slash. *)
Lemma split_slash_from_components (cur s : string) :
  no_slash cur -> Forall no_slash (split_slash_from cur s).
Proof.
  revert cur. induction s as [| c s IH]; intros cur Hcur; simpl.
  - constructor; [exact Hcur | constructor].
  - destruct (is_slash c) eqn:Hc.
    + constructor; [exact Hcur | apply IH; exact I].
    + apply IH. apply no_slash_app. split; [exact Hcur |].
      simpl. split; [exact Hc | exact I].
Qed.

Lemma root_of_no_slash (s : string) : no_slash s -> root_of s = "".
Proof.
  destruct s as [| c1 s]; [reflexivity |].
  intros [Hc _]. unfold root_of.
  destruct s as [| c2 [| c3 s]]; rewrite Hc; reflexivity.
Qed.

(** A single component parses to itself. *)
Lemma Path_of_string_component (s : string) :
  no_slash s -> is_skipped s = false -> Path_of_string s = mkPath "" [s].
Proof.
  intros Hs Hskip. unfold Path_of_string.
  rewrite (root_of_no_slash s Hs), (split_slash_from_no_slash "" s Hs).
  simpl. rewrite Hskip. reflexivity.
Qed.

Lemma joinpath_component (dir : Path) (s : string) :
  no_slash s -> is_skipped s = false ->
  joinpath dir s = mkPath (root dir) (names dir ++ [s]).
Proof.
  intros Hs Hskip. unfold joinpath.
  rewrite (Path_of_string_component s Hs Hskip). reflexivity.
Qed.

Lemma name_snoc (r : string) (ns : list string) (s : string) :
  name (mkPath r (ns ++ [s])) = s.
Proof. unfold name. simpl. apply last_last. Qed.

Lemma names_of_parsed (s : string) :
  Forall (fun c => no_slash c /\ is_skipped c = false) (names (Path_of_string s)).
Proof.
  unfold Path_of_string. simpl. apply Forall_forall. intros c Hc.
  apply filter_In in Hc. destruct Hc as [Hin Hkeep].
  split.
  - pose proof (split_slash_from_components "" s I) as Hall.
    rewrite Forall_forall in Hall. now apply Hall.
  - now apply negb_true_iff in Hkeep.
Qed.

Lemma last_Forall {A : Type} (P : A -> Prop) (l : list A) (d : A) :
  Forall P l -> l <> [] -> P (last l d).
Proof.
  induction l as [| x l IH]; intros Hall Hne; [now elim Hne |].
  inversion Hall as [| ? ? Hx Hl]; subst.
  destruct l as [| y l]; [exact Hx |].
  apply IH; [exact Hl | discriminate].
Qed.

(** The name of a parsed path is empty or a single kept component. *)
Lemma name_of_parsed (s : string) :
  name (Path_of_string s) = ""
  \/ (no_slash (name (Path_of_string s))
      /\ is_skipped (name (Path_of_string s)) = false).
Proof.
  unfold name. destruct (names (Path_of_string s)) as [| c ns] eqn:Hn.
  - left. reflexivity.
  - right. rewrite <- Hn.
    apply (last_Forall (fun c => no_slash c /\ is_skipped c = false)).
    + apply names_of_parsed.
    + rewrite Hn. discriminate.
Qed.

Lemma is_dot_eq (c : ascii) : is_dot c = true -> c = "."%char.
Proof.
  unfold is_dot. intros H. apply N.eqb_eq in H.
  rewrite <- (ascii_N_embedding c), H. reflexivity.
Qed.

Lemma rsplit_dot_Some (s a b : string) :
  rsplit_dot s = Some (a, b) -> s = (a ++ String "." b)%string.
Proof.
  revert a. induction s as [| c s IH]; intros a; simpl; [discriminate |].
  destruct (rsplit_dot s) as [[a' b'] |].
  - intros H. injection H as <- <-. simpl. now rewrite (IH a' eq_refl).
  - destruct (is_dot c) eqn:Hc; [| discriminate].
    intros H. injection H as <- <-. simpl. now rewrite (is_dot_eq c Hc).
Qed.

(** The stem is the name, or the name up to a dot. *)
Lemma stem_of_name_cases (n : string) :
  stem_of_name n = n
  \/ exists b, n = (stem_of_name n ++ String "." b)%string.
Proof.
  unfold stem_of_name. destruct (rsplit_dot n) as [[a b] |] eqn:Hsplit.
  - destruct (String.eqb a "" || String.eqb b ""); [now left |].
    right. exists b. now apply rsplit_dot_Some.
  - now left.
Qed.

Lemma stem_of_name_no_slash (n : string) :
  no_slash n -> no_slash (stem_of_name n).
Proof.
  intros Hn. destruct (stem_of_name_cases n) as [-> | [b Hb]]; [exact Hn |].
  rewrite Hb in Hn. now apply no_slash_app in Hn.
Qed.

(** The stem of a parsed path holds no slash. *)
Lemma stem_no_slash (s : string) : no_slash (stem (Path_of_string s)).
Proof.
  unfold stem. apply stem_of_name_no_slash.
  destruct (name_of_parsed s) as [-> | [H _]]; [exact I | exact H].
Qed.

(** A stem followed by an underscore and more is one component. *)
Lemma artifact_name_component (base rest : string) :
  no_slash base -> no_slash rest ->
  no_slash (base ++ String "_" rest)
  /\ is_skipped (base ++ String "_" rest) = false.
Proof.
  intros Hb Hr. split.
  - apply no_slash_app. split; [exact Hb |]. simpl. split; [reflexivity | exact Hr].
  - unfold is_skipped. apply orb_false_iff.
    split; apply String.eqb_neq; intros H.
    + destruct base; discriminate H.
    + destruct base as [| c base]; simpl in H; [discriminate H |].
      injection H as _ H. destruct base; discriminate H.
Qed.

(** An artifact named after the program lies in the output directory under
    that very name. *)
Lemma joinpath_artifact (dir : Path) (base rest : string) :
  no_slash base -> no_slash rest ->
  joinpath dir (base ++ String "_" rest)
  = mkPath (root dir) (names dir ++ [(base ++ String "_" rest)%string]).
Proof.
  intros Hb Hr.
  destruct (artifact_name_component base rest Hb Hr) as [Hs Hskip].
  now apply joinpath_component.
Qed.

End PathFacts.

(** ** The pipeline *)

(** Close a run: read the result, the machine and the trace off the
    equation the script ended in. *)
Ltac close_run H :=
  repeat rewrite <- app_assoc in H; cbn [app] in H;
  injection H; clear H; intros; subst.

(** Read an event of a concrete trace. *)
Ltac pick_event H :=
  cbn [In snd app] in H;
  repeat match type of H with
         | _ \/ _ => destruct H as [H | H]
         end;
  try contradiction; try discriminate H;
  try (injection H; clear H; intros); subst.

(** Unfold [main] down to its four stages. *)
Ltac unfold_main H :=
  cbv beta iota zeta
      delta [main copy_program except_SameFileError mkdir copy2 is_file
             bind ret raise fst snd] in H.

Ltac next_check H :=
  match type of H with
  | context [String.eqb ?s ""] =>
      let E := fresh "Eempty" in destruct (String.eqb s "") eqn:E
  | _ => next_call H
  end;
  cbv beta iota zeta delta [fst snd negb] in H.

Section MainAfterCopy.

Variable log_int : Z -> float.
Variable World : Type.
Variable os : OS World.
Variable decode_utf8 : string -> option string.

Lemma get_nb_steps_Raise (report : string) (e : exn) :
  get_nb_steps report = Raise e -> exists msg, e = ValueError msg.
Proof.
  intros H. apply get_nb_steps_Raise_cases in H.
  destruct H as [[_ ->] | (ds & _ & _ & ->)]; eexists; reflexivity.
Qed.

Lemma math_ceil_Raise (x : float) (e : exn) :
  math_ceil x = Raise e -> e <> SameFileError.
Proof.
  unfold math_ceil. destruct (Prim2SF x); intros H;
    try discriminate H; injection H as <-; discriminate.
Qed.

Lemma ceil_log2_Raise (n : Z) (e : exn) :
  ceil_log2 log_int n = Raise e -> e <> SameFileError.
Proof.
  unfold ceil_log2, math_log.
  destruct (n <=? 0); [intros H; injection H as <-; discriminate |].
  destruct (2 <=? 0); [intros H; injection H as <-; discriminate |].
  destruct (PrimFloat.eqb (log_int 2) 0);
    [intros H; injection H as <-; discriminate |].
  apply math_ceil_Raise.
Qed.

Lemma compute_fri_step_list_Raise (nb_steps bound : Z) (e : exn) :
  compute_fri_step_list log_int nb_steps bound = Raise e -> e <> SameFileError.
Proof.
  unfold compute_fri_step_list, sigma_fri_step_list.
  destruct (ceil_log2 log_int nb_steps) as [c1 | e1] eqn:H1; simpl.
  - destruct (ceil_log2 log_int bound) as [c2 | e2] eqn:H2; simpl.
    + discriminate.
    + intros H. injection H as <-. eapply ceil_log2_Raise; exact H2.
  - intros H. injection H as <-. eapply ceil_log2_Raise; exact H1.
Qed.

(** A run of the four stages that ends well made exactly these calls. *)
Lemma main_after_copy_Ok
      (p : Path) (base : string) (out : Path)
      (w w' : World) (t0 t' : list event) :
  main_after_copy log_int os decode_utf8 p base out (w, t0)
  = (Ok tt, (w', t')) ->
  exists c1 c2 c3 steps n,
    let compiled := joinpath out (base ++ "_compiled.json") in
    let artifacts :=
      mkArtifacts (joinpath out (base ++ "_public_input.json"))
                  (joinpath out (base ++ "_private_input.json"))
                  (joinpath out (base ++ "_memory.bin"))
                  (joinpath out (base ++ "_trace.bin")) n in
    let config_file := joinpath out "cpu_air_prover_config.json" in
    let parameter_file := joinpath out "cpu_air_params.json" in
    let proof_file := joinpath out (base ++ "_proof.json") in
    t' = t0 ++
         [EvRun (compile_command p compiled) (inr c1);
          EvRun (run_command compiled (public_input artifacts)
                             (private_input artifacts) (trace artifacts)
                             (memory artifacts) None) (inr c2);
          EvWrite config_file (dumps config) None;
          EvWrite parameter_file (dumps (parameters steps 64)) None;
          EvRun (prove_command artifacts config_file parameter_file proof_file)
                (inr c3);
          EvPrint (MsgProofGenerated proof_file)]
    /\ compute_fri_step_list log_int n 64 = Ok steps.
Proof.
  intros H. run_script H; try discriminate H.
  close_run H.
  exists completed, completed0, completed1, steps, n.
  cbv zeta. split; [reflexivity | assumption].
Qed.

(** The first call of the four stages is the compiler, and no stage
    raises [SameFileError]. *)
Lemma main_after_copy_starts_with_compile
      (p : Path) (base : string) (out : Path)
      (w w' : World) (t0 t' : list event) (r : result unit) :
  main_after_copy log_int os decode_utf8 p base out (w, t0)
  = (r, (w', t')) ->
  r <> Raise SameFileError
  /\ exists rest,
       t' = t0 ++ EvRun (compile_command p (joinpath out (base ++ "_compiled.json")))
                        (fst (os_run os w (compile_command p
                                 (joinpath out (base ++ "_compiled.json")))))
                  :: rest.
Proof.
  intros H. run_script H; close_run H;
    (split; [| eexists; reflexivity]);
    try discriminate.
  - intros Heq. injection Heq as ->.
    now apply compute_fri_step_list_Raise in Efri.
  - apply get_nb_steps_Raise in Esteps. destruct Esteps as [msg ->].
    discriminate.
Qed.

(** When the execution tool exits with a non-zero status, its call is the
    last one: the run ends there in an exception, after at most a
    message. *)
Lemma main_after_copy_failed_run
      (p : Path) (base : string) (out : Path)
      (w w' : World) (t0 t' : list event) (r : result unit) :
  main_after_copy log_int os decode_utf8 p base out (w, t0)
  = (r, (w', t')) ->
  exists t1,
    t' = t0 ++ t1
    /\ forall argv c,
         In (EvRun argv (inr c)) t1 ->
         tool_of argv = "cairo-run" ->
         returncode c <> 0 ->
         (r = Raise (CalledProcessError (returncode c) (map render_arg argv))
          \/ r = Raise UnicodeDecodeError
          \/ r = Raise UnicodeEncodeError)
         /\ exists c1 tail,
              t1 = EvRun (compile_command p (joinpath out (base ++ "_compiled.json")))
                         (inr c1)
                   :: EvRun argv (inr c) :: tail
              /\ argv = run_command (joinpath out (base ++ "_compiled.json"))
                                    (joinpath out (base ++ "_public_input.json"))
                                    (joinpath out (base ++ "_private_input.json"))
                                    (joinpath out (base ++ "_trace.bin"))
                                    (joinpath out (base ++ "_memory.bin")) None
              /\ (tail = [] \/ exists text, tail = [EvPrint (MsgRunFailed text)]).
Proof.
  intros H. run_script H; close_run H;
    (eexists; split; [reflexivity |]);
    intros argv c Hin Htool Hcode;
    pick_event Hin;
    try (cbn in Htool; discriminate Htool);
    try (apply Z.eqb_eq in Ecode0; contradiction).
  all: split;
    [ first [ now left | now right; left | now right; right ]
    | eexists; eexists; split; [reflexivity |]; split; [reflexivity |];
      first [ now left | right; eexists; reflexivity ] ].
Qed.

End MainAfterCopy.

Section Main.

Variable log_int : Z -> float.
Variable World : Type.
Variable os : OS World.
Variable decode_utf8 : string -> option string.

(** A run of [main] stops before the four stages, having at most made the
    output directory and failed to copy the program, or it goes through
    them after the copy. *)
Lemma main_cases (args : Namespace) (w0 : World) (r : result unit)
      (s1 : state World) :
  main log_int os decode_utf8 args (w0, []) = (r, s1) ->
  (exists e, r = Raise e
             /\ forall ev, In ev (snd s1) ->
                  (exists q err, ev = EvMkdir q err)
                  \/ (exists src dst msg, ev = EvCopy src dst (CopyFailed msg)))
  \/ (exists dir w1 w2 outcome,
         output_dir args = Some dir
         /\ os_mkdir os w0 (Path_of_string dir) = (None, w1)
         /\ os_copy2 os w1 (Path_of_string (program args)) (Path_of_string dir)
            = (outcome, w2)
         /\ (outcome = Copied \/ outcome = SameFile)
         /\ main_after_copy log_int os decode_utf8
              (Path_of_string (program args))
              (stem (Path_of_string (program args)))
              (Path_of_string dir)
              (w2, [EvMkdir (Path_of_string dir) None;
                    EvCopy (Path_of_string (program args)) (Path_of_string dir)
                           outcome])
            = (r, s1)).
Proof.
  intros H. unfold_main H. repeat next_check H;
    try (left; injection H as <- <-; eexists; split; [reflexivity |];
         intros ev Hev; pick_event Hev;
         solve [ left; eauto | right; eauto ]);
    right; cbn [app] in H;
    repeat eexists; eauto.
Qed.

End Main.

(** ** [run_cairo_program] and the step count *)

(** C7 - As stated the claim fails: a report whose line reads
    "Number of steps: 0" makes [run_cairo_program] return artifacts with
    [nb_steps = 0]. *)
Lemma run_cairo_program_zero_steps :
  ~ (forall a s', zero_steps_run = (Ok a, s') -> 0 < nb_steps a).
Proof.
  intros H.
  assert (Hrun : exists a s', zero_steps_run = (Ok a, s') /\ nb_steps a = 0).
  { eexists. eexists. split; [vm_compute; reflexivity | reflexivity]. }
  destruct Hrun as (a & s' & Hrun & Hzero).
  specialize (H a s' Hrun). lia.
Qed.

(** C7 (amended) - Every [ExecutionArtifacts] value [run_cairo_program]
    returns has [nb_steps >= 0], and that number is the integer
    [get_nb_steps] read from the decoded report of the execution tool. *)
Theorem run_cairo_program_nb_steps_nonneg
        (World : Type) (os : OS World) (decode_utf8 : string -> option string)
        (compiled out : Path) (program_name : string) (input : option Path)
        (s s' : state World) (a : ExecutionArtifacts) :
  run_cairo_program os decode_utf8 compiled out program_name input s
  = (Ok a, s') ->
  0 <= nb_steps a
  /\ exists completed text,
       In (EvRun (run_command compiled (public_input a) (private_input a)
                              (trace a) (memory a) input) (inr completed))
          (snd s')
       /\ decode_utf8 (stdout completed) = Some text
       /\ get_nb_steps text = Ok (nb_steps a).
Proof.
  intros H. apply run_cairo_program_Ok in H.
  destruct H as (completed & text & Hdec & _ & Hsteps & _ & _ & _ & _ & Htrace).
  split.
  - eapply get_nb_steps_nonneg. exact Hsteps.
  - exists completed, text. split; [| split; assumption].
    rewrite Htrace. apply in_or_app. right. now left.
Qed.

Lemma run_cairo_program_nb_steps_nonneg_witness :
  zero_steps_run = (Ok zero_steps_artifacts, snd zero_steps_run)
  /\ 0 <= nb_steps zero_steps_artifacts
  /\ exists completed text,
       In (EvRun (run_command (Path_of_string "out/fib_compiled.json")
                              (public_input zero_steps_artifacts)
                              (private_input zero_steps_artifacts)
                              (trace zero_steps_artifacts)
                              (memory zero_steps_artifacts) None)
                 (inr completed))
          (snd (snd zero_steps_run))
       /\ decode_ascii (stdout completed) = Some text
       /\ get_nb_steps text = Ok (nb_steps zero_steps_artifacts).
Proof.
  assert (Hrun : zero_steps_run = (Ok zero_steps_artifacts, snd zero_steps_run))
    by (vm_compute; reflexivity).
  split; [exact Hrun |].
  exact (run_cairo_program_nb_steps_nonneg
           unit (scripted_os Copied (tools_ok report_zero)) decode_ascii
           (Path_of_string "out/fib_compiled.json")
           (Path_of_string "out") "fib" None (tt, [])
           (snd zero_steps_run) zero_steps_artifacts Hrun).
Defined.

(** With no step counted, the configuration stage raises before it writes
    anything. *)
Example generate_prover_config_zero_steps :
  generate_prover_config log_table (scripted_os Copied (tools_ok report_zero)) zero_steps_artifacts
    (Path_of_string "out") (tt, [])
  = (Raise (ValueError "math domain error"), (tt, [])).
Proof. vm_compute. reflexivity. Qed.

(** ** [generate_prover_config] *)

Section GenerateProverConfig.

Variable log_int : Z -> float.
Variable World : Type.
Variable os : OS World.

(** What a run of the configuration stage writes: nothing when the step
    list cannot be computed, else the engine-tuning document and, if that
    could be written, the parameter document of the step list. *)
Lemma generate_prover_config_documents
      (a : ExecutionArtifacts) (out : Path) (w w' : World)
      (t : list event) (r : result (Path * Path)) :
  generate_prover_config log_int os a out (w, []) = (r, (w', t)) ->
  (exists e, compute_fri_step_list log_int (nb_steps a) 64 = Raise e
             /\ r = Raise e /\ t = [])
  \/ (exists steps,
         compute_fri_step_list log_int (nb_steps a) 64 = Ok steps
         /\ ((exists msg,
                 r = Raise (OSError msg)
                 /\ written t
                    = [(joinpath out "cpu_air_prover_config.json", dumps config)])
             \/ ((r = Ok (joinpath out "cpu_air_prover_config.json",
                          joinpath out "cpu_air_params.json")
                  \/ exists msg, r = Raise (OSError msg))
                 /\ written t
                    = [(joinpath out "cpu_air_prover_config.json", dumps config);
                       (joinpath out "cpu_air_params.json",
                        dumps (parameters steps 64))]))).
Proof.
  intros H. run_script H; close_run H.
  - right. exists steps. split; [reflexivity |]. left. now exists msg.
  - right. exists steps. split; [reflexivity |]. right.
    split; [right; now exists msg | reflexivity].
  - right. exists steps. split; [reflexivity |]. right.
    split; [now left | reflexivity].
  - left. exists e. repeat split.
Qed.

End GenerateProverConfig.

(** The documents of a run are the first ones of a list the step count
    alone decides. *)
Lemma documents_of_generate_prover_config
      (log_int : Z -> float) (World : Type) (os : OS World)
      (a : ExecutionArtifacts) (out : Path) (w w' : World)
      (t : list event) (r : result (Path * Path)) :
  generate_prover_config log_int os a out (w, []) = (r, (w', t)) ->
  exists k,
    documents t
    = firstn k
        match compute_fri_step_list log_int (nb_steps a) 64 with
        | Ok steps => [dumps config; dumps (parameters steps 64)]
        | Raise _ => []
        end
    /\ (forall files, r = Ok files -> k = 2%nat).
Proof.
  intros H. apply generate_prover_config_documents in H.
  destruct H as [(e & -> & -> & ->) | (steps & -> & [(msg & -> & Hw) | [Hr Hw]])].
  - exists 0%nat. split; [reflexivity | discriminate].
  - exists 1%nat. unfold documents. rewrite Hw.
    split; [reflexivity | discriminate].
  - exists 2%nat. unfold documents. rewrite Hw. split; reflexivity.
Qed.

(** C6 - Two runs of [generate_prover_config] on artifacts with the same
    [nb_steps], whatever their other fields, output directories and
    machines: the i-th document one run writes is, byte for byte, the i-th
    document the other writes; and when both runs return, both wrote the
    same two documents, the engine-tuning one and the parameter one. *)
Theorem generate_prover_config_deterministic
        (log_int : Z -> float)
        (World1 World2 : Type) (os1 : OS World1) (os2 : OS World2)
        (a1 a2 : ExecutionArtifacts) (out1 out2 : Path)
        (w1 w1' : World1) (w2 w2' : World2)
        (t1 t2 : list event) (r1 r2 : result (Path * Path)) :
  nb_steps a1 = nb_steps a2 ->
  generate_prover_config log_int os1 a1 out1 (w1, []) = (r1, (w1', t1)) ->
  generate_prover_config log_int os2 a2 out2 (w2, []) = (r2, (w2', t2)) ->
  (forall i d1 d2,
      nth_error (documents t1) i = Some d1 ->
      nth_error (documents t2) i = Some d2 ->
      d1 = d2)
  /\ (forall files1 files2,
         r1 = Ok files1 -> r2 = Ok files2 ->
         documents t1 = documents t2
         /\ exists steps,
              compute_fri_step_list log_int (nb_steps a1) 64 = Ok steps
              /\ documents t1 = [dumps config; dumps (parameters steps 64)]).
Proof.
  intros Hsteps H1 H2.
  pose proof (generate_prover_config_documents _ _ _ _ _ _ _ _ _ H1) as Hcase.
  apply documents_of_generate_prover_config in H1.
  apply documents_of_generate_prover_config in H2.
  destruct H1 as (k1 & Hd1 & Hk1). destruct H2 as (k2 & Hd2 & Hk2).
  rewrite <- Hsteps in Hd2.
  remember (match compute_fri_step_list log_int (nb_steps a1) 64 with
            | Ok steps => [dumps config; dumps (parameters steps 64)]
            | Raise _ => []
            end) as docs eqn:Hdocs.
  split.
  - intros i d1 d2 Hi1 Hi2. rewrite Hd1 in Hi1. rewrite Hd2 in Hi2.
    assert (Hnth : forall k d, nth_error (firstn k docs) i = Some d ->
                               nth_error docs i = Some d).
    { intros k d Hk. destruct (Nat.lt_ge_cases i k) as [Hlt | Hge].
      - now rewrite nth_error_firstn, (proj2 (Nat.ltb_lt i k) Hlt) in Hk.
      - rewrite nth_error_firstn in Hk.
        destruct (i <? k)%nat eqn:Hik; [| discriminate Hk].
        apply Nat.ltb_lt in Hik. lia. }
    apply Hnth in Hi1. apply Hnth in Hi2. congruence.
  - intros files1 files2 -> ->.
    rewrite Hd1, Hd2, (Hk1 files1 eq_refl), (Hk2 files2 eq_refl).
    split; [reflexivity |].
    destruct Hcase as [(e & _ & Hr & _) | (steps & Hfri & _)];
      [discriminate Hr |].
    exists steps. split; [exact Hfri |].
    rewrite Hdocs, Hfri. reflexivity.
Qed.

Lemma generate_prover_config_deterministic_witness :
  nb_steps artifacts_a = nb_steps artifacts_b
  /\ config_run_a = (fst config_run_a, (tt, snd (snd config_run_a)))
  /\ config_run_b = (fst config_run_b, (tt, snd (snd config_run_b)))
  /\ (forall i d1 d2,
         nth_error (documents (snd (snd config_run_a))) i = Some d1 ->
         nth_error (documents (snd (snd config_run_b))) i = Some d2 ->
         d1 = d2)
  /\ (forall files1 files2,
         fst config_run_a = Ok files1 -> fst config_run_b = Ok files2 ->
         documents (snd (snd config_run_a)) = documents (snd (snd config_run_b))
         /\ exists steps,
              compute_fri_step_list log_table (nb_steps artifacts_a) 64 = Ok steps
              /\ documents (snd (snd config_run_a))
                 = [dumps config; dumps (parameters steps 64)]).
Proof.
  assert (Hn : nb_steps artifacts_a = nb_steps artifacts_b) by reflexivity.
  assert (Ha : config_run_a = (fst config_run_a, (tt, snd (snd config_run_a))))
    by (vm_compute; reflexivity).
  assert (Hb : config_run_b = (fst config_run_b, (tt, snd (snd config_run_b))))
    by (vm_compute; reflexivity).
  split; [exact Hn |]. split; [exact Ha |]. split; [exact Hb |].
  exact (generate_prover_config_deterministic
           log_table unit unit
           (scripted_os Copied (tools_ok "")) (scripted_os SameFile tools_run_fails)
           artifacts_a artifacts_b (Path_of_string "a") (Path_of_string "b")
           tt tt tt tt _ _ _ _ Hn Ha Hb).
Defined.

(** The two documents of 512 steps. *)
Example documents_512 :
  documents (snd (snd config_run_a))
  = [dumps config; dumps (parameters [4; 3] 64)]
  /\ documents (snd (snd config_run_b)) = documents (snd (snd config_run_a)).
Proof. split; vm_compute; reflexivity. Qed.

(** ** The files of a run *)

Section ProofFile.

Lemma mkPath_snoc_inj (r : string) (ns : list string) (a b : string) :
  mkPath r (ns ++ [a]) = mkPath r (ns ++ [b]) -> a = b.
Proof.
  intros H. injection H as H. apply app_inv_head in H. now injection H.
Qed.

Lemma joinpath_artifact_inj (dir : Path) (base r1 r2 : string) :
  no_slash base -> no_slash r1 -> no_slash r2 ->
  joinpath dir (base ++ String "_" r1) = joinpath dir (base ++ String "_" r2) ->
  r1 = r2.
Proof.
  intros Hb H1 H2 H.
  rewrite !joinpath_artifact in H by assumption.
  apply mkPath_snoc_inj, append_inv_head in H. now injection H.
Qed.

(** The copy of the program is not called like an artifact of the program:
    the name of a path differs from its stem followed by an underscore. *)
Lemma name_is_no_artifact (s rest : string) :
  name (Path_of_string s)
  <> (stem (Path_of_string s) ++ String "_" rest)%string.
Proof.
  unfold stem. set (n := name (Path_of_string s)). intros H.
  destruct (stem_of_name_cases n) as [Hsame | [b Hb]].
  - rewrite Hsame in H. rewrite <- (string_append_nil_r n) in H at 1.
    apply append_inv_head in H. discriminate H.
  - rewrite Hb in H at 1. apply append_inv_head in H. discriminate H.
Qed.

Lemma joinpath_name (dir : Path) (s : string) :
  joinpath dir (name (Path_of_string s))
  = mkPath (root dir) (names dir)
  \/ joinpath dir (name (Path_of_string s))
     = mkPath (root dir) (names dir ++ [name (Path_of_string s)]).
Proof.
  destruct (name_of_parsed s) as [-> | [Hn Hskip]].
  - left. unfold joinpath. simpl. now rewrite app_nil_r.
  - right. now apply joinpath_component.
Qed.

(** The copy of the program is not the file of an artifact. *)
Lemma copy_is_no_artifact (dir : Path) (s rest : string) :
  no_slash rest ->
  joinpath dir (name (Path_of_string s))
  <> joinpath dir (stem (Path_of_string s) ++ String "_" rest).
Proof.
  intros Hrest H.
  rewrite (joinpath_artifact dir _ rest (stem_no_slash s) Hrest) in H.
  destruct (joinpath_name dir s) as [Hj | Hj]; rewrite Hj in H.
  - injection H as H. rewrite <- (app_nil_r (names dir)) in H at 1.
    apply app_inv_head in H. discriminate H.
  - apply mkPath_snoc_inj in H. now apply name_is_no_artifact in H.
Qed.

End ProofFile.

(** ** [main] *)

(** C5 - In every run of [main] in which the execution tool was called and
    exited with a non-zero status, [main] ends in an exception, the prover
    is never called, no configuration document is written, and the proof
    file is not among the files the calls of the run can have created. *)
Theorem main_aborts_when_run_fails
        (log_int : Z -> float) (World : Type) (os : OS World)
        (decode_utf8 : string -> option string)
        (args : Namespace) (w0 w1 : World) (r : result unit) (t : list event)
        (argv : list arg) (completed : CompletedProcess) :
  main log_int os decode_utf8 args (w0, []) = (r, (w1, t)) ->
  In (EvRun argv (inr completed)) t ->
  tool_of argv = "cairo-run" ->
  returncode completed <> 0 ->
  (exists e, r = Raise e)
  /\ (forall argv' outcome,
         In (EvRun argv' outcome) t -> tool_of argv' <> "cpu_air_prover")
  /\ (forall q content err, ~ In (EvWrite q content err) t)
  /\ (forall dir,
         output_dir args = Some dir ->
         ~ In (joinpath (Path_of_string dir)
                        (stem (Path_of_string (program args)) ++ "_proof.json"))
              (created_files t)).
Proof.
  intros Hmain Hin Htool Hcode.
  apply main_cases in Hmain.
  destruct Hmain as [(e & _ & Hearly) | (dir & w' & w'' & copy & Hdir & _ & _ & Hcopy & Hrest)].
  - apply Hearly in Hin.
    destruct Hin as [(q & err & Hev) | (src & dst & msg & Hev)]; discriminate Hev.
  - apply main_after_copy_failed_run in Hrest.
    destruct Hrest as (t1 & -> & Hfail).
    cbn [app In] in Hin.
    destruct Hin as [Hin | [Hin | Hin]]; try discriminate Hin.
    destruct (Hfail argv completed Hin Htool Hcode)
      as (Hr & c1 & tail & -> & Hargv & Htail).
    split; [destruct Hr as [-> | [-> | ->]]; eexists; reflexivity |].
    assert (Hbase : no_slash (stem (Path_of_string (program args))))
      by apply stem_no_slash.
    split; [| split].
    + intros argv' outcome Hin'.
      destruct Htail as [-> | (text & ->)]; pick_event Hin';
        cbn; try discriminate; rewrite Htool; discriminate.
    + intros q content err Hin'.
      destruct Htail as [-> | (text & ->)]; pick_event Hin'.
    + intros dir' Hdir' Hin'. rewrite Hdir in Hdir'. injection Hdir' as <-.
      assert (Hfiles :
                forall f,
                  In f (created_files
                          ([EvMkdir (Path_of_string dir) None;
                            EvCopy (Path_of_string (program args))
                                   (Path_of_string dir) copy]
                           ++ EvRun (compile_command
                                       (Path_of_string (program args))
                                       (joinpath (Path_of_string dir)
                                          (stem (Path_of_string (program args))
                                           ++ "_compiled.json")))
                                    (inr c1)
                              :: EvRun argv (inr completed) :: tail)) ->
                  f = joinpath (Path_of_string dir)
                               (name (Path_of_string (program args)))
                  \/ exists rest,
                       no_slash rest /\ rest <> "proof.json"
                       /\ f = joinpath (Path_of_string dir)
                                (stem (Path_of_string (program args))
                                 ++ String "_" rest)).
      { intros f Hf. rewrite Hargv in Hf.
        destruct Hcopy as [-> | ->];
          destruct Htail as [-> | (text & ->)];
          cbn in Hf;
          repeat match type of Hf with
                 | _ \/ _ => destruct Hf as [Hf | Hf]
                 end;
          try contradiction; subst f;
          first [ now left
                | right; eexists; split; [| split; [| reflexivity]];
                  [cbn; tauto | discriminate] ]. }
      apply Hfiles in Hin'.
      destruct Hin' as [Hcopied | (rest & Hrest & Hne & Heq)].
      * symmetry in Hcopied. revert Hcopied.
        apply copy_is_no_artifact. cbn. tauto.
      * apply joinpath_artifact_inj in Heq;
          [congruence | exact Hbase | cbn; tauto | exact Hrest].
Qed.

Lemma main_aborts_when_run_fails_witness :
  fib_failed_run = (fst fib_failed_run, (tt, snd (snd fib_failed_run)))
  /\ In (EvRun fib_run_command (inr fib_failure)) (snd (snd fib_failed_run))
  /\ tool_of fib_run_command = "cairo-run"
  /\ returncode fib_failure <> 0
  /\ (exists e, fst fib_failed_run = Raise e)
  /\ (forall argv' outcome,
         In (EvRun argv' outcome) (snd (snd fib_failed_run)) ->
         tool_of argv' <> "cpu_air_prover")
  /\ (forall q content err,
         ~ In (EvWrite q content err) (snd (snd fib_failed_run)))
  /\ (forall dir,
         output_dir fib_args = Some dir ->
         ~ In (joinpath (Path_of_string dir)
                        (stem (Path_of_string (program fib_args)) ++ "_proof.json"))
              (created_files (snd (snd fib_failed_run)))).
Proof.
  assert (Hrun : fib_failed_run
                 = (fst fib_failed_run, (tt, snd (snd fib_failed_run))))
    by (vm_compute; reflexivity).
  assert (Hin : In (EvRun fib_run_command (inr fib_failure))
                   (snd (snd fib_failed_run)))
    by (vm_compute; right; right; right; left; reflexivity).
  assert (Htool : tool_of fib_run_command = "cairo-run") by reflexivity.
  assert (Hcode : returncode fib_failure <> 0) by (vm_compute; discriminate).
  split; [exact Hrun |]. split; [exact Hin |].
  split; [exact Htool |]. split; [exact Hcode |].
  exact (main_aborts_when_run_fails
           log_table unit (scripted_os Copied tools_run_fails) decode_ascii
           fib_args tt tt _ _ fib_run_command fib_failure
           Hrun Hin Htool Hcode).
Defined.

(** When the console cannot encode the error output of the failed tool,
    the run ends in [UnicodeEncodeError] and nothing is printed. *)
Example fib_unprintable_run_trace :
  fst fib_unprintable_run = Raise UnicodeEncodeError
  /\ snd (snd fib_unprintable_run)
     = [EvMkdir (Path_of_string "out") None;
        EvCopy (Path_of_string "fib.cairo") (Path_of_string "out") Copied;
        EvRun (compile_command (Path_of_string "fib.cairo")
                               (Path_of_string "out/fib_compiled.json"))
              (inr (mkCompleted 0 "" ""));
        EvRun fib_run_command
              (inr (mkCompleted 1 ""
                      ("Erreur: d" ++ String "195" (String "169" "passement"))))].
Proof. split; vm_compute; reflexivity. Qed.

(** The trace of that run: it ends in the [CalledProcessError] of the
    execution tool, after the message with its error output; the compiler,
    then the execution tool were called; six files can have been created,
    the proof is not one of them. *)
Example fib_failed_run_trace :
  fst fib_failed_run
  = Raise (CalledProcessError 1 (map render_arg fib_run_command))
  /\ last (snd (snd fib_failed_run)) (EvPrint (MsgRunFailed ""))
     = EvPrint (MsgRunFailed "Error: trap")
  /\ map tool_of
      (flat_map (fun ev => match ev with
                           | EvRun argv _ => [argv]
                           | _ => []
                           end) (snd (snd fib_failed_run)))
  = ["cairo-compile"; "cairo-run"]
  /\ created_files (snd (snd fib_failed_run))
     = map Path_of_string
           ["out/fib.cairo"; "out/fib_compiled.json"; "out/fib_public_input.json";
            "out/fib_private_input.json"; "out/fib_trace.bin";
            "out/fib_memory.bin"].
Proof. split; [| split; [| split]]; vm_compute; reflexivity. Qed.

Section CreatedFiles.

(** An artifact named after the program follows the convention and lies in
    the output directory. *)
Lemma artifact_follows_convention (out : Path) (base kind ext : string) :
  no_slash base -> no_slash kind -> no_slash ext ->
  kind <> "" -> ext <> "" ->
  named_by_convention base
    (joinpath out (base ++ String "_" (kind ++ String "." ext)))
  /\ in_directory out
       (joinpath out (base ++ String "_" (kind ++ String "." ext))).
Proof.
  intros Hb Hk He Hkne Hene.
  assert (Hrest : no_slash (kind ++ String "." ext)).
  { apply no_slash_app. split; [exact Hk |]. simpl. split; [reflexivity | exact He]. }
  rewrite (joinpath_artifact out base _ Hb Hrest).
  split.
  - exists kind, ext. split; [exact Hkne |]. split; [exact Hene |].
    rewrite name_snoc. reflexivity.
  - unfold in_directory. rewrite name_snoc. reflexivity.
Qed.

(** A configuration document has its fixed name and lies in the output
    directory. *)
Lemma fixed_name_in_directory (out : Path) (n : string) :
  no_slash n -> is_skipped n = false ->
  name (joinpath out n) = n /\ in_directory out (joinpath out n).
Proof.
  intros Hn Hskip. rewrite (joinpath_component out n Hn Hskip).
  unfold in_directory. rewrite name_snoc. split; reflexivity.
Qed.

End CreatedFiles.

(** C8 - As stated the claim fails: in the run of [fib.cairo] into [out],
    the files created include [out/cpu_air_prover_config.json], whose name
    does not start with the base name [fib]. *)
Lemma config_document_not_named_after_program :
  fst fib_run = Ok tt
  /\ ~ (forall f, In f (created_files (snd (snd fib_run))) ->
                  named_by_convention "fib" f).
Proof.
  split; [vm_compute; reflexivity |].
  intros H.
  assert (Hin : In (Path_of_string "out/cpu_air_prover_config.json")
                   (created_files (snd (snd fib_run)))).
  { vm_compute. do 6 right. left. reflexivity. }
  apply H in Hin. destruct Hin as (kind & ext & _ & _ & Hname).
  change (name (Path_of_string "out/cpu_air_prover_config.json"))
    with "cpu_air_prover_config.json" in Hname.
  discriminate Hname.
Qed.

(** C8 (amended) - In a run of [main] that ends well, the files created are,
    in this order: the copy of the program under the program's own file
    name (unless it was already there), then the compiled program, the
    public input, the private input, the trace, the memory, the two
    configuration documents and the proof.  The six artifacts are named
    [<base>_<kind>.<ext>] after the stem of the program path; the two
    configuration documents are named [cpu_air_prover_config.json] and
    [cpu_air_params.json] whatever the program; all eight lie directly in
    the output directory. *)
Theorem main_created_files
        (log_int : Z -> float) (World : Type) (os : OS World)
        (decode_utf8 : string -> option string)
        (args : Namespace) (w0 w1 : World) (t : list event) :
  main log_int os decode_utf8 args (w0, []) = (Ok tt, (w1, t)) ->
  exists dir copied,
    let out := Path_of_string dir in
    let base := stem (Path_of_string (program args)) in
    let artifacts :=
      [joinpath out (base ++ "_compiled.json");
       joinpath out (base ++ "_public_input.json");
       joinpath out (base ++ "_private_input.json");
       joinpath out (base ++ "_trace.bin");
       joinpath out (base ++ "_memory.bin")] in
    let config_file := joinpath out "cpu_air_prover_config.json" in
    let parameter_file := joinpath out "cpu_air_params.json" in
    let proof_file := joinpath out (base ++ "_proof.json") in
    output_dir args = Some dir
    /\ (copied = []
        \/ copied = [joinpath out (name (Path_of_string (program args)))])
    /\ created_files t
       = copied ++ artifacts ++ [config_file; parameter_file; proof_file]
    /\ Forall (fun f => named_by_convention base f /\ in_directory out f)
              (artifacts ++ [proof_file])
    /\ name config_file = "cpu_air_prover_config.json"
    /\ in_directory out config_file
    /\ name parameter_file = "cpu_air_params.json"
    /\ in_directory out parameter_file.
Proof.
  intros Hmain. apply main_cases in Hmain.
  destruct Hmain
    as [(e & He & _) | (dir & w' & w'' & copy & Hdir & _ & _ & Hcopy & Hrest)];
    [discriminate He |].
  apply main_after_copy_Ok in Hrest.
  destruct Hrest as (c1 & c2 & c3 & steps & n & Ht & _). cbv zeta in Ht.
  set (out := Path_of_string dir) in *.
  set (base := stem (Path_of_string (program args))) in *.
  assert (Hbase : no_slash base) by apply stem_no_slash.
  exists dir,
    (match copy with
     | SameFile => []
     | _ => [joinpath out (name (Path_of_string (program args)))]
     end).
  cbv zeta. fold out base.
  split; [exact Hdir |]. split; [destruct Hcopy as [-> | ->]; auto |].
  split; [rewrite Ht; destruct Hcopy as [-> | ->]; reflexivity |].
  assert (Hart : forall kind ext,
             no_slash kind -> no_slash ext -> kind <> "" -> ext <> "" ->
             named_by_convention base
               (joinpath out (base ++ String "_" (kind ++ String "." ext)))
             /\ in_directory out
                  (joinpath out (base ++ String "_" (kind ++ String "." ext))))
    by (intros; now apply artifact_follows_convention).
  split.
  - cbn [app].
    repeat (apply Forall_cons; [| try apply Forall_nil]).
    + apply (Hart "compiled" "json"); cbn; try tauto; discriminate.
    + apply (Hart "public_input" "json"); cbn; try tauto; discriminate.
    + apply (Hart "private_input" "json"); cbn; try tauto; discriminate.
    + apply (Hart "trace" "bin"); cbn; try tauto; discriminate.
    + apply (Hart "memory" "bin"); cbn; try tauto; discriminate.
    + apply (Hart "proof" "json"); cbn; try tauto; discriminate.
  - destruct (fixed_name_in_directory out "cpu_air_prover_config.json")
      as [Hn1 Hd1]; [cbn; tauto | reflexivity |].
    destruct (fixed_name_in_directory out "cpu_air_params.json")
      as [Hn2 Hd2]; [cbn; tauto | reflexivity |].
    repeat split; assumption.
Qed.

Lemma main_created_files_witness :
  fib_run = (Ok tt, (tt, snd (snd fib_run)))
  /\ exists dir copied,
       let out := Path_of_string dir in
       let base := stem (Path_of_string (program fib_args)) in
       let artifacts :=
         [joinpath out (base ++ "_compiled.json");
          joinpath out (base ++ "_public_input.json");
          joinpath out (base ++ "_private_input.json");
          joinpath out (base ++ "_trace.bin");
          joinpath out (base ++ "_memory.bin")] in
       let config_file := joinpath out "cpu_air_prover_config.json" in
       let parameter_file := joinpath out "cpu_air_params.json" in
       let proof_file := joinpath out (base ++ "_proof.json") in
       output_dir fib_args = Some dir
       /\ (copied = []
           \/ copied = [joinpath out (name (Path_of_string (program fib_args)))])
       /\ created_files (snd (snd fib_run))
          = copied ++ artifacts ++ [config_file; parameter_file; proof_file]
       /\ Forall (fun f => named_by_convention base f /\ in_directory out f)
                 (artifacts ++ [proof_file])
       /\ name config_file = "cpu_air_prover_config.json"
       /\ in_directory out config_file
       /\ name parameter_file = "cpu_air_params.json"
       /\ in_directory out parameter_file.
Proof.
  assert (Hrun : fib_run = (Ok tt, (tt, snd (snd fib_run))))
    by (vm_compute; reflexivity).
  split; [exact Hrun |].
  exact (main_created_files
           log_table unit (scripted_os Copied (tools_ok report_512)) decode_ascii
           fib_args tt tt _ Hrun).
Defined.

(** The nine files of the run of [fib.cairo] into [out]. *)
Example fib_run_created_files :
  created_files (snd (snd fib_run))
  = map Path_of_string
        ["out/fib.cairo"; "out/fib_compiled.json"; "out/fib_public_input.json";
         "out/fib_private_input.json"; "out/fib_trace.bin"; "out/fib_memory.bin";
         "out/cpu_air_prover_config.json"; "out/cpu_air_params.json";
         "out/fib_proof.json"].
Proof. vm_compute. reflexivity. Qed.

(** C9 - When the program is a file, the program input (if any) is a file,
    the output directory can be made and the copy of the program into it
    finds source and destination to be the same file, the copy step ends
    normally having made no further call, [main] goes on exactly as the four
    stages do from there, its next call is the compiler, and whatever
    happens later it does not raise [SameFileError]. *)
Theorem main_skips_self_copy
        (log_int : Z -> float) (World : Type) (os : OS World)
        (decode_utf8 : string -> option string)
        (args : Namespace) (dir : string) (w0 w1 w2 : World) :
  os_is_file os w0 (Path_of_string (program args)) = true ->
  (forall s, program_input args = Some s -> s <> "" ->
             os_is_file os w0 (Path_of_string s) = true) ->
  output_dir args = Some dir ->
  os_mkdir os w0 (Path_of_string dir) = (None, w1) ->
  os_copy2 os w1 (Path_of_string (program args)) (Path_of_string dir)
  = (SameFile, w2) ->
  let p := Path_of_string (program args) in
  let out := Path_of_string dir in
  let compile := compile_command p (joinpath out (stem p ++ "_compiled.json")) in
  copy_program os p out (w1, [EvMkdir out None])
  = (Ok tt, (w2, [EvMkdir out None; EvCopy p out SameFile]))
  /\ main log_int os decode_utf8 args (w0, [])
     = main_after_copy log_int os decode_utf8 p (stem p) out
         (w2, [EvMkdir out None; EvCopy p out SameFile])
  /\ (exists rest,
         snd (snd (main log_int os decode_utf8 args (w0, [])))
         = [EvMkdir out None; EvCopy p out SameFile;
            EvRun compile (fst (os_run os w2 compile))] ++ rest)
  /\ fst (main log_int os decode_utf8 args (w0, [])) <> Raise SameFileError.
Proof.
  intros Hfile Hinput Hdir Hmkdir Hcopy p out compile.
  assert (Hstep : copy_program os p out (w1, [EvMkdir out None])
                  = (Ok tt, (w2, [EvMkdir out None; EvCopy p out SameFile]))).
  { cbv beta iota zeta delta [copy_program except_SameFileError copy2 fst snd].
    fold p out in Hcopy. rewrite Hcopy. reflexivity. }
  assert (Hmain : main log_int os decode_utf8 args (w0, [])
                  = main_after_copy log_int os decode_utf8 p (stem p) out
                      (w2, [EvMkdir out None; EvCopy p out SameFile])).
  { cbv beta iota zeta
        delta [main copy_program except_SameFileError mkdir copy2 is_file
               bind ret raise fst snd].
    rewrite Hfile, Hdir. cbv beta iota zeta delta [negb].
    destruct (program_input args) as [s |] eqn:Hs.
    - destruct (String.eqb s "") eqn:Hempty.
      + rewrite Hmkdir. cbv beta iota zeta delta [fst snd app].
        fold p out in Hcopy |- *. rewrite Hcopy. reflexivity.
      + apply String.eqb_neq in Hempty.
        rewrite (Hinput s eq_refl Hempty). cbv beta iota zeta delta [negb].
        rewrite Hmkdir. cbv beta iota zeta delta [fst snd app].
        fold p out in Hcopy |- *. rewrite Hcopy. reflexivity.
    - rewrite Hmkdir. cbv beta iota zeta delta [fst snd app].
      fold p out in Hcopy |- *. rewrite Hcopy. reflexivity. }
  split; [exact Hstep |]. split; [exact Hmain |].
  rewrite Hmain.
  destruct (main_after_copy log_int os decode_utf8 p (stem p) out
              (w2, [EvMkdir out None; EvCopy p out SameFile]))
    as [r [w3 t]] eqn:Hrun.
  apply main_after_copy_starts_with_compile in Hrun.
  destruct Hrun as (Hr & rest & ->).
  split; [| exact Hr].
  exists rest. reflexivity.
Qed.

Lemma main_skips_self_copy_witness :
  let os := scripted_os SameFile (tools_ok report_512) in
  let p := Path_of_string (program fib_args) in
  let out := Path_of_string "out" in
  let compile := compile_command p (joinpath out (stem p ++ "_compiled.json")) in
  os_is_file os tt p = true
  /\ (forall s, program_input fib_args = Some s -> s <> "" ->
                os_is_file os tt (Path_of_string s) = true)
  /\ output_dir fib_args = Some "out"
  /\ os_mkdir os tt out = (None, tt)
  /\ os_copy2 os tt p out = (SameFile, tt)
  /\ copy_program os p out (tt, [EvMkdir out None])
     = (Ok tt, (tt, [EvMkdir out None; EvCopy p out SameFile]))
  /\ main log_table os decode_ascii fib_args (tt, [])
     = main_after_copy log_table os decode_ascii p (stem p) out
         (tt, [EvMkdir out None; EvCopy p out SameFile])
  /\ (exists rest,
         snd (snd (main log_table os decode_ascii fib_args (tt, [])))
         = [EvMkdir out None; EvCopy p out SameFile;
            EvRun compile (fst (os_run os tt compile))] ++ rest)
  /\ fst (main log_table os decode_ascii fib_args (tt, []))
     <> Raise SameFileError.
Proof.
  cbv zeta.
  assert (Hfile : os_is_file (scripted_os SameFile (tools_ok report_512)) tt
                             (Path_of_string (program fib_args)) = true)
    by reflexivity.
  assert (Hinput : forall s, program_input fib_args = Some s -> s <> "" ->
                             os_is_file (scripted_os SameFile (tools_ok report_512))
                                        tt (Path_of_string s) = true)
    by (intros; reflexivity).
  assert (Hdir : output_dir fib_args = Some "out") by reflexivity.
  assert (Hmkdir : os_mkdir (scripted_os SameFile (tools_ok report_512)) tt
                            (Path_of_string "out") = (None, tt))
    by reflexivity.
  assert (Hcopy : os_copy2 (scripted_os SameFile (tools_ok report_512)) tt
                           (Path_of_string (program fib_args))
                           (Path_of_string "out") = (SameFile, tt))
    by reflexivity.
  split; [exact Hfile |]. split; [exact Hinput |]. split; [exact Hdir |].
  split; [exact Hmkdir |]. split; [exact Hcopy |].
  exact (main_skips_self_copy
           log_table unit (scripted_os SameFile (tools_ok report_512))
           decode_ascii fib_args "out" tt tt tt
           Hfile Hinput Hdir Hmkdir Hcopy).
Defined.

(** The run of [fib.cairo] when it already lies in [out]: the copy is
    skipped and the run ends well, with the same calls to the tools. *)
Example fib_same_file_run_ends_well :
  fst fib_same_file_run = Ok tt
  /\ created_files (snd (snd fib_same_file_run))
     = tl (created_files (snd (snd fib_run))).
Proof. split; vm_compute; reflexivity. Qed.

(** * Further properties of the script *)

(** ** [compute_fri_step_list]: totals, lengths, errors *)

Section StepListFacts.

Lemma length_fri_step_list_of_sigma (sigma : Z) :
  0 <= sigma ->
  Z.of_nat (List.length (fri_step_list_of_sigma sigma)) = (sigma + 3) / 4.
Proof.
  intros Hs. rewrite fri_step_list_of_sigma_eq, List.length_app.
  unfold list_mul. rewrite repeat_length.
  assert (Hq : 0 <= sigma / 4) by (apply Z.div_pos; lia).
  pose proof (Z.mod_pos_bound sigma 4 ltac:(lia)) as Hr.
  pose proof (Z.div_mod sigma 4 ltac:(lia)) as Hdm.
  rewrite Nat2Z.inj_add, Z2Nat.id by exact Hq.
  destruct (sigma mod 4 >? 0) eqn:Hpos; rewrite Z.gtb_ltb in Hpos; cbn [List.length].
  - apply Z.ltb_lt in Hpos.
    assert (H : (sigma + 3) / 4 = sigma / 4 + 1); [| lia].
    symmetry. apply (Z.div_unique _ 4 _ (sigma mod 4 - 1)); lia.
  - apply Z.ltb_ge in Hpos.
    assert (H : (sigma + 3) / 4 = sigma / 4); [| lia].
    symmetry. apply (Z.div_unique _ 4 _ 3); lia.
Qed.

(** There is no step exactly when the total is zero or a negative multiple
    of 4. *)
Lemma fri_step_list_of_sigma_nil (sigma : Z) :
  fri_step_list_of_sigma sigma = [] <-> sigma <= 0 /\ sigma mod 4 = 0.
Proof.
  pose proof (Z.mod_pos_bound sigma 4 ltac:(lia)) as Hr.
  pose proof (Z.div_mod sigma 4 ltac:(lia)) as Hdm.
  split.
  - intros Hnil.
    destruct (Z.lt_ge_cases sigma 0) as [Hneg | Hpos].
    + rewrite (fri_step_list_of_sigma_negative sigma Hneg) in Hnil.
      destruct (sigma mod 4 =? 0) eqn:Hz; [| discriminate Hnil].
      apply Z.eqb_eq in Hz. lia.
    + pose proof (fri_step_list_of_sigma_sum sigma Hpos) as Hsum.
      rewrite Hnil in Hsum. unfold sum in Hsum. simpl in Hsum.
      subst sigma. split; [lia | reflexivity].
  - intros [Hle Hz].
    destruct (Z.eq_dec sigma 0) as [-> | Hnz]; [reflexivity |].
    rewrite (fri_step_list_of_sigma_negative sigma) by lia.
    apply Z.eqb_eq in Hz. now rewrite Hz.
Qed.

End StepListFacts.

(** X1 - When the total the code computes is zero or positive, the list it
    returns adds up to that total and has as few elements as steps of at
    most 4 allow: the total divided by 4, rounded up. *)
Theorem compute_fri_step_list_sum_and_length
        (log_int : Z -> float) (nb_steps bound sigma : Z) :
  sigma_fri_step_list log_int nb_steps bound = Ok sigma ->
  0 <= sigma ->
  exists l,
    compute_fri_step_list log_int nb_steps bound = Ok l
    /\ sum l = sigma
    /\ Z.of_nat (List.length l) = (sigma + 3) / 4.
Proof.
  intros Hsigma Hpos. exists (fri_step_list_of_sigma sigma).
  unfold compute_fri_step_list. rewrite Hsigma. split; [reflexivity |].
  split.
  - now apply fri_step_list_of_sigma_sum.
  - now apply length_fri_step_list_of_sigma.
Qed.

Lemma compute_fri_step_list_sum_and_length_witness :
  sigma_fri_step_list log_table 512 64 = Ok 7
  /\ 0 <= 7
  /\ exists l,
       compute_fri_step_list log_table 512 64 = Ok l
       /\ sum l = 7
       /\ Z.of_nat (List.length l) = (7 + 3) / 4.
Proof.
  assert (Hs : sigma_fri_step_list log_table 512 64 = Ok 7)
    by (vm_compute; reflexivity).
  assert (Hpos : 0 <= 7) by lia.
  split; [exact Hs |]. split; [exact Hpos |].
  exact (compute_fri_step_list_sum_and_length log_table 512 64 7 Hs Hpos).
Defined.

(** X2 - The list returned is empty exactly when the total the code computes
    is zero or a negative multiple of 4; any other total gives at least one
    step. *)
Theorem compute_fri_step_list_empty_iff
        (log_int : Z -> float) (nb_steps bound sigma : Z) :
  sigma_fri_step_list log_int nb_steps bound = Ok sigma ->
  (compute_fri_step_list log_int nb_steps bound = Ok []
   <-> sigma <= 0 /\ sigma mod 4 = 0).
Proof.
  intros Hsigma. unfold compute_fri_step_list. rewrite Hsigma. simpl.
  rewrite <- fri_step_list_of_sigma_nil. split.
  - intros H. now injection H.
  - intros ->. reflexivity.
Qed.

Lemma compute_fri_step_list_empty_iff_witness :
  sigma_fri_step_list log_table 4 64 = Ok 0
  /\ (compute_fri_step_list log_table 4 64 = Ok []
      <-> 0 <= 0 /\ 0 mod 4 = 0).
Proof.
  assert (Hs : sigma_fri_step_list log_table 4 64 = Ok 0)
    by (vm_compute; reflexivity).
  split; [exact Hs |].
  exact (compute_fri_step_list_empty_iff log_table 4 64 0 Hs).
Defined.

(** X3 - A step count that is zero or negative is a domain error of the
    logarithm, whatever the bound; so is a bound that is zero or negative,
    once the logarithm of the step count has been rounded up.  No list is
    returned in either case. *)
Theorem compute_fri_step_list_domain_error
        (log_int : Z -> float) (nb_steps bound : Z) :
  nb_steps <= 0 \/ bound <= 0 ->
  (nb_steps <= 0 ->
   compute_fri_step_list log_int nb_steps bound
   = Raise (ValueError "math domain error"))
  /\ (forall c, ceil_log2 log_int nb_steps = Ok c ->
                compute_fri_step_list log_int nb_steps bound
                = Raise (ValueError "math domain error"))
  /\ (forall l, compute_fri_step_list log_int nb_steps bound <> Ok l).
Proof.
  intros Hdom.
  assert (Hnb : nb_steps <= 0 ->
                compute_fri_step_list log_int nb_steps bound
                = Raise (ValueError "math domain error")).
  { intros Hle. unfold compute_fri_step_list, sigma_fri_step_list, ceil_log2,
      math_log. apply Z.leb_le in Hle. now rewrite Hle. }
  assert (Hb : forall c, ceil_log2 log_int nb_steps = Ok c ->
                         compute_fri_step_list log_int nb_steps bound
                         = Raise (ValueError "math domain error")).
  { intros c Hc. pose proof (ceil_log2_Ok_positive log_int _ _ Hc) as Hpos.
    destruct Hdom as [Hle | Hle]; [lia |].
    unfold compute_fri_step_list, sigma_fri_step_list. rewrite Hc. simpl.
    unfold ceil_log2, math_log. apply Z.leb_le in Hle. now rewrite Hle. }
  split; [exact Hnb |]. split; [exact Hb |].
  intros l Hl. apply compute_fri_step_list_Ok_inv in Hl.
  destruct Hl as (c1 & c2 & H1 & H2 & _).
  apply ceil_log2_Ok_positive in H1. apply ceil_log2_Ok_positive in H2.
  lia.
Qed.

Lemma compute_fri_step_list_domain_error_witness :
  (512 <= 0 \/ 0 <= 0)
  /\ (512 <= 0 ->
      compute_fri_step_list log_table 512 0
      = Raise (ValueError "math domain error"))
  /\ (forall c, ceil_log2 log_table 512 = Ok c ->
                compute_fri_step_list log_table 512 0
                = Raise (ValueError "math domain error"))
  /\ (forall l, compute_fri_step_list log_table 512 0 <> Ok l).
Proof.
  assert (Hdom : 512 <= 0 \/ 0 <= 0) by (right; lia).
  split; [exact Hdom |].
  exact (compute_fri_step_list_domain_error log_table 512 0 Hdom).
Defined.

(** ** [get_nb_steps]: numerals and line endings *)

(** X4 - Printing and reading a step count are inverse up to the limit of
    [int]: when the first matching line of a report is the label followed
    by the decimal numeral of a natural number [n] and by text that does
    not start with a digit, [get_nb_steps] returns [n] if the numeral has
    at most 4300 digits, and raises the [ValueError] of [int] if it has
    more. *)
Theorem get_nb_steps_reads_numeral
        (report : string) (before after : list string) (n : Z) (rest : string) :
  0 <= n ->
  no_leading_digit rest ->
  lines_of report
           (before ++ (steps_label ++ string_of_Z n ++ rest)%string :: after) ->
  (forall l, In l before -> ~ matches_steps_pattern l) ->
  (Z.of_nat (String.length (string_of_Z n)) <= 4300 ->
   get_nb_steps report = Ok n)
  /\ (4300 < Z.of_nat (String.length (string_of_Z n)) ->
      get_nb_steps report
      = Raise (ValueError
                 (int_limit_message
                    (Z.of_nat (String.length (string_of_Z n)))))).
Proof.
  intros Hn Hrest Hlines Hbefore.
  destruct (int_of_digits_string_of_Z n Hn) as (Hne & Hall & Hval).
  assert (Hfirst : first_match
                     (before ++ (steps_label ++ string_of_Z n ++ rest)%string
                             :: after)
                     (steps_label ++ string_of_Z n ++ rest) (string_of_Z n)).
  { exists before, after. split; [reflexivity |]. split; [exact Hbefore |].
    split; [exact Hne |]. split; [exact Hall |].
    exists rest. split; [reflexivity | exact Hrest]. }
  split; intros Hlen.
  - replace (Ok n) with (Ok (int_of_digits (string_of_Z n)))
      by now rewrite Hval.
    eapply get_nb_steps_at_first_match; eassumption.
  - eapply get_nb_steps_beyond_limit; eassumption.
Qed.

Lemma get_nb_steps_reads_numeral_witness :
  0 <= 512
  /\ no_leading_digit " (originally 300)"
  /\ lines_of report_512
              (["Program output:"; "  55"; ""]
               ++ (steps_label ++ string_of_Z 512 ++ " (originally 300)")%string
                  :: ["Used memory cells: 1024"])
  /\ (forall l, In l ["Program output:"; "  55"; ""] ->
                ~ matches_steps_pattern l)
  /\ (Z.of_nat (String.length (string_of_Z 512)) <= 4300 ->
      get_nb_steps report_512 = Ok 512)
  /\ (4300 < Z.of_nat (String.length (string_of_Z 512)) ->
      get_nb_steps report_512
      = Raise (ValueError
                 (int_limit_message
                    (Z.of_nat (String.length (string_of_Z 512)))))).
Proof.
  assert (Hn : 0 <= 512) by lia.
  assert (Hrest : no_leading_digit " (originally 300)") by reflexivity.
  assert (Hlines : lines_of report_512
                     (["Program output:"; "  55"; ""]
                      ++ (steps_label ++ string_of_Z 512 ++ " (originally 300)")%string
                         :: ["Used memory cells: 1024"]))
    by exact (splitlines_lines_of report_512).
  assert (Hbefore : forall l, In l ["Program output:"; "  55"; ""] ->
                              ~ matches_steps_pattern l).
  { intros l Hl. apply re_match_steps_None.
    cbn [In] in Hl. destruct Hl as [<- | [<- | [<- | []]]]; reflexivity. }
  split; [exact Hn |]. split; [exact Hrest |].
  split; [exact Hlines |]. split; [exact Hbefore |].
  exact (get_nb_steps_reads_numeral report_512 _ _ 512 _ Hn Hrest Hlines Hbefore).
Defined.

Section LineEndings.
Lemma splitlines_join_lines_crlf (lines : list string) :
  Forall one_line lines ->
  last lines "x" <> "" ->
  splitlines (join_lines_crlf lines) = lines.
Proof.
  unfold splitlines, join_lines_crlf.
  induction lines as [| l lines IH]; intros Hall Hlast.
  - reflexivity.
  - inversion Hall as [| ? ? Hl Hlines]; subst.
    destruct lines as [| l' lines].
    + simpl. rewrite (splitlines_from_last "" l Hl). simpl.
      simpl in Hlast. destruct l; [now elim Hlast | reflexivity].
    + change (String.concat (String "013" (String "010" "")) (l :: l' :: lines))
        with (l ++ String "013" (String "010"
                (String.concat (String "013" (String "010" "")) (l' :: lines))))%string.
      rewrite (splitlines_from_line_crlf "" l _ Hl). simpl append.
      f_equal. apply IH; [exact Hlines | exact Hlast].
Qed.

End LineEndings.

(** X5 - Line endings do not matter: a report whose lines end in carriage
    return and line feed is scanned line by line like the same report with
    line feeds, and [get_nb_steps] gives the same result on both. *)
Theorem get_nb_steps_crlf (lines : list string) :
  Forall one_line lines ->
  last lines "x" <> "" ->
  splitlines (join_lines_crlf lines) = lines
  /\ get_nb_steps (join_lines_crlf lines) = get_nb_steps (join_lines lines).
Proof.
  intros Hall Hlast.
  pose proof (splitlines_join_lines_crlf lines Hall Hlast) as Hcrlf.
  pose proof (splitlines_join_lines lines Hall Hlast) as Hlf.
  split; [exact Hcrlf |].
  unfold get_nb_steps. now rewrite Hcrlf, Hlf.
Qed.

Lemma get_nb_steps_crlf_witness :
  Forall one_line (splitlines report_777)
  /\ last (splitlines report_777) "x" <> ""
  /\ splitlines (join_lines_crlf (splitlines report_777)) = splitlines report_777
  /\ get_nb_steps (join_lines_crlf (splitlines report_777))
     = get_nb_steps (join_lines (splitlines report_777)).
Proof.
  assert (Hall : Forall one_line (splitlines report_777))
    by (vm_compute; repeat constructor).
  assert (Hlast : last (splitlines report_777) "x" <> "")
    by (vm_compute; discriminate).
  split; [exact Hall |]. split; [exact Hlast |].
  exact (get_nb_steps_crlf (splitlines report_777) Hall Hlast).
Defined.

(** ** The stages one by one *)

(** X6 - [run_cairo_program] returns artifacts exactly when the execution
    tool could be started, exited with status 0, and printed output that
    decodes and from which [get_nb_steps] returns a step count (its first
    step-count line has a numeral of at most 4300 digits); the artifacts
    then carry the four paths built from the output directory and the
    program name, and the call of the tool is the only call made.  The
    error output of the tool plays no part. *)
Theorem run_cairo_program_returns_iff
        (World : Type) (os : OS World) (decode_utf8 : string -> option string)
        (compiled out : Path) (program_name : string) (input : option Path)
        (w : World) (t : list event) (a : ExecutionArtifacts) (s' : state World) :
  let command :=
    run_command compiled
                (joinpath out (program_name ++ "_public_input.json"))
                (joinpath out (program_name ++ "_private_input.json"))
                (joinpath out (program_name ++ "_trace.bin"))
                (joinpath out (program_name ++ "_memory.bin")) input in
  run_cairo_program os decode_utf8 compiled out program_name input (w, t)
  = (Ok a, s')
  <-> exists completed w' text,
        os_run os w command = (inr completed, w')
        /\ returncode completed = 0
        /\ decode_utf8 (stdout completed) = Some text
        /\ get_nb_steps text = Ok (nb_steps a)
        /\ a = mkArtifacts (joinpath out (program_name ++ "_public_input.json"))
                           (joinpath out (program_name ++ "_private_input.json"))
                           (joinpath out (program_name ++ "_memory.bin"))
                           (joinpath out (program_name ++ "_trace.bin"))
                           (nb_steps a)
        /\ s' = (w', t ++ [EvRun command (inr completed)]).
Proof.
  cbv zeta. split.
  - intros H. run_script H; try discriminate H.
    injection H as <- <-.
    exists completed, w0, text. apply Z.eqb_eq in Ecode.
    repeat split; assumption.
  - intros (completed & w' & text & Hrun & Hcode & Hdec & Hsteps & Ha & ->).
    cbv beta iota zeta
        delta [run_cairo_program subprocess_run check_returncode print decode
               lift bind ret raise fst snd].
    rewrite Hrun. cbv beta iota zeta.
    apply Z.eqb_eq in Hcode. rewrite Hcode. cbv beta iota zeta.
    rewrite Hdec. cbv beta iota zeta. rewrite Hsteps.
    cbv beta iota zeta. rewrite <- Ha. reflexivity.
Qed.

(** X7 - With a step count that is zero or negative, [generate_prover_config]
    raises the domain error of the logarithm and leaves the machine as it
    was: no file is written, nothing is recorded. *)
Theorem generate_prover_config_nonpositive_steps
        (log_int : Z -> float) (World : Type) (os : OS World)
        (artifacts : ExecutionArtifacts) (out : Path) (s : state World) :
  nb_steps artifacts <= 0 ->
  generate_prover_config log_int os artifacts out s
  = (Raise (ValueError "math domain error"), s).
Proof.
  intros Hle. destruct s as [w t].
  cbv beta iota zeta delta [generate_prover_config lift bind].
  assert (Hfri : compute_fri_step_list log_int (nb_steps artifacts) 64
                 = Raise (ValueError "math domain error")).
  { unfold compute_fri_step_list, sigma_fri_step_list, ceil_log2, math_log.
    apply Z.leb_le in Hle. now rewrite Hle. }
  rewrite Hfri. reflexivity.
Qed.

Lemma generate_prover_config_nonpositive_steps_witness :
  nb_steps zero_steps_artifacts <= 0
  /\ generate_prover_config log_table (scripted_os Copied (tools_ok report_zero))
       zero_steps_artifacts (Path_of_string "out") (tt, [])
     = (Raise (ValueError "math domain error"), (tt, [])).
Proof.
  assert (Hle : nb_steps zero_steps_artifacts <= 0) by (vm_compute; discriminate).
  split; [exact Hle |].
  exact (generate_prover_config_nonpositive_steps
           log_table unit (scripted_os Copied (tools_ok report_zero))
           zero_steps_artifacts (Path_of_string "out") (tt, []) Hle).
Defined.

(** The two configuration files are different files. *)
Lemma config_files_differ (out : Path) :
  joinpath out "cpu_air_params.json" <> joinpath out "cpu_air_prover_config.json".
Proof.
  rewrite !joinpath_component by (cbn; tauto || reflexivity).
  intros H. apply mkPath_snoc_inj in H. discriminate H.
Qed.

(** X8 - [generate_prover_config] writes in a fixed order and stops at the
    first failure: every write goes to one of its two files, the parameter
    document is attempted only after the engine-tuning document was written
    without error, and the function returns, with the paths of these two
    files, only when both were written without error. *)
Theorem generate_prover_config_write_order
        (log_int : Z -> float) (World : Type) (os : OS World)
        (artifacts : ExecutionArtifacts) (out : Path)
        (w w' : World) (t : list event) (r : result (Path * Path)) :
  generate_prover_config log_int os artifacts out (w, []) = (r, (w', t)) ->
  let config_file := joinpath out "cpu_air_prover_config.json" in
  let parameter_file := joinpath out "cpu_air_params.json" in
  (forall ev, In ev t ->
     exists p content err,
       ev = EvWrite p content err /\ (p = config_file \/ p = parameter_file))
  /\ (forall content err,
        In (EvWrite parameter_file content err) t ->
        hd_error t = Some (EvWrite config_file (dumps config) None))
  /\ (forall files,
        r = Ok files ->
        files = (config_file, parameter_file)
        /\ exists steps,
             compute_fri_step_list log_int (nb_steps artifacts) 64 = Ok steps
             /\ t = [EvWrite config_file (dumps config) None;
                     EvWrite parameter_file (dumps (parameters steps 64)) None])
  /\ (forall p content msg,
        In (EvWrite p content (Some msg)) t -> r = Raise (OSError msg)).
Proof.
  intros H. cbv zeta. run_script H; close_run H;
    (split; [| split; [| split]]).
  all: try (intros ev Hev; pick_event Hev; solve [eauto 6]).
  all: try (intros p content m Hin; pick_event Hin; reflexivity).
  all: try (intros files Hr; discriminate Hr).
  all: try (intros content err Hin; reflexivity).
  - intros content err [Hin | []].
    assert (Hp : joinpath out "cpu_air_prover_config.json"
                 = joinpath out "cpu_air_params.json") by congruence.
    symmetry in Hp. now apply config_files_differ in Hp.
Qed.

Lemma generate_prover_config_write_order_witness :
  config_run_unwritable
  = (fst config_run_unwritable, (tt, snd (snd config_run_unwritable)))
  /\ let t := snd (snd config_run_unwritable) in
     let r := fst config_run_unwritable in
     let config_file := joinpath (Path_of_string "a") "cpu_air_prover_config.json" in
     let parameter_file := joinpath (Path_of_string "a") "cpu_air_params.json" in
     (forall ev, In ev t ->
        exists p content err,
          ev = EvWrite p content err /\ (p = config_file \/ p = parameter_file))
     /\ (forall content err,
           In (EvWrite parameter_file content err) t ->
           hd_error t = Some (EvWrite config_file (dumps config) None))
     /\ (forall files,
           r = Ok files ->
           files = (config_file, parameter_file)
           /\ exists steps,
                compute_fri_step_list log_table (nb_steps artifacts_a) 64 = Ok steps
                /\ t = [EvWrite config_file (dumps config) None;
                        EvWrite parameter_file (dumps (parameters steps 64)) None])
     /\ (forall p content msg,
           In (EvWrite p content (Some msg)) t -> r = Raise (OSError msg)).
Proof.
  assert (Hrun : config_run_unwritable
                 = (fst config_run_unwritable,
                    (tt, snd (snd config_run_unwritable))))
    by (vm_compute; reflexivity).
  split; [exact Hrun |].
  exact (generate_prover_config_write_order
           log_table unit _ artifacts_a (Path_of_string "a") tt tt _ _ Hrun).
Defined.

(** On that machine the run stops at the first document. *)
Example config_run_unwritable_trace :
  fst config_run_unwritable = Raise (OSError "Read-only file system")
  /\ map fst (written (snd (snd config_run_unwritable)))
     = [Path_of_string "a/cpu_air_prover_config.json"].
Proof. split; vm_compute; reflexivity. Qed.

(** ** [main]: every way a run can end *)

Section MainOutcomes.

Variable log_int : Z -> float.
Variable World : Type.
Variable os : OS World.
Variable decode_utf8 : string -> option string.

(** The calls of the four stages: the three tools on their command lines,
    the two configuration files, messages. *)
Lemma main_after_copy_events
      (p : Path) (base : string) (out : Path)
      (w w' : World) (t0 t' : list event) (r : result unit) :
  main_after_copy log_int os decode_utf8 p base out (w, t0) = (r, (w', t')) ->
  exists t1,
    t' = t0 ++ t1
    /\ forall ev, In ev t1 ->
         match ev with
         | EvRun argv _ =>
             argv = compile_command p (joinpath out (base ++ "_compiled.json"))
             \/ argv = run_command (joinpath out (base ++ "_compiled.json"))
                         (joinpath out (base ++ "_public_input.json"))
                         (joinpath out (base ++ "_private_input.json"))
                         (joinpath out (base ++ "_trace.bin"))
                         (joinpath out (base ++ "_memory.bin")) None
             \/ exists n,
                  argv = prove_command
                           (mkArtifacts
                              (joinpath out (base ++ "_public_input.json"))
                              (joinpath out (base ++ "_private_input.json"))
                              (joinpath out (base ++ "_memory.bin"))
                              (joinpath out (base ++ "_trace.bin")) n)
                           (joinpath out "cpu_air_prover_config.json")
                           (joinpath out "cpu_air_params.json")
                           (joinpath out (base ++ "_proof.json"))
         | EvWrite q _ _ =>
             q = joinpath out "cpu_air_prover_config.json"
             \/ q = joinpath out "cpu_air_params.json"
         | EvPrint _ => True
         | EvMkdir _ _ | EvCopy _ _ _ => False
         end.
Proof.
  intros H. run_script H; close_run H;
    (eexists; split; [reflexivity |]);
    intros ev Hev; pick_event Hev; eauto 6.
Qed.

(** How a run of [main] can end before the four stages. *)
Lemma main_outcomes (args : Namespace) (w0 w1 : World) (r : result unit)
      (t : list event) :
  main log_int os decode_utf8 args (w0, []) = (r, (w1, t)) ->
  (t = [] /\ w1 = w0
   /\ ((exists msg, r = Raise (RuntimeError msg)) \/ r = Raise TypeError))
  \/ (exists dir msg,
         output_dir args = Some dir
         /\ r = Raise (OSError msg)
         /\ (t = [EvMkdir (Path_of_string dir) (Some msg)]
             \/ t = [EvMkdir (Path_of_string dir) None;
                     EvCopy (Path_of_string (program args)) (Path_of_string dir)
                            (CopyFailed msg)]))
  \/ (exists dir w' outcome,
         output_dir args = Some dir
         /\ (outcome = Copied \/ outcome = SameFile)
         /\ main_after_copy log_int os decode_utf8
              (Path_of_string (program args))
              (stem (Path_of_string (program args)))
              (Path_of_string dir)
              (w', [EvMkdir (Path_of_string dir) None;
                    EvCopy (Path_of_string (program args)) (Path_of_string dir)
                           outcome])
            = (r, (w1, t))).
Proof.
  intros H. unfold_main H. repeat next_check H; cbn [app] in H;
    first [ left; injection H as <- <- <-; solve [eauto 8]
          | right; left; injection H as <- <- <-; solve [eauto 8]
          | right; right; solve [eauto 10] ].
Qed.

End MainOutcomes.

Section StageFailures.

Variable log_int : Z -> float.
Variable World : Type.
Variable os : OS World.
Variable decode_utf8 : string -> option string.

(** When the compiler exits with a non-zero status, its call is the only
    one of the four stages. *)
Lemma main_after_copy_failed_compile
      (p : Path) (base : string) (out : Path)
      (w w' : World) (t0 t' : list event) (r : result unit) :
  main_after_copy log_int os decode_utf8 p base out (w, t0) = (r, (w', t')) ->
  exists t1,
    t' = t0 ++ t1
    /\ forall argv c,
         In (EvRun argv (inr c)) t1 ->
         tool_of argv = "cairo-compile" ->
         returncode c <> 0 ->
         r = Raise (CalledProcessError (returncode c) (map render_arg argv))
         /\ argv = compile_command p (joinpath out (base ++ "_compiled.json"))
         /\ t1 = [EvRun argv (inr c)].
Proof.
  intros H. run_script H; close_run H;
    (eexists; split; [reflexivity |]);
    intros argv c Hin Htool Hcode;
    pick_event Hin;
    try (cbn in Htool; discriminate Htool);
    try (apply Z.eqb_eq in Ecode; contradiction).
  repeat split.
Qed.



(** The message of success is printed exactly by the runs that end well. *)
Lemma main_after_copy_message
      (p : Path) (base : string) (out : Path)
      (w w' : World) (t0 t' : list event) (r : result unit) :
  main_after_copy log_int os decode_utf8 p base out (w, t0) = (r, (w', t')) ->
  exists t1,
    t' = t0 ++ t1
    /\ (r = Ok tt <-> exists proof_file, In (EvPrint (MsgProofGenerated proof_file)) t1).
Proof.
  intros H. run_script H; close_run H;
    (eexists; split; [reflexivity |]);
    (split; [intros Hr; try discriminate Hr
            | intros (proof_file & Hin); pick_event Hin]).
  - eexists. do 5 right. left. reflexivity.
  - reflexivity.
Qed.

End StageFailures.

(** X9 - [main] checks its inputs before it does anything: when the program
    is not a file, or the program input that was given is not a file, it
    raises [RuntimeError] with the message naming the path, and the machine
    is as before: no directory made, no file copied, no tool called. *)
Theorem main_rejects_missing_input
        (log_int : Z -> float) (World : Type) (os : OS World)
        (decode_utf8 : string -> option string)
        (args : Namespace) (w : World) (t : list event) :
  os_is_file os w (Path_of_string (program args)) = false
  \/ (exists s, program_input args = Some s /\ s <> ""
                /\ os_is_file os w (Path_of_string s) = false) ->
  exists msg,
    main log_int os decode_utf8 args (w, t) = (Raise (RuntimeError msg), (w, t))
    /\ (os_is_file os w (Path_of_string (program args)) = false ->
        msg = ("Program " ++ path_str (Path_of_string (program args))
               ++ " is not a file")%string)
    /\ (os_is_file os w (Path_of_string (program args)) = true ->
        forall s, program_input args = Some s ->
                  msg = ("Program input file " ++ path_str (Path_of_string s)
                         ++ " is not a file")%string).
Proof.
  intros Hmissing.
  destruct (os_is_file os w (Path_of_string (program args))) eqn:Hfile.
  - destruct Hmissing as [Hno | (s & Hs & Hne & Hinput)]; [discriminate Hno |].
    eexists. split; [| split; [discriminate |]].
    + cbv beta iota zeta
          delta [main copy_program except_SameFileError mkdir copy2 is_file
                 bind ret raise fst snd].
      rewrite Hfile, Hs. cbv beta iota zeta delta [negb].
      apply String.eqb_neq in Hne. rewrite Hne, Hinput.
      cbv beta iota zeta delta [negb]. reflexivity.
    + intros _ s' Hs'. rewrite Hs in Hs'. now injection Hs' as <-.
  - eexists. split; [| split; [reflexivity | discriminate]].
    cbv beta iota zeta
        delta [main copy_program except_SameFileError mkdir copy2 is_file
               bind ret raise fst snd].
    rewrite Hfile. reflexivity.
Qed.

Lemma main_rejects_missing_input_witness :
  let os := machine (fun p => String.eqb (name p) "fib.cairo") None Copied
                    (fun argv => inr (tools_ok report_512 argv)) (fun _ => None) in
  (os_is_file os tt (Path_of_string (program fib_args_with_input)) = false
   \/ (exists s, program_input fib_args_with_input = Some s /\ s <> ""
                 /\ os_is_file os tt (Path_of_string s) = false))
  /\ exists msg,
       main log_table os decode_ascii fib_args_with_input (tt, [])
       = (Raise (RuntimeError msg), (tt, []))
       /\ (os_is_file os tt (Path_of_string (program fib_args_with_input)) = false ->
           msg = ("Program "
                  ++ path_str (Path_of_string (program fib_args_with_input))
                  ++ " is not a file")%string)
       /\ (os_is_file os tt (Path_of_string (program fib_args_with_input)) = true ->
           forall s, program_input fib_args_with_input = Some s ->
                     msg = ("Program input file " ++ path_str (Path_of_string s)
                            ++ " is not a file")%string).
Proof.
  cbv zeta.
  assert (Hmissing :
            os_is_file (machine (fun p => String.eqb (name p) "fib.cairo") None
                                Copied
                                (fun argv => inr (tools_ok report_512 argv))
                                (fun _ => None))
                       tt (Path_of_string (program fib_args_with_input)) = false
            \/ (exists s, program_input fib_args_with_input = Some s /\ s <> ""
                          /\ os_is_file
                               (machine (fun p => String.eqb (name p) "fib.cairo")
                                        None Copied
                                        (fun argv => inr (tools_ok report_512 argv))
                                        (fun _ => None))
                               tt (Path_of_string s) = false)).
  { right. exists "input.json".
    split; [reflexivity |]. split; [discriminate | reflexivity]. }
  split; [exact Hmissing |].
  exact (main_rejects_missing_input log_table unit _ decode_ascii
           fib_args_with_input tt [] Hmissing).
Defined.

(** The message of that run. *)
Example main_missing_input_message :
  fst (main log_table
            (machine (fun p => String.eqb (name p) "fib.cairo") None Copied
                     (fun argv => inr (tools_ok report_512 argv)) (fun _ => None))
            decode_ascii fib_args_with_input (tt, []))
  = Raise (RuntimeError "Program input file input.json is not a file").
Proof. vm_compute. reflexivity. Qed.

(** X10 - Without the option [--output-dir], and with inputs that are files,
    [main] raises [TypeError] when it builds the path of the output
    directory, before any directory is made or tool called. *)
Theorem main_without_output_dir
        (log_int : Z -> float) (World : Type) (os : OS World)
        (decode_utf8 : string -> option string)
        (args : Namespace) (w : World) (t : list event) :
  os_is_file os w (Path_of_string (program args)) = true ->
  (forall s, program_input args = Some s -> s <> "" ->
             os_is_file os w (Path_of_string s) = true) ->
  output_dir args = None ->
  main log_int os decode_utf8 args (w, t) = (Raise TypeError, (w, t)).
Proof.
  intros Hfile Hinput Hdir.
  cbv beta iota zeta
      delta [main copy_program except_SameFileError mkdir copy2 is_file
             bind ret raise fst snd].
  rewrite Hfile, Hdir. cbv beta iota zeta delta [negb].
  destruct (program_input args) as [s |] eqn:Hs; [| reflexivity].
  destruct (String.eqb s "") eqn:Hempty; [reflexivity |].
  apply String.eqb_neq in Hempty. rewrite (Hinput s eq_refl Hempty).
  reflexivity.
Qed.

Lemma main_without_output_dir_witness :
  let os := scripted_os Copied (tools_ok report_512) in
  os_is_file os tt (Path_of_string (program fib_args_no_output)) = true
  /\ (forall s, program_input fib_args_no_output = Some s -> s <> "" ->
                os_is_file os tt (Path_of_string s) = true)
  /\ output_dir fib_args_no_output = None
  /\ main log_table os decode_ascii fib_args_no_output (tt, [])
     = (Raise TypeError, (tt, [])).
Proof.
  cbv zeta.
  assert (Hfile : os_is_file (scripted_os Copied (tools_ok report_512)) tt
                             (Path_of_string (program fib_args_no_output)) = true)
    by reflexivity.
  assert (Hinput : forall s, program_input fib_args_no_output = Some s -> s <> "" ->
                             os_is_file (scripted_os Copied (tools_ok report_512))
                                        tt (Path_of_string s) = true)
    by (intros; reflexivity).
  assert (Hdir : output_dir fib_args_no_output = None) by reflexivity.
  split; [exact Hfile |]. split; [exact Hinput |]. split; [exact Hdir |].
  exact (main_without_output_dir log_table unit _ decode_ascii
           fib_args_no_output tt [] Hfile Hinput Hdir).
Defined.

(** X11 - When the output directory cannot be made, or the copy of the
    program fails for another reason than being the same file, [main] ends
    in the [OSError] of that call; no tool was called and no configuration
    document written. *)
Theorem main_stops_when_directory_or_copy_fails
        (log_int : Z -> float) (World : Type) (os : OS World)
        (decode_utf8 : string -> option string)
        (args : Namespace) (w0 w1 : World) (r : result unit) (t : list event)
        (q src dst : Path) (msg : string) :
  main log_int os decode_utf8 args (w0, []) = (r, (w1, t)) ->
  In (EvMkdir q (Some msg)) t \/ In (EvCopy src dst (CopyFailed msg)) t ->
  r = Raise (OSError msg)
  /\ (forall argv outcome, ~ In (EvRun argv outcome) t)
  /\ (forall p content err, ~ In (EvWrite p content err) t).
Proof.
  intros Hmain Hfail. apply main_outcomes in Hmain.
  destruct Hmain
    as [(-> & _ & _)
       | [(dir & m & _ & -> & [-> | ->])
         | (dir & w' & copy & _ & Hcopy & Hrest)]].
  - destruct Hfail as [[] | []].
  - destruct Hfail as [Hin | Hin]; pick_event Hin.
    split; [reflexivity |].
    split; [intros argv o Hin | intros p c e Hin]; pick_event Hin.
  - destruct Hfail as [Hin | Hin]; pick_event Hin.
    split; [reflexivity |].
    split; [intros argv o Hin | intros p c e Hin]; pick_event Hin.
  - exfalso. apply main_after_copy_events in Hrest.
    destruct Hrest as (t1 & -> & Hevents).
    destruct Hfail as [Hin | Hin]; cbn [app In] in Hin;
      destruct Hin as [Hin | [Hin | Hin]];
      try discriminate Hin;
      try (apply Hevents in Hin; exact Hin);
      destruct Hcopy as [-> | ->]; congruence.
Qed.

Lemma main_stops_when_directory_or_copy_fails_witness :
  fib_mkdir_failed_run
  = (fst fib_mkdir_failed_run, (tt, snd (snd fib_mkdir_failed_run)))
  /\ (In (EvMkdir (Path_of_string "out") (Some "Permission denied"))
         (snd (snd fib_mkdir_failed_run))
      \/ In (EvCopy (Path_of_string "fib.cairo") (Path_of_string "out")
                    (CopyFailed "Permission denied"))
            (snd (snd fib_mkdir_failed_run)))
  /\ fst fib_mkdir_failed_run = Raise (OSError "Permission denied")
  /\ (forall argv outcome, ~ In (EvRun argv outcome) (snd (snd fib_mkdir_failed_run)))
  /\ (forall p content err,
         ~ In (EvWrite p content err) (snd (snd fib_mkdir_failed_run))).
Proof.
  assert (Hrun : fib_mkdir_failed_run
                 = (fst fib_mkdir_failed_run, (tt, snd (snd fib_mkdir_failed_run))))
    by (vm_compute; reflexivity).
  assert (Hfail : In (EvMkdir (Path_of_string "out") (Some "Permission denied"))
                     (snd (snd fib_mkdir_failed_run))
                  \/ In (EvCopy (Path_of_string "fib.cairo") (Path_of_string "out")
                                (CopyFailed "Permission denied"))
                        (snd (snd fib_mkdir_failed_run)))
    by (left; vm_compute; left; reflexivity).
  split; [exact Hrun |]. split; [exact Hfail |].
  exact (main_stops_when_directory_or_copy_fails
           log_table unit _ decode_ascii fib_args tt tt _ _ _ _ _ _ Hrun Hfail).
Defined.

(** X12 - In every run of [main] in which the compiler was called and exited
    with a non-zero status, [main] ends in the [CalledProcessError] of that
    call, and that call is the last one: the trace is the directory, the
    copy and the compiler; the execution tool and the prover were not
    called and nothing was written. *)
Theorem main_aborts_when_compile_fails
        (log_int : Z -> float) (World : Type) (os : OS World)
        (decode_utf8 : string -> option string)
        (args : Namespace) (w0 w1 : World) (r : result unit) (t : list event)
        (argv : list arg) (completed : CompletedProcess) :
  main log_int os decode_utf8 args (w0, []) = (r, (w1, t)) ->
  In (EvRun argv (inr completed)) t ->
  tool_of argv = "cairo-compile" ->
  returncode completed <> 0 ->
  r = Raise (CalledProcessError (returncode completed) (map render_arg argv))
  /\ exists dir copy,
       output_dir args = Some dir
       /\ argv = compile_command
                   (Path_of_string (program args))
                   (joinpath (Path_of_string dir)
                             (stem (Path_of_string (program args))
                              ++ "_compiled.json"))
       /\ t = [EvMkdir (Path_of_string dir) None;
               EvCopy (Path_of_string (program args)) (Path_of_string dir) copy;
               EvRun argv (inr completed)].
Proof.
  intros Hmain Hin Htool Hcode. apply main_outcomes in Hmain.
  destruct Hmain
    as [(-> & _ & _)
       | [(dir & m & _ & -> & [-> | ->])
         | (dir & w' & copy & Hdir & Hcopy & Hrest)]];
    try (pick_event Hin; fail).
  apply main_after_copy_failed_compile in Hrest.
  destruct Hrest as (t1 & -> & Hfail).
  cbn [app In] in Hin. destruct Hin as [Hin | [Hin | Hin]]; try discriminate Hin.
  destruct (Hfail argv completed Hin Htool Hcode) as (-> & Hargv & ->).
  split; [reflexivity |].
  exists dir, copy. repeat split; assumption.
Qed.

Lemma main_aborts_when_compile_fails_witness :
  let argv := compile_command (Path_of_string "fib.cairo")
                              (Path_of_string "out/fib_compiled.json") in
  let completed := mkCompleted 1 "" "fib.cairo:1:1: Unexpected token" in
  fib_compile_failed_run
  = (fst fib_compile_failed_run, (tt, snd (snd fib_compile_failed_run)))
  /\ In (EvRun argv (inr completed)) (snd (snd fib_compile_failed_run))
  /\ tool_of argv = "cairo-compile"
  /\ returncode completed <> 0
  /\ fst fib_compile_failed_run
     = Raise (CalledProcessError (returncode completed) (map render_arg argv))
  /\ exists dir copy,
       output_dir fib_args = Some dir
       /\ argv = compile_command
                   (Path_of_string (program fib_args))
                   (joinpath (Path_of_string dir)
                             (stem (Path_of_string (program fib_args))
                              ++ "_compiled.json"))
       /\ snd (snd fib_compile_failed_run)
          = [EvMkdir (Path_of_string dir) None;
             EvCopy (Path_of_string (program fib_args)) (Path_of_string dir) copy;
             EvRun argv (inr completed)].
Proof.
  cbv zeta.
  assert (Hrun : fib_compile_failed_run
                 = (fst fib_compile_failed_run,
                    (tt, snd (snd fib_compile_failed_run))))
    by (vm_compute; reflexivity).
  assert (Hin : In (EvRun (compile_command (Path_of_string "fib.cairo")
                                           (Path_of_string "out/fib_compiled.json"))
                          (inr (mkCompleted 1 "" "fib.cairo:1:1: Unexpected token")))
                   (snd (snd fib_compile_failed_run)))
    by (vm_compute; right; right; left; reflexivity).
  assert (Htool : tool_of (compile_command (Path_of_string "fib.cairo")
                                           (Path_of_string "out/fib_compiled.json"))
                  = "cairo-compile") by reflexivity.
  assert (Hcode : returncode (mkCompleted 1 "" "fib.cairo:1:1: Unexpected token")
                  <> 0) by (vm_compute; discriminate).
  split; [exact Hrun |]. split; [exact Hin |].
  split; [exact Htool |]. split; [exact Hcode |].
  exact (main_aborts_when_compile_fails
           log_table unit (scripted_os Copied tools_compile_fails) decode_ascii
           fib_args tt tt _ _ _ _ Hrun Hin Htool Hcode).
Defined.





(** X15 - [main] checks the program input but never hands it on: in no run,
    whatever the arguments, does a command line hold the option
    [--program_input]; the execution tool is always called on the ten
    arguments of a run without input. *)
Theorem main_never_passes_program_input
        (log_int : Z -> float) (World : Type) (os : OS World)
        (decode_utf8 : string -> option string)
        (args : Namespace) (w0 w1 : World) (r : result unit) (t : list event)
        (argv : list arg) (outcome : string + CompletedProcess) :
  main log_int os decode_utf8 args (w0, []) = (r, (w1, t)) ->
  In (EvRun argv outcome) t ->
  (forall q, ~ In (OptPath "--program_input" q) argv)
  /\ (tool_of argv = "cairo-run" -> List.length argv = 10%nat).
Proof.
  intros Hmain Hin. apply main_outcomes in Hmain.
  destruct Hmain
    as [(-> & _ & _)
       | [(dir & m & _ & _ & [-> | ->])
         | (dir & w' & copy & Hdir & Hcopy & Hrest)]];
    try (pick_event Hin; fail).
  apply main_after_copy_events in Hrest.
  destruct Hrest as (t1 & -> & Hevents).
  cbn [app In] in Hin. destruct Hin as [Hin | [Hin | Hin]]; try discriminate Hin.
  apply Hevents in Hin.
  destruct Hin as [-> | [-> | (n & ->)]].
  - split; [| cbn; discriminate].
    intros q Hq. cbn in Hq. intuition discriminate.
  - split; [| reflexivity].
    intros q Hq. cbn in Hq. intuition discriminate.
  - split; [| cbn; discriminate].
    intros q Hq. cbn in Hq. intuition discriminate.
Qed.

Lemma main_never_passes_program_input_witness :
  fib_run_with_input
  = (fst fib_run_with_input, (tt, snd (snd fib_run_with_input)))
  /\ In (EvRun fib_run_command (inr (mkCompleted 0 report_512 "")))
        (snd (snd fib_run_with_input))
  /\ (forall q, ~ In (OptPath "--program_input" q) fib_run_command)
  /\ (tool_of fib_run_command = "cairo-run" ->
      List.length fib_run_command = 10%nat).
Proof.
  assert (Hrun : fib_run_with_input
                 = (fst fib_run_with_input, (tt, snd (snd fib_run_with_input))))
    by (vm_compute; reflexivity).
  assert (Hin : In (EvRun fib_run_command (inr (mkCompleted 0 report_512 "")))
                   (snd (snd fib_run_with_input)))
    by (vm_compute; do 3 right; left; reflexivity).
  split; [exact Hrun |]. split; [exact Hin |].
  exact (main_never_passes_program_input
           log_table unit (scripted_os Copied (tools_ok report_512)) decode_ascii
           fib_args_with_input tt tt _ _ _ _ Hrun Hin).
Defined.

(** With the program input given, the run makes the calls of the run
    without it. *)
Example fib_run_with_input_same_trace :
  fib_run_with_input = fib_run.
Proof. vm_compute. reflexivity. Qed.

(** When the console cannot encode the path of the proof, the run raises
    [UnicodeEncodeError] after the prover has exited with status 0, and the
    message is not printed. *)
Example accent_run_trace :
  fst accent_run = Raise UnicodeEncodeError
  /\ map tool_of
         (flat_map (fun ev => match ev with
                              | EvRun argv (inr (mkCompleted 0 _ _)) => [argv]
                              | _ => []
                              end) (snd (snd accent_run)))
     = ["cairo-compile"; "cairo-run"; "cpu_air_prover"]
  /\ forall msg, ~ In (EvPrint msg) (snd (snd accent_run)).
Proof.
  split; [vm_compute; reflexivity |]. split; [vm_compute; reflexivity |].
  intros msg Hin. vm_compute in Hin.
  repeat match type of Hin with
         | _ \/ _ => destruct Hin as [Hin | Hin]
         end;
    try contradiction; discriminate Hin.
Qed.

(** X16 - The message "Proof successfully generated" is printed by exactly
    the runs of [main] that return normally, and then as the last call; a
    run that raises never prints it, and no run raises [SameFileError]. *)
Theorem main_success_message_iff
        (log_int : Z -> float) (World : Type) (os : OS World)
        (decode_utf8 : string -> option string)
        (args : Namespace) (w0 w1 : World) (r : result unit) (t : list event) :
  main log_int os decode_utf8 args (w0, []) = (r, (w1, t)) ->
  (r = Ok tt <-> exists proof_file, In (EvPrint (MsgProofGenerated proof_file)) t)
  /\ (r = Ok tt ->
      exists dir,
        output_dir args = Some dir
        /\ last t (EvPrint (MsgRunFailed ""))
           = EvPrint (MsgProofGenerated
                        (joinpath (Path_of_string dir)
                                  (stem (Path_of_string (program args))
                                   ++ "_proof.json"))))
  /\ r <> Raise SameFileError.
Proof.
  intros Hmain. pose proof Hmain as Hcases. apply main_outcomes in Hcases.
  destruct Hcases
    as [(-> & _ & Hr)
       | [(dir & m & _ & -> & Ht)
         | (dir & w' & copy & Hdir & Hcopy & Hrest)]].
  - split; [| split].
    + split; [| intros (pf & [])].
      intros ->. destruct Hr as [(m & Hr) | Hr]; discriminate Hr.
    + intros ->. destruct Hr as [(m & Hr) | Hr]; discriminate Hr.
    + destruct Hr as [(m & ->) | ->]; discriminate.
  - split; [| split]; try discriminate.
    split; [discriminate |].
    intros (pf & Hin). destruct Ht as [-> | ->]; pick_event Hin.
  - pose proof (main_after_copy_message _ _ _ _ _ _ _ _ _ _ _ _ Hrest)
      as (t1 & Ht & Hiff).
    pose proof (main_after_copy_starts_with_compile _ _ _ _ _ _ _ _ _ _ _ _ Hrest)
      as (Hsame & _).
    split; [| split; [| exact Hsame]].
    + rewrite Hiff, Ht. split; intros (pf & Hin); exists pf.
      * apply in_or_app. now right.
      * cbn [app In] in Hin.
        destruct Hin as [Hin | [Hin | Hin]]; try discriminate Hin. exact Hin.
    + intros ->. exists dir. split; [exact Hdir |].
      apply main_after_copy_Ok in Hrest.
      destruct Hrest as (c1 & c2 & c3 & steps & n & Hrest).
      cbv zeta in Hrest. destruct Hrest as [-> _]. reflexivity.
Qed.

Lemma main_success_message_iff_witness :
  fib_prove_failed_run
  = (fst fib_prove_failed_run, (tt, snd (snd fib_prove_failed_run)))
  /\ (fst fib_prove_failed_run = Ok tt
      <-> exists proof_file,
            In (EvPrint (MsgProofGenerated proof_file))
               (snd (snd fib_prove_failed_run)))
  /\ (fst fib_prove_failed_run = Ok tt ->
      exists dir,
        output_dir fib_args = Some dir
        /\ last (snd (snd fib_prove_failed_run)) (EvPrint (MsgRunFailed ""))
           = EvPrint (MsgProofGenerated
                        (joinpath (Path_of_string dir)
                                  (stem (Path_of_string (program fib_args))
                                   ++ "_proof.json"))))
  /\ fst fib_prove_failed_run <> Raise SameFileError.
Proof.
  assert (Hrun : fib_prove_failed_run
                 = (fst fib_prove_failed_run, (tt, snd (snd fib_prove_failed_run))))
    by (vm_compute; reflexivity).
  split; [exact Hrun |].
  exact (main_success_message_iff
           log_table unit (scripted_os Copied tools_prove_fails) decode_ascii
           fib_args tt tt _ _ Hrun).
Defined.
